(** * AI_Restaurant_Bot: the LLM orchestration pipeline, the tool dispatcher,
      the booking tools and the long-term memory log, embedded in Rocq.

    The development follows the Python sources module by module:
    - [Py]      the fragment of Python the code relies on (str, dict, truthiness,
                int(), exceptions), over values of the shape produced by JSON;
    - [Llm]     songbird/agent/llm.py   (class GeminiLLM);
    - [Tools]   songbird/agent/tools.py (the booking client);
    - [ToolsCopy] the second copy of tools.py, where it differs;
    - [Agent]   songbird/agent/agent.py (class ConversationalAgent);
    - [MemoryStore] songbird/agent/memory.py (class Memory, class MemoryManager).

    The hosted LLM, the booking REST API and the wall clock are oracles of a
    [World]; library functions whose full behaviour is CPython's (json.loads,
    json.dumps, strptime, repr of floats and containers, the text of built-in
    exception messages) are fields of a [PyLib] record and are never assumed to
    have any property that is not stated as a hypothesis. *)

From Stdlib Require Import ZArith NArith QArith Qround List String Ascii Bool Lia.
From Stdlib Require Import DecimalString.
From stdpp Require Import base option list gmap.

Import ListNotations.
Local Open Scope Z_scope.
Set Warnings "-register-all".

(* ===================================================================== *)
(** * Python values                                                        *)
(* ===================================================================== *)

Module Py.

(** A Python [str] is a sequence of Unicode code points. *)
Definition pystr : Type := list N.

(** Decoding of the UTF-8 bytes of a Rocq string literal, so that the literals
    of the source can be written as they are. *)
Fixpoint utf8_decode (bs : list N) : pystr :=
  match bs with
  | [] => []
  | b0 :: r0 =>
    if (b0 <? 128)%N then b0 :: utf8_decode r0 else
    match r0 with
    | [] => []
    | b1 :: r1 =>
      if (b0 <? 224)%N then ((b0 - 192) * 64 + (b1 - 128))%N :: utf8_decode r1 else
      match r1 with
      | [] => []
      | b2 :: r2 =>
        if (b0 <? 240)%N
        then ((b0 - 224) * 4096 + (b1 - 128) * 64 + (b2 - 128))%N :: utf8_decode r2
        else
          match r2 with
          | [] => []
          | b3 :: r3 =>
            ((b0 - 240) * 262144 + (b1 - 128) * 4096 + (b2 - 128) * 64 + (b3 - 128))%N
              :: utf8_decode r3
          end
      end
    end
  end.

Definition u (s : string) : pystr :=
  utf8_decode (List.map N_of_ascii (list_ascii_of_string s)).

Definition str_eqb (s t : pystr) : bool := bool_decide (s = t).

(** [str.isspace] for one character: the 29 code points CPython 3.11 treats as
    whitespace, which is what [str.strip()] removes. *)
Definition isspace (c : N) : bool :=
  ((9 <=? c) && (c <=? 13) || (28 <=? c) && (c <=? 32)
   || (c =? 133) || (c =? 160) || (c =? 5760)
   || (8192 <=? c) && (c <=? 8202)
   || (c =? 8232) || (c =? 8233) || (c =? 8239) || (c =? 8287) || (c =? 12288))%N.

(** [Py_ISSPACE], the C-locale whitespace that [int()] skips in an ASCII str. *)
Definition is_c_space (c : N) : bool :=
  ((9 <=? c) && (c <=? 13) || (c =? 32))%N.

Fixpoint lstrip_by (p : N -> bool) (s : pystr) : pystr :=
  match s with
  | [] => []
  | c :: r => if p c then lstrip_by p r else s
  end.

Definition rstrip_by (p : N -> bool) (s : pystr) : pystr :=
  rev (lstrip_by p (rev s)).

Definition strip_by (p : N -> bool) (s : pystr) : pystr :=
  rstrip_by p (lstrip_by p s).

(** [s.strip()] *)
Definition strip (s : pystr) : pystr := strip_by isspace s.

(** [s.strip(chars)] *)
Definition strip_chars (chars s : pystr) : pystr :=
  strip_by (fun c => existsb (N.eqb c) chars) s.

(** [s.startswith(p)] *)
Fixpoint startswith (p s : pystr) : bool :=
  match p, s with
  | [], _ => true
  | _ :: _, [] => false
  | a :: p', b :: s' => (a =? b)%N && startswith p' s'
  end.

(** The case mapping of [str.lower()] on the ASCII letters.  The source only
    asks whether [s.lower()] starts with "json"; 'J','S','O','N' and their
    lower-case forms are the only code points whose lower-casing begins with
    one of these letters, so the ASCII mapping decides that test. *)
Definition lower_char (c : N) : N :=
  if ((65 <=? c) && (c <=? 90))%N then (c + 32)%N else c.

Definition lower (s : pystr) : pystr := List.map lower_char s.

(** [s.find(c)] and [s.rfind(c)] for a one-character needle: -1 when absent. *)
Fixpoint find_from (c : N) (s : pystr) (i : Z) : Z :=
  match s with
  | [] => -1
  | x :: r => if (x =? c)%N then i else find_from c r (i + 1)
  end.

Definition find (c : N) (s : pystr) : Z := find_from c s 0.

Fixpoint rfind_from (c : N) (s : pystr) (i : Z) (last : Z) : Z :=
  match s with
  | [] => last
  | x :: r => rfind_from c r (i + 1) (if (x =? c)%N then i else last)
  end.

Definition rfind (c : N) (s : pystr) : Z := rfind_from c s 0 (-1).

(** [s[lo:hi]] for non-negative bounds. *)
Definition slice (s : pystr) (lo hi : Z) : pystr :=
  firstn (Z.to_nat (hi - lo)) (skipn (Z.to_nat lo) s).

(** [s.replace(a, b)] for one-character [a] and [b]. *)
Definition replace_char (a b : N) (s : pystr) : pystr :=
  List.map (fun c => if (c =? a)%N then b else c) s.

(** [sep.join(parts)] *)
Fixpoint join (sep : pystr) (parts : list pystr) : pystr :=
  match parts with
  | [] => []
  | [p] => p
  | p :: rest => p ++ sep ++ join sep rest
  end.

(** [s.split(sep)] for a one-character separator. *)
Fixpoint split_char (sep : N) (s : pystr) : list pystr :=
  match s with
  | [] => [[]]
  | c :: r =>
    let parts := split_char sep r in
    if (c =? sep)%N then [] :: parts
    else match parts with
         | [] => [[c]]
         | p :: ps => (c :: p) :: ps
         end
  end.

(** Decimal rendering of an [int]. *)
Definition str_of_Z (z : Z) : pystr :=
  List.map N_of_ascii (list_ascii_of_string (NilZero.string_of_int (Z.to_int z))).

(** Python floats, as far as the code can tell them apart. *)
Inductive PyFloat : Type :=
| FFinite (q : Q)
| FInf (negative : bool)
| FNaN.

(** The values [json.loads] produces; a [dict] keeps insertion order. *)
Inductive value : Type :=
| VNone
| VBool (b : bool)
| VInt (z : Z)
| VFloat (f : PyFloat)
| VStr (s : pystr)
| VList (l : list value)
| VDict (d : list (pystr * value)).

Definition dict : Type := list (pystr * value).

(** [d.get(k)] ([None] of the option is Python's None-for-absent). *)
Fixpoint dict_get (k : pystr) (d : dict) : option value :=
  match d with
  | [] => None
  | (k', v) :: r => if str_eqb k' k then Some v else dict_get k r
  end.

(** [k in d] *)
Definition dict_mem (k : pystr) (d : dict) : bool :=
  match dict_get k d with Some _ => true | None => false end.

(** [d[k] = v]: an existing key keeps its position, a new key goes last. *)
Fixpoint dict_set (k : pystr) (v : value) (d : dict) : dict :=
  match d with
  | [] => [(k, v)]
  | (k', v') :: r => if str_eqb k' k then (k, v) :: r else (k', v') :: dict_set k v r
  end.

(** [del d[k]] for a key that is present. *)
Fixpoint dict_del (k : pystr) (d : dict) : dict :=
  match d with
  | [] => []
  | (k', v') :: r => if str_eqb k' k then r else (k', v') :: dict_del k r
  end.

Definition dict_keys (d : dict) : list pystr := List.map fst d.

(** [d.get(k, default)] *)
Definition dict_get_default (k : pystr) (default : value) (d : dict) : value :=
  match dict_get k d with Some v => v | None => default end.

(** [d.get(k)] as a Python value. *)
Definition dict_get_none (k : pystr) (d : dict) : value :=
  dict_get_default k VNone d.

(** [bool(v)] *)
Definition truthy (v : value) : bool :=
  match v with
  | VNone => false
  | VBool b => b
  | VInt z => negb (z =? 0)
  | VFloat (FFinite q) => negb (Qeq_bool q 0)
  | VFloat _ => true
  | VStr s => match s with [] => false | _ => true end
  | VList l => match l with [] => false | _ => true end
  | VDict d => match d with [] => false | _ => true end
  end.

(** [v == s] for a str [s]: only an equal str compares equal. *)
Definition eq_str (v : value) (s : pystr) : bool :=
  match v with
  | VStr t => str_eqb t s
  | _ => false
  end.

Definition is_dict (v : value) : bool :=
  match v with VDict _ => true | _ => false end.

Definition is_str (v : value) : bool :=
  match v with VStr _ => true | _ => false end.

(** ** Exceptions *)

Inductive ExnKind : Type :=
| TypeError | ValueError | AttributeError | KeyError | OverflowError.

(** [ToolError] is the domain error of tools.py; a built-in exception keeps
    its class and the values its message is formed from. *)
Inductive PyExn : Type :=
| ToolError (msg : pystr)
| Builtin (kind : ExnKind) (info : list value).

Inductive Result (A : Type) : Type :=
| Ok (a : A)
| Raise (e : PyExn).
Arguments Ok {A} a.
Arguments Raise {A} e.

(** ** Library functions left to CPython *)

Record PyLib : Type := {
  (** [json.loads]: [None] when it raises *)
  json_loads : pystr -> option value;
  (** [json.dumps] *)
  json_dumps : value -> pystr;
  (** [int(s)] for a str with a non-ASCII code point (Unicode digits and
      spaces): [None] when it raises ValueError *)
  int_nonascii : pystr -> option Z;
  (** [str(v)] of a float, a list or a dict *)
  repr_other : value -> pystr;
  (** whether [datetime.strptime(s, "%Y-%m-%d")] succeeds *)
  strptime_date_ok : pystr -> bool;
  (** whether [datetime.strptime(s, "%H:%M:%S")] succeeds *)
  strptime_time_ok : pystr -> bool;
  (** [str(e)] of a built-in exception *)
  builtin_msg : ExnKind -> list value -> pystr
}.

(** [str(v)] *)
Definition str_of (lib : PyLib) (v : value) : pystr :=
  match v with
  | VNone => u "None"
  | VBool true => u "True"
  | VBool false => u "False"
  | VInt z => str_of_Z z
  | VStr s => s
  | _ => repr_other lib v
  end.

(** [str(e)] *)
Definition exn_str (lib : PyLib) (e : PyExn) : pystr :=
  match e with
  | ToolError msg => msg
  | Builtin k info => builtin_msg lib k info
  end.

(** Digits of a decimal literal, with the single underscores [int()] allows
    between two digits.  [acc] is [None] before the first digit; [us] tells
    that the previous character was an underscore. *)
Fixpoint digits_value (s : pystr) (acc : option Z) (us : bool) : option Z :=
  match s with
  | [] => if us then None else acc
  | c :: r =>
    if ((48 <=? c) && (c <=? 57))%N then
      digits_value r (Some (10 * (match acc with Some a => a | None => 0 end)
                            + Z.of_N (c - 48))) false
    else if (c =? 95)%N then
      match acc with
      | Some _ => if us then None else digits_value r acc true
      | None => None
      end
    else None
  end.

(** [int(s)] for an ASCII str: optional surrounding C whitespace, an optional
    sign, then the digits. *)
Definition int_of_ascii (s : pystr) : option Z :=
  match strip_by is_c_space s with
  | 45%N :: body => option_map Z.opp (digits_value body None false)
  | 43%N :: body => digits_value body None false
  | body => digits_value body None false
  end.

Definition int_of_str (lib : PyLib) (s : pystr) : option Z :=
  if forallb (fun c => (c <? 128)%N) s then int_of_ascii s else int_nonascii lib s.

(** [int(v)] *)
Definition int_of (lib : PyLib) (v : value) : Result Z :=
  match v with
  | VInt z => Ok z
  | VBool b => Ok (if b then 1 else 0)
  | VFloat (FFinite q) => Ok (Z.quot (Qnum q) (Zpos (Qden q)))
  | VFloat (FInf _) => Raise (Builtin OverflowError [v])
  | VFloat FNaN => Raise (Builtin ValueError [v])
  | VStr s =>
    match int_of_str lib s with
    | Some z => Ok z
    | None => Raise (Builtin ValueError [v])
    end
  | _ => Raise (Builtin TypeError [v])
  end.

(** [v <= 0] for the values that order against an int. *)
Definition le_zero (v : value) : Result bool :=
  match v with
  | VInt z => Ok (z <=? 0)
  | VBool b => Ok (negb b)
  | VFloat (FFinite q) => Ok (Qle_bool q 0)
  | VFloat (FInf negative) => Ok negative
  | VFloat FNaN => Ok false
  | _ => Raise (Builtin TypeError [v])
  end.

(** ** The outside world *)

(** A chat-completion request, by role and payload: the system prompt is a
    constant of each role (the receptionist's also carries the wall-clock
    time), and the two encodings of the history (one str, or one text part
    per turn) carry the same turns. *)
Inductive LLMRequest : Type :=
| ReceptionistPrompt (history : list value)
| DataEntryPrompt (receptionist_speech : pystr)
| SummaryPrompt (history : list value).

Inductive Method : Type := GET | POST | PATCH.

(** A request to the booking API.  [form_headers] tells the two header sets
    apart (HEADERS with the form content type, or the bearer token alone). *)
Record HttpRequest : Type := {
  method : Method;
  url : pystr;
  form_headers : bool;
  data : option dict
}.

(** What a booking-API call comes to inside the try block of [call_api], by
    the except clause that catches it.  [ApiRequestException] is any
    requests.RequestException, with str(e) = msg: no connection, an HTTP error
    status and, from requests 2.27 on, a body that is not JSON (the
    JSONDecodeError of requests is a RequestException, and the first clause
    wins).  [ApiValueError] is a ValueError that is no RequestException: what
    response.json() raises for such a body before requests 2.27. *)
Inductive ApiOutcome : Type :=
| ApiRequestException (msg : pystr)
| ApiValueError
| ApiJson (body : value).

(** The n-th completion request, the n-th booking request and the n-th
    reading of the clock get the answers the world gives them; a completion
    is [None] when [_call_openrouter] caught a failure.  The content of a
    completion is taken to be a str, as the chat-completion service gives it:
    the code hands on whatever JSON value is there, and a truthy value that
    is no str would make its readers raise (AttributeError at text.strip()
    or text.find()), which no world of this type does. *)
Record World : Type := {
  llm : nat -> LLMRequest -> option pystr;
  api : nat -> HttpRequest -> ApiOutcome;
  utcnow_isoformat : nat -> pystr
}.

(** An instance of class Memory (memory.py). *)
Record Memory : Type := {
  user_id : pystr;
  history : list value;
  summary_file : pystr
}.

(** What a run has sent out so far, and the mutable state it works on: the
    memories held by the MemoryManager and the files under the data
    directory (path to text). *)
Record State : Type := {
  llm_calls : list LLMRequest;
  http_calls : list HttpRequest;
  clock_reads : nat;
  user_memories : gmap pystr Memory;
  files : gmap pystr pystr
}.

Definition initial_state : State :=
  {| llm_calls := []; http_calls := []; clock_reads := 0%nat;
     user_memories := ∅; files := ∅ |}.

Definition log_llm (req : LLMRequest) (st : State) : State :=
  {| llm_calls := llm_calls st ++ [req]; http_calls := http_calls st;
     clock_reads := clock_reads st; user_memories := user_memories st;
     files := files st |}.

Definition log_http (req : HttpRequest) (st : State) : State :=
  {| llm_calls := llm_calls st; http_calls := http_calls st ++ [req];
     clock_reads := clock_reads st; user_memories := user_memories st;
     files := files st |}.

Definition tick_clock (st : State) : State :=
  {| llm_calls := llm_calls st; http_calls := http_calls st;
     clock_reads := S (clock_reads st); user_memories := user_memories st;
     files := files st |}.

Definition set_user_memories (m : gmap pystr Memory) (st : State) : State :=
  {| llm_calls := llm_calls st; http_calls := http_calls st;
     clock_reads := clock_reads st; user_memories := m; files := files st |}.

Definition set_files (f : gmap pystr pystr) (st : State) : State :=
  {| llm_calls := llm_calls st; http_calls := http_calls st;
     clock_reads := clock_reads st; user_memories := user_memories st;
     files := f |}.

(** ** Computations that call out and may raise *)

Definition M (A : Type) : Type := State -> Result A * State.

Definition ret {A} (a : A) : M A := fun st => (Ok a, st).

Definition raise {A} (e : PyExn) : M A := fun st => (Raise e, st).

Definition bind {A B} (m : M A) (k : A -> M B) : M B :=
  fun st =>
    match m st with
    | (Ok a, st') => k a st'
    | (Raise e, st') => (Raise e, st')
    end.

(** [try: m  except <handled>: h]; an exception [h] declines is re-raised. *)
Definition try_except {A} (m : M A) (h : PyExn -> option (M A)) : M A :=
  fun st =>
    match m st with
    | (Ok a, st') => (Ok a, st')
    | (Raise e, st') =>
      match h e with
      | Some k => k st'
      | None => (Raise e, st')
      end
    end.

Definition lift {A} (r : Result A) : M A := fun st => (r, st).

Definition get_state : M State := fun st => (Ok st, st).

Definition modify_state (f : State -> State) : M unit := fun st => (Ok tt, f st).

End Py.

Declare Scope py_scope.
Delimit Scope py_scope with py.
Notation "x <- m ;; k" := (Py.bind m (fun x => k))
  (at level 100, m at next level, right associativity) : py_scope.
Notation "m ;;; k" := (Py.bind m (fun _ => k))
  (at level 100, right associativity) : py_scope.

Declare Scope res_scope.
Delimit Scope res_scope with res.

Module PyOps.
Import Py.

(** Sequencing of pure steps that may raise. *)
Definition rbind {A B} (r : Result A) (k : A -> Result B) : Result B :=
  match r with
  | Ok a => k a
  | Raise e => Raise e
  end.

Notation "x <- r ;; k" := (rbind r (fun x => k))
  (at level 100, r at next level, right associativity) : res_scope.

(** [v.get(k, default)]: only a dict has the method. *)
Definition value_get (v : value) (k : pystr) (default : value) : Result value :=
  match v with
  | VDict d => Ok (dict_get_default k default d)
  | _ => Raise (Builtin AttributeError [v; VStr (u "get")])
  end.

(** [v[k]] for a str key. *)
Definition subscript (v : value) (k : pystr) : Result value :=
  match v with
  | VDict d =>
    match dict_get k d with
    | Some x => Ok x
    | None => Raise (Builtin KeyError [VStr k])
    end
  | _ => Raise (Builtin TypeError [v; VStr k])
  end.

(** [v[k] = x] for a str key. *)
Definition setitem (v : value) (k : pystr) (x : value) : Result value :=
  match v with
  | VDict d => Ok (VDict (dict_set k x d))
  | _ => Raise (Builtin TypeError [v; VStr k])
  end.

(** [needle in hay] for two strs. *)
Fixpoint is_substring (needle hay : pystr) : bool :=
  startswith needle hay ||
  match hay with
  | [] => false
  | _ :: r => is_substring needle r
  end.

(** [k in v] for a str [k]: key of a dict, element of a list, substring of a
    str; anything else is not iterable. *)
Definition contains (k : pystr) (v : value) : Result bool :=
  match v with
  | VDict d => Ok (dict_mem k d)
  | VList l => Ok (existsb (fun x => eq_str x k) l)
  | VStr s => Ok (is_substring k s)
  | _ => Raise (Builtin TypeError [v])
  end.

(** [a or b] *)
Definition py_or (a b : value) : value := if truthy a then a else b.

(** [s or t] on strs *)
Definition str_or (s t : pystr) : pystr :=
  match s with [] => t | _ => s end.

(** [v.strip()]: only a str has the method. *)
Definition method_strip (v : value) : Result pystr :=
  match v with
  | VStr s => Ok (strip s)
  | _ => Raise (Builtin AttributeError [v; VStr (u "strip")])
  end.

(** A lookup in a dict keyed by str: a list or a dict is unhashable. *)
Definition hashed_lookup {A} (table : list (pystr * A)) (k : value) : Result (option A) :=
  match k with
  | VList _ | VDict _ => Raise (Builtin TypeError [k])
  | VStr s => Ok (snd <$> List.find (fun kv => str_eqb (fst kv) s) table)
  | _ => Ok None
  end.

End PyOps.

(* ===================================================================== *)
(** * songbird/agent/llm.py                                                *)
(* ===================================================================== *)

Module Llm.
Import Py PyOps.

Record Schema : Type := { required : list pystr; optional : list pystr }.

(** Schemas keyed by tool function name. *)
Definition SCHEMAS : list (pystr * Schema) :=
  [ (u "check_availability",
     {| required := [u "date"; u "people"]; optional := [] |});
    (u "make_reservation",
     {| required := [u "date"; u "time"; u "people"];
        optional := [u "SpecialRequests"; u "IsLeaveTimeConfirmed"; u "RoomNumber";
                     u "Customer[Title]"; u "Customer[FirstName]"; u "Customer[Surname]";
                     u "Customer[Email]"; u "Customer[Mobile]"; u "Customer[Phone]";
                     u "Customer[MobileCountryCode]"; u "Customer[PhoneCountryCode]";
                     u "Customer[ReceiveEmailMarketing]";
                     u "Customer[ReceiveSmsMarketing]"] |});
    (u "check_reservation",
     {| required := [u "booking_reference"]; optional := [] |});
    (u "modify_reservation",
     {| required := [u "booking_reference"];
        optional := [u "VisitDate"; u "VisitTime"; u "PartySize"; u "SpecialRequests";
                     u "IsLeaveTimeConfirmed"] |});
    (u "cancel_reservation",
     {| required := [u "booking_reference"]; optional := [] |}) ].

(** The fixed replies of the pipeline. *)
Definition TROUBLE_UNDERSTANDING : pystr :=
  u "I’m having trouble understanding,could you confirm the date, time, and (if booking) the number of people?".
Definition SHARE_MORE_DETAIL : pystr :=
  u "Could you share a bit more detail so I can help?".
Definition TECHNICAL_ERRORS : pystr :=
  u "Sorry, I encountered some technical errors, can you resate your request?".
Definition CLARIFY_REQUEST : pystr :=
  u "Could you clarify your request?".
Definition RECEPTIONIST_FALLBACK : pystr :=
  u "Could you confirm the date and time (and number of people if booking)?".
Definition NEED_MORE_DETAIL : pystr :=
  u "I need a bit more detail to proceed—could you confirm the date and time?".
Definition CHANGE_DATE_OR_TIME : pystr :=
  u "Would you like to change the date, the time, or both for your reservation? Please provide the new values.".

Section GeminiLLM.
Variable lib : PyLib.
Variable w : World.

(** [_call_openrouter]: the request goes out, the world answers; every
    failure inside it is caught and comes back as None.  What comes back
    otherwise is the content of the first choice, a str in every [World]. *)
Definition _call_openrouter (req : LLMRequest) : M (option pystr) :=
  fun st => (Ok (llm w (length (llm_calls st)) req), log_llm req st).

Definition _present (v : value) : bool :=
  match v with
  | VNone => false
  | _ => negb (str_eqb (strip (str_of lib v)) [])
  end.

Definition _safe_json_load (text : option pystr) : value :=
  match text with
  | None => VNone
  | Some [] => VNone
  | Some text =>
    let s := strip text in
    let s :=
      if startswith (u "```") s then
        let s := strip_chars (u "`") s in
        if startswith (u "json") (lower s) then strip (skipn 4 s) else s
      else s in
    match json_loads lib s with
    | Some obj => obj
    | None => VNone
    end
  end.

Definition _validate_receptionist_json (obj : value) : bool :=
  match obj with
  | VDict d =>
    if negb (forallb (fun k => str_eqb k (u "channel") || str_eqb k (u "message"))
                     (dict_keys d)
             && dict_mem (u "channel") d && dict_mem (u "message") d)
    then false
    else if negb (eq_str (dict_get_none (u "channel") d) (u "to_user")
                  || eq_str (dict_get_none (u "channel") d) (u "to_data_entry"))
    then false
    else if negb (is_str (dict_get_none (u "message") d))
    then false
    else true
  | _ => false
  end.

(** The body of [for _ in range(attempts)] in [_receptionist], with the
    fallback after the loop. *)
Fixpoint _receptionist_loop (attempts : nat) (history : list value) : M value :=
  match attempts with
  | O =>
    ret (VDict [(u "channel", VStr (u "to_user"));
                (u "message", VStr RECEPTIONIST_FALLBACK)])
  | S attempts' =>
    (raw <- _call_openrouter (ReceptionistPrompt history) ;;
     let obj := _safe_json_load raw in
     if _validate_receptionist_json obj then ret obj
     else _receptionist_loop attempts' history)%py
  end.

Definition _receptionist (history : list value) : M value :=
  _receptionist_loop 2 history.

(** The test both parses of [_extract_tool_call] apply to the decoded data. *)
Definition tool_call_of (data : option value) : option dict :=
  match data with
  | Some (VDict d) =>
    match dict_get (u "tool_call") d with
    | Some (VDict tc) => Some tc
    | _ => None
    end
  | _ => None
  end.

Definition _extract_tool_call (text : option pystr) : option dict :=
  match text with
  | None => None
  | Some [] => None
  | Some text =>
    match tool_call_of (json_loads lib text) with
    | Some tc => Some tc
    | None =>
      let lb := find 123%N text in
      let rb := rfind 125%N text in
      if negb (lb =? -1) && negb (rb =? -1) && (rb >? lb) then
        tool_call_of (json_loads lib (slice text lb (rb + 1)))
      else None
    end
  end.

(** The body of the try in [_data_entry_worker]:
    [tool_call["args"]["people"] = int(tool_call["args"]["people"])]. *)
Definition coerce_people (tool_call : dict) : Result dict :=
  (args <- subscript (VDict tool_call) (u "args") ;;
   people <- subscript args (u "people") ;;
   n <- int_of lib people ;;
   args' <- setitem args (u "people") (VInt n) ;;
   Ok (dict_set (u "args") args' tool_call))%res.

Fixpoint _data_entry_worker_loop (attempts : nat) (receptionist_speech : pystr)
    : M (option dict) :=
  match attempts with
  | O => ret None
  | S attempts' =>
    (raw <- _call_openrouter (DataEntryPrompt receptionist_speech) ;;
     match _extract_tool_call raw with
     | Some ((_ :: _) as tool_call) =>
       has_people <- lift (contains (u "people")
                             (dict_get_default (u "args") (VDict []) tool_call)) ;;
       if has_people then
         match coerce_people tool_call with
         | Ok tool_call' => ret (Some tool_call')
         | Raise _ => ret (Some tool_call)
         end
       else ret (Some tool_call)
     | _ => _data_entry_worker_loop attempts' receptionist_speech
     end)%py
  end.

Definition _data_entry_worker (receptionist_speech : pystr) (history : list value)
    : M (option dict) :=
  _data_entry_worker_loop 2 receptionist_speech.

(** [all(self._present(args.get(k)) for k in required)], evaluated lazily. *)
Fixpoint all_present (args : value) (keys : list pystr) : Result bool :=
  match keys with
  | [] => Ok true
  | k :: keys' =>
    (v <- value_get args k VNone ;;
     if _present v then all_present args keys' else Ok false)%res
  end.

(** The body of the outer try of [_validate_tool_call]; the dict that comes
    back is [tool_call] after the in-place coercion of [people]. *)
Definition _validate_tool_call_body (tool_call : dict) : Result (bool * dict) :=
  (let name := dict_get_none (u "name") tool_call in
   let args := py_or (dict_get_default (u "args") (VDict []) tool_call) (VDict []) in
   schema <- hashed_lookup SCHEMAS name ;;
   match schema with
   | None => Ok (false, tool_call)
   | Some schema =>
     ok <- all_present args (required schema) ;;
     if negb ok then Ok (false, tool_call)
     else
       has_people <- contains (u "people") args ;;
       if has_people then
         match (people <- subscript args (u "people") ;;
                n <- int_of lib people ;;
                setitem args (u "people") (VInt n))%res with
         | Ok args' => Ok (true, dict_set (u "args") args' tool_call)
         | Raise _ => Ok (false, tool_call)
         end
       else Ok (true, tool_call)
   end)%res.

Definition _validate_tool_call (tool_call : dict) : bool * dict :=
  match _validate_tool_call_body tool_call with
  | Ok r => r
  | Raise _ => (false, tool_call)
  end.

(** [[k for k in keys if not self._present(args.get(k))]] *)
Fixpoint missing_of (args : value) (keys : list pystr) : Result (list pystr) :=
  match keys with
  | [] => Ok []
  | k :: keys' =>
    (v <- value_get args k VNone ;;
     rest <- missing_of args keys' ;;
     Ok (if _present v then rest else k :: rest))%res
  end.

Definition _missing_from_tool_call (tool_call : option dict) : Result (list pystr) :=
  match tool_call with
  | None => Ok []
  | Some [] => Ok []
  | Some tool_call =>
    (let name := dict_get_none (u "name") tool_call in
     let args := py_or (dict_get_default (u "args") (VDict []) tool_call) (VDict []) in
     schema <- hashed_lookup SCHEMAS name ;;
     match schema with
     | None => Ok []
     | Some schema =>
       missing <- missing_of args (required schema) ;;
       if eq_str name (u "modify_reservation") then
         new_date <- value_get args (u "new_date") VNone ;;
         if _present new_date then Ok missing
         else
           new_time <- value_get args (u "new_time") VNone ;;
           if _present new_time then Ok missing
           else Ok (missing ++ [u "new_date_or_new_time"])
       else Ok missing
     end)%res
  end.

Definition _compose_missing_question (missing : list pystr) : pystr :=
  match missing with
  | [] => NEED_MORE_DETAIL
  | m0 :: _ =>
    if existsb (str_eqb (u "new_date_or_new_time")) missing then CHANGE_DATE_OR_TIME
    else if (length missing =? 1)%nat then
      u "Got it, could you please share the " ++ replace_char 95%N 32%N m0 ++ u "?"
    else
      u "Thanks! I still need: "
        ++ join (u ", ") (List.map (replace_char 95%N 32%N) (firstn 2 missing))
        ++ u "."
  end.

Definition process (history : list value) : M value :=
  (rec_obj <- _receptionist history ;;
   if negb (truthy rec_obj) then ret (VStr TROUBLE_UNDERSTANDING)
   else
     channel <- lift (value_get rec_obj (u "channel") (VStr (u "to_user"))) ;;
     message <- lift (value_get rec_obj (u "message") (VStr [])) ;;
     msg <- lift (method_strip message) ;;
     if eq_str channel (u "to_user") || negb (truthy (VStr msg)) then
       ret (VStr (str_or msg SHARE_MORE_DETAIL))
     else if eq_str channel (u "to_data_entry") then
       tool_call <- _data_entry_worker msg history ;;
       match tool_call with
       | Some ((_ :: _) as tc) =>
         let '(valid, tc') := _validate_tool_call tc in
         if valid then ret (VDict [(u "tool_call", VDict tc')])
         else
           missing <- lift (_missing_from_tool_call (Some tc')) ;;
           match missing with
           | _ :: _ => ret (VStr (_compose_missing_question missing))
           | [] => ret (VStr TECHNICAL_ERRORS)
           end
       | _ => ret (VStr TECHNICAL_ERRORS)
       end
     else ret (VStr (str_or msg CLARIFY_REQUEST)))%py.

(** Summarize conversation for long-term memory. *)
Definition summarize (history : list value) : M pystr :=
  (raw <- _call_openrouter (SummaryPrompt history) ;;
   ret (match raw with
        | Some ((_ :: _) as text) => text
        | _ => u "[Summary unavailable]"
        end))%py.

End GeminiLLM.
End Llm.

(* ===================================================================== *)
(** * songbird/agent/tools.py                                              *)
(* ===================================================================== *)

Module Tools.
Import Py PyOps.

Definition BASE_URL : pystr := u "http://localhost:8547/api/ConsumerApi/v1/Restaurant/".
Definition RESTAURANT_NAME : pystr := u "TheHungryUnicorn".

Section BookingClient.
Variable lib : PyLib.
Variable w : World.

(** One request of the requests library, raise_for_status and
    response.json() included, under the two except clauses that
    [call_api] and [call_api_get] share: a RequestException first, then any
    other ValueError. *)
Definition request_json (req : HttpRequest) : M value :=
  fun st =>
    match api w (length (http_calls st)) req with
    | ApiJson body => (Ok body, log_http req st)
    | ApiRequestException msg =>
      (Raise (ToolError (u "API request failed: " ++ msg)), log_http req st)
    | ApiValueError =>
      (Raise (ToolError (u "Invalid JSON response from server.")), log_http req st)
    end.

Definition call_api (endpoint : pystr) (params : dict) : M value :=
  let url := BASE_URL ++ RESTAURANT_NAME ++ u "/" ++ endpoint in
  request_json {| method := POST; url := url; form_headers := true;
                  data := Some params |}.

Definition call_api_get (endpoint : pystr) (params : dict) (func_name : pystr)
    : M value :=
  (reference <- lift (subscript (VDict params) (u "booking_reference")) ;;
   let url := BASE_URL ++ RESTAURANT_NAME ++ u "/" ++ endpoint ++ u "/"
              ++ str_of lib reference in
   if str_eqb func_name (u "check_reservation") then
     request_json {| method := GET; url := url; form_headers := false; data := None |}
   else if truthy (VStr func_name) then
     request_json {| method := PATCH; url := url; form_headers := false;
                     data := Some (dict_del (u "booking_reference") params) |}
   else
     request_json {| method := POST; url := url ++ u "/Cancel"; form_headers := false;
                     data := Some (dict_del (u "booking_reference") params) |})%py.

Definition check_availability (date people : value) : M value :=
  (if negb (truthy date) || negb (truthy people) then
     raise (ToolError (u "Missing date people for availability check."))
   else
     response <- call_api (u "AvailabilitySearch")
                   [(u "VisitDate", date); (u "PartySize", people);
                    (u "ChannelCode", VStr (u "ONLINE"))] ;;
     lift (subscript response (u "available_slots")))%py.

Definition _bool_to_str (v : value) : pystr :=
  if truthy v then u "true" else u "false".

Definition _validate_date (date_str : value) : Result unit :=
  match date_str with
  | VStr s =>
    if strptime_date_ok lib s then Ok tt
    else Raise (ToolError (u "VisitDate must be in YYYY-MM-DD format."))
  | _ => Raise (Builtin TypeError [date_str])
  end.

Definition _validate_time (time_str : value) : Result unit :=
  match time_str with
  | VStr s =>
    if strptime_time_ok lib s then Ok tt
    else Raise (ToolError (u "VisitTime must be in HH:MM:SS format."))
  | _ => Raise (Builtin TypeError [time_str])
  end.

(** The module defines [_normalize_time] twice; the name is looked up when it
    is called, so every caller runs the second definition, modelled here. *)
Definition _normalize_time (time_str : value) : Result value :=
  match time_str with
  | VStr s =>
    let parts := split_char 58%N s in
    if (length parts =? 2)%nat then Ok (VStr (s ++ u ":00"))
    else if (length parts =? 3)%nat then Ok (VStr s)
    else Raise (ToolError (u "VisitTime must be HH:MM or HH:MM:SS."))
  | _ => Raise (Builtin AttributeError [time_str; VStr (u "split")])
  end.

(** The loop over [customer.items()] of [make_reservation]. *)
Fixpoint flatten_customer (items : dict) (payload : dict) : dict :=
  match items with
  | [] => payload
  | (key, v) :: rest =>
    match v with
    | VNone => flatten_customer rest payload
    | _ =>
      let s := strip (str_of lib v) in
      if negb (str_eqb s []) then
        flatten_customer rest
          (dict_set (u "Customer[" ++ key ++ u "]") (VStr s) payload)
      else flatten_customer rest payload
    end
  end.

Definition make_reservation (date time people : value)
    (channel_code special_requests is_leave_time_confirmed room_number customer : value)
    : M value :=
  (if negb (truthy date && truthy time && truthy people) then
     raise (ToolError (u "Missing one or more booking parameters."))
   else
     nonpositive <- lift (le_zero people) ;;
     if nonpositive then raise (ToolError (u "PartySize must be a positive integer."))
     else
       lift (_validate_date date) ;;;
       time <- lift (_normalize_time time) ;;
       lift (_validate_time time) ;;;
       let payload := [(u "VisitDate", date); (u "VisitTime", time);
                       (u "PartySize", VStr (str_of lib people));
                       (u "ChannelCode", channel_code)] in
       let payload :=
         if truthy special_requests
         then dict_set (u "SpecialRequests") special_requests payload else payload in
       let payload :=
         match is_leave_time_confirmed with
         | VNone => payload
         | _ => dict_set (u "IsLeaveTimeConfirmed")
                  (VStr (_bool_to_str is_leave_time_confirmed)) payload
         end in
       let payload :=
         if truthy room_number
         then dict_set (u "RoomNumber") room_number payload else payload in
       payload <-
         (if truthy customer then
            match customer with
            | VDict items => ret (flatten_customer items payload)
            | _ => raise (Builtin AttributeError [customer; VStr (u "items")])
            end
          else ret payload) ;;
       response <- call_api (u "BookingWithStripeToken") payload ;;
       booking_ref <- lift (value_get response (u "booking_reference") VNone) ;;
       if truthy booking_ref then
         ret (VStr (u "Reservation confirmed! Your reference is "
                    ++ str_of lib booking_ref ++ u "."))
       else raise (ToolError (u "Failed to book reservation.")))%py.

Definition check_reservation (booking_reference : value) : M value :=
  (if negb (truthy booking_reference) then
     raise (ToolError (u "Booking reference is required."))
   else
     call_api_get (u "Booking") [(u "booking_reference", booking_reference)]
       (u "check_reservation"))%py.

Definition modify_reservation
    (booking_reference VisitDate VisitTime PartySize SpecialRequests
       IsLeaveTimeConfirmed : value) : M value :=
  (if negb (truthy booking_reference) then
     raise (ToolError (u "Booking reference is required to modify a reservation."))
   else
     let payload := [(u "booking_reference", booking_reference)] in
     payload <-
       (if truthy VisitDate then
          lift (_validate_date VisitDate) ;;;
          ret (dict_set (u "VisitDate") VisitDate payload)
        else ret payload) ;;
     payload <-
       (if truthy VisitTime then
          VisitTime <- lift (_normalize_time VisitTime) ;;
          lift (_validate_time VisitTime) ;;;
          ret (dict_set (u "VisitTime") VisitTime payload)
        else ret payload) ;;
     payload <-
       (match PartySize with
        | VNone => ret payload
        | _ =>
          bad <- (match PartySize with
                  | VBool _ => ret true
                  | _ => n <- lift (int_of lib PartySize) ;; ret (n <=? 0)
                  end) ;;
          if (bad : bool) then raise (ToolError (u "PartySize must be a positive integer."))
          else
            n <- lift (int_of lib PartySize) ;;
            ret (dict_set (u "PartySize") (VStr (str_of_Z n)) payload)
        end) ;;
     let payload :=
       if truthy SpecialRequests
       then dict_set (u "SpecialRequests") SpecialRequests payload else payload in
     let payload :=
       match IsLeaveTimeConfirmed with
       | VNone => payload
       | _ => dict_set (u "IsLeaveTimeConfirmed")
                (VStr (_bool_to_str IsLeaveTimeConfirmed)) payload
       end in
     if (length payload =? 1)%nat then
       raise (ToolError (u "No changes provided. Include at least one field to modify."))
     else
       response <- call_api_get (u "Booking") payload (u "modify_reservation") ;;
       ret (VStr (str_of lib response)))%py.

Definition cancel_reservation (booking_reference : value) : M value :=
  (if negb (truthy booking_reference) then
     raise (ToolError (u "Booking reference is required for cancellation."))
   else
     let payload := [(u "micrositeName", VStr RESTAURANT_NAME);
                     (u "booking_reference", booking_reference);
                     (u "bookingReference", booking_reference);
                     (u "cancellationReasonId", VInt 1)] in
     response <- call_api_get (u "Booking") payload [] ;;
     ret (VStr (str_of lib response)))%py.

(** ** Calling a tool as [tool_func( **args )] *)

(** A parameter of a signature: its name and its default, if it has one. *)
Definition Signature : Type := list (pystr * option value).

(** The check Python makes when it binds keyword arguments: no keyword the
    signature does not know, and no parameter without a default left out. *)
Definition bind_kwargs (fname : pystr) (sig : Signature) (args : dict) : Result unit :=
  match List.find (fun k => negb (existsb (fun p => str_eqb (fst p) k) sig))
                  (dict_keys args) with
  | Some k => Raise (Builtin TypeError [VStr fname; VStr k])
  | None =>
    match List.find (fun p => match snd p with
                              | None => negb (dict_mem (fst p) args)
                              | Some _ => false
                              end) sig with
    | Some p => Raise (Builtin TypeError [VStr fname; VStr (fst p)])
    | None => Ok tt
    end
  end.

(** The argument bound to parameter [name]. *)
Definition kwarg (sig : Signature) (args : dict) (name : pystr) : value :=
  match dict_get name args with
  | Some v => v
  | None =>
    match List.find (fun p => str_eqb (fst p) name) sig with
    | Some (_, Some default) => default
    | _ => VNone
    end
  end.

Definition sig_check_availability : Signature :=
  [(u "date", None); (u "people", None)].

Definition sig_make_reservation : Signature :=
  [(u "date", None); (u "time", None); (u "people", None);
   (u "channel_code", Some (VStr (u "ONLINE")));
   (u "special_requests", Some VNone);
   (u "is_leave_time_confirmed", Some VNone);
   (u "room_number", Some VNone);
   (u "customer", Some VNone)].

Definition sig_booking_reference : Signature :=
  [(u "booking_reference", None)].

Definition sig_modify_reservation : Signature :=
  [(u "booking_reference", None); (u "VisitDate", Some VNone);
   (u "VisitTime", Some VNone); (u "PartySize", Some VNone);
   (u "SpecialRequests", Some VNone); (u "IsLeaveTimeConfirmed", Some VNone)].

Definition check_availability_kw (args : dict) : M value :=
  (let sig := sig_check_availability in
   lift (bind_kwargs (u "check_availability") sig args) ;;;
   check_availability (kwarg sig args (u "date")) (kwarg sig args (u "people")))%py.

Definition make_reservation_kw (args : dict) : M value :=
  (let sig := sig_make_reservation in
   lift (bind_kwargs (u "make_reservation") sig args) ;;;
   make_reservation (kwarg sig args (u "date")) (kwarg sig args (u "time"))
     (kwarg sig args (u "people")) (kwarg sig args (u "channel_code"))
     (kwarg sig args (u "special_requests"))
     (kwarg sig args (u "is_leave_time_confirmed"))
     (kwarg sig args (u "room_number")) (kwarg sig args (u "customer")))%py.

Definition check_reservation_kw (args : dict) : M value :=
  (let sig := sig_booking_reference in
   lift (bind_kwargs (u "check_reservation") sig args) ;;;
   check_reservation (kwarg sig args (u "booking_reference")))%py.

Definition modify_reservation_kw (args : dict) : M value :=
  (let sig := sig_modify_reservation in
   lift (bind_kwargs (u "modify_reservation") sig args) ;;;
   modify_reservation (kwarg sig args (u "booking_reference"))
     (kwarg sig args (u "VisitDate")) (kwarg sig args (u "VisitTime"))
     (kwarg sig args (u "PartySize")) (kwarg sig args (u "SpecialRequests"))
     (kwarg sig args (u "IsLeaveTimeConfirmed")))%py.

Definition cancel_reservation_kw (args : dict) : M value :=
  (let sig := sig_booking_reference in
   lift (bind_kwargs (u "cancel_reservation") sig args) ;;;
   cancel_reservation (kwarg sig args (u "booking_reference")))%py.

End BookingClient.
End Tools.

(* ===================================================================== *)
(** * songbird/agent/tools.py, the copy next to memory.py                  *)
(* ===================================================================== *)

(** This copy differs from the module above in [make_reservation] only: the
    customer fields are ten keyword parameters of their own, the optional
    fields are tested with [is not None], and what is given is sent as it
    is.  Everything else it calls is the code modelled in [Tools]. *)
Module ToolsCopy.
Import Py PyOps.

Section BookingClient.
Variable lib : PyLib.
Variable w : World.

(** [if v is not None: payload[key] = v] *)
Definition set_given (key : pystr) (v : value) (payload : dict) : dict :=
  match v with
  | VNone => payload
  | _ => dict_set key v payload
  end.

Definition make_reservation (date time people : value)
    (channel_code special_requests is_leave_time_confirmed room_number
       Customer_Title Customer_FirstName Customer_Surname Customer_Email
       Customer_Mobile Customer_Phone Customer_MobileCountryCode
       Customer_PhoneCountryCode Customer_ReceiveEmailMarketing
       Customer_ReceiveSmsMarketing : value)
    : M value :=
  (if negb (truthy date && truthy time && truthy people) then
     raise (ToolError (u "Missing one or more booking parameters."))
   else
     nonpositive <- lift (le_zero people) ;;
     if nonpositive then raise (ToolError (u "PartySize must be a positive integer."))
     else
       lift (Tools._validate_date lib date) ;;;
       time <- lift (Tools._normalize_time time) ;;
       lift (Tools._validate_time lib time) ;;;
       let payload := [(u "VisitDate", date); (u "VisitTime", time);
                       (u "PartySize", VStr (str_of lib people));
                       (u "ChannelCode", channel_code)] in
       let payload := set_given (u "SpecialRequests") special_requests payload in
       let payload :=
         set_given (u "IsLeaveTimeConfirmed") is_leave_time_confirmed payload in
       let payload := set_given (u "RoomNumber") room_number payload in
       let payload := set_given (u "Customer[Title]") Customer_Title payload in
       let payload := set_given (u "Customer[FirstName]") Customer_FirstName payload in
       let payload := set_given (u "Customer[Surname]") Customer_Surname payload in
       let payload := set_given (u "Customer[Email]") Customer_Email payload in
       let payload := set_given (u "Customer[Mobile]") Customer_Mobile payload in
       let payload := set_given (u "Customer[Phone]") Customer_Phone payload in
       let payload :=
         set_given (u "Customer[MobileCountryCode]") Customer_MobileCountryCode payload in
       let payload :=
         set_given (u "Customer[PhoneCountryCode]") Customer_PhoneCountryCode payload in
       let payload :=
         set_given (u "Customer[ReceiveEmailMarketing]") Customer_ReceiveEmailMarketing
           payload in
       let payload :=
         set_given (u "Customer[ReceiveSmsMarketing]") Customer_ReceiveSmsMarketing
           payload in
       response <- Tools.call_api w (u "BookingWithStripeToken") payload ;;
       booking_ref <- lift (value_get response (u "booking_reference") VNone) ;;
       if truthy booking_ref then
         ret (VStr (u "Reservation confirmed! Your reference is "
                    ++ str_of lib booking_ref ++ u "."))
       else raise (ToolError (u "Failed to book reservation.")))%py.

End BookingClient.
End ToolsCopy.

(* ===================================================================== *)
(** * songbird/agent/memory.py                                             *)
(* ===================================================================== *)

Module MemoryStore.
Import Py PyOps.

(** Directory to store long-term memory. *)
Definition DATA_DIR : pystr := u "data".

(** [os.path.join(a, b)] on POSIX: an absolute [b] replaces [a]. *)
Definition os_path_join (a b : pystr) : pystr :=
  if startswith (u "/") b then b
  else match a with
       | [] => b
       | _ => if str_eqb (skipn (length a - 1) a) (u "/") then a ++ b
              else a ++ u "/" ++ b
       end.

(** [Memory(user_id)] *)
Definition new_memory (user_id : pystr) : Memory :=
  {| user_id := user_id;
     history := [];
     summary_file := os_path_join DATA_DIR (user_id ++ u "_memory.jsonl") |}.

Definition turn (role : pystr) (content : value) : value :=
  VDict [(u "role", VStr role); (u "content", content)].

Definition with_history (h : list value) (self : Memory) : Memory :=
  {| user_id := user_id self; history := h; summary_file := summary_file self |}.

Definition add_user_message (msg : value) (self : Memory) : Memory :=
  with_history (history self ++ [turn (u "user") msg]) self.

Definition add_bot_message (msg : value) (self : Memory) : Memory :=
  with_history (history self ++ [turn (u "assistant") msg]) self.

Definition add_tool_result (msg : value) (self : Memory) : Memory :=
  with_history (history self ++ [turn (u "tool") msg]) self.

Definition get_history (self : Memory) : list value := history self.

Definition clear (self : Memory) : Memory := with_history [] self.

(** Text-mode reading translates "\r\n" and "\r" into "\n". *)
Fixpoint universal_newlines (s : pystr) : pystr :=
  match s with
  | [] => []
  | c :: r =>
    if (c =? 13)%N then
      10%N :: match r with
              | c' :: r' =>
                if (c' =? 10)%N then universal_newlines r' else universal_newlines r
              | [] => []
              end
    else c :: universal_newlines r
  end.

(** The lines of a text, each with its newline; a last line may lack one. *)
Fixpoint lines_keepends (s : pystr) : list pystr :=
  match s with
  | [] => []
  | c :: r =>
    if (c =? 10)%N then [c] :: lines_keepends r
    else match lines_keepends r with
         | [] => [[c]]
         | l :: ls => (c :: l) :: ls
         end
  end.

(** The str "\n". *)
Definition NEWLINE : pystr := [10%N].

(** [f.readlines()] *)
Definition readlines (content : pystr) : list pystr :=
  lines_keepends (universal_newlines content).

Section LongTerm.
Variable lib : PyLib.
Variable w : World.

(** [datetime.utcnow().isoformat()] *)
Definition utcnow : M pystr :=
  fun st => (Ok (utcnow_isoformat w (clock_reads st)), tick_clock st).

(** [open(path, "a").write(text)]: the file is created when it is missing. *)
Definition append_file (path text : pystr) : M unit :=
  modify_state (fun st =>
    set_files (<[path := default [] (files st !! path) ++ text]> (files st)) st).

(** Appends a summarized conversation to the user's memory file. *)
Definition store_summary (self : Memory) (summary : value) : M unit :=
  (timestamp <- utcnow ;;
   let record := VDict [(u "timestamp", VStr timestamp);
                        (u "summary", summary);
                        (u "messages", VList (history self))] in
   append_file (summary_file self) (json_dumps lib record ++ NEWLINE))%py.

(** Returns the most recent summary, if it exists. *)
Definition get_last_summary (self : Memory) : M value :=
  (st <- get_state ;;
   match files st !! summary_file self with
   | None => ret VNone
   | Some content =>
     match last (readlines content) with
     | None => ret VNone
     | Some line =>
       match json_loads lib line with
       | None => ret VNone
       | Some last_record =>
         match value_get last_record (u "summary") VNone with
         | Ok v => ret v
         | Raise _ => ret VNone
         end
       end
     end
   end)%py.

(** [MemoryManager.get_memory]: get or create the memory of a user. *)
Definition get_memory (user_id : pystr) : M Memory :=
  (st <- get_state ;;
   match user_memories st !! user_id with
   | Some memory => ret memory
   | None =>
     let memory := new_memory user_id in
     modify_state (fun st => set_user_memories (<[user_id := memory]> (user_memories st)) st) ;;;
     ret memory
   end)%py.

(** A method that mutates the Memory object of [user_id] in place. *)
Definition on_memory (user_id : pystr) (method : Memory -> Memory) : M unit :=
  modify_state (fun st => set_user_memories (alter method user_id (user_memories st)) st).

(** The current state of the Memory object of [user_id]. *)
Definition the_memory (user_id : pystr) : M Memory :=
  (st <- get_state ;;
   ret (default (new_memory user_id) (user_memories st !! user_id)))%py.

End LongTerm.
End MemoryStore.

(* ===================================================================== *)
(** * songbird/agent/agent.py                                              *)
(* ===================================================================== *)

Module Agent.
Import Py PyOps.

Definition APOLOGY : pystr :=
  u "Sorry, I have encountered an error, please can you repeat your request".

Section ConversationalAgent.
Variable lib : PyLib.
Variable w : World.

Definition tool_registry : list (pystr * (dict -> M value)) :=
  [ (u "check_availability", Tools.check_availability_kw w);
    (u "make_reservation", Tools.make_reservation_kw lib w);
    (u "check_reservation", Tools.check_reservation_kw lib w);
    (u "modify_reservation", Tools.modify_reservation_kw lib w);
    (u "cancel_reservation", Tools.cancel_reservation_kw lib w) ].

(** The double-quote character. *)
Definition QUOTE : pystr := [34%N].

(** Returns a welcome message based on prior user history. *)
Definition start_conversation (user_id : pystr) : M pystr :=
  (memory <- MemoryStore.get_memory user_id ;;
   user_summary <- MemoryStore.get_last_summary lib memory ;;
   let greeting :=
     if truthy user_summary then
       u "👋 Welcome back! Last time, you said: " ++ QUOTE ++ str_of lib user_summary
         ++ QUOTE ++ u ". How can I assist you today?"
     else
       u "👋 Hello! I’m your restaurant assistant. How can I help you make or manage a reservation?" in
   MemoryStore.on_memory user_id (MemoryStore.add_bot_message (VStr greeting)) ;;;
   ret greeting)%py.

(** Handles actual tool execution and safe error reporting. *)
Definition execute_tool (tool_call : dict) : M value :=
  (let tool_name := dict_get_none (u "name") tool_call in
   let args := dict_get_default (u "args") (VDict []) tool_call in
   tool_func <- lift (hashed_lookup tool_registry tool_name) ;;
   match tool_func with
   | None => ret (VStr (u "[Error] Unknown tool: `" ++ str_of lib tool_name ++ u "`"))
   | Some tool_func =>
     try_except
       (match args with
        | VDict kwargs => tool_func kwargs
        | _ => raise (Builtin TypeError [args])
        end)
       (fun e =>
          match e with
          | ToolError _ => Some (ret (VStr (u "[Tool Error] " ++ exn_str lib e)))
          | _ =>
            Some (ret (VStr (u "[Execution Error] Something went wrong while using `"
                             ++ str_of lib tool_name ++ u "`: " ++ exn_str lib e)))
          end)
   end)%py.

(** [isinstance(llm_reply, dict) and "tool_call" in llm_reply] *)
Definition is_tool_call (llm_reply : value) : bool :=
  match llm_reply with
  | VDict d => dict_mem (u "tool_call") d
  | _ => false
  end.

(** The while loop of [handle_user_input]; [fuel] bounds the iterations the
    model may take and the counter [i] is the source's. *)
Fixpoint tool_call_loop (fuel : nat) (user_id : pystr) (i : Z) (llm_reply : value)
    : M (Z * value) :=
  match fuel with
  | O => ret (i, llm_reply)
  | S fuel' =>
    if is_tool_call llm_reply && (i <? 4) then
      (let i := i + 1 in
       tool_call <- lift (subscript llm_reply (u "tool_call")) ;;
       tool_result <-
         (match tool_call with
          | VDict tc => execute_tool tc
          | _ => raise (Builtin AttributeError [tool_call; VStr (u "get")])
          end) ;;
       MemoryStore.on_memory user_id (MemoryStore.add_tool_result tool_result) ;;;
       memory <- MemoryStore.the_memory user_id ;;
       llm_reply <- Llm.process lib w (MemoryStore.get_history memory) ;;
       tool_call_loop fuel' user_id i llm_reply)%py
    else ret (i, llm_reply)
  end.

(** Processes user input and returns LLM or tool result.  Four units of fuel
    are all the loop can use: the counter starts at 0 and the loop stops
    at 4. *)
Definition handle_user_input (user_id : pystr) (user_input : value) : M value :=
  (memory <- MemoryStore.get_memory user_id ;;
   MemoryStore.on_memory user_id (MemoryStore.add_user_message user_input) ;;;
   memory <- MemoryStore.the_memory user_id ;;
   llm_reply <- Llm.process lib w (MemoryStore.get_history memory) ;;
   exit <- tool_call_loop 4 user_id 0 llm_reply ;;
   let '(i, llm_reply) := exit in
   let llm_reply := if i >? 3 then VStr APOLOGY else llm_reply in
   MemoryStore.on_memory user_id (MemoryStore.add_bot_message llm_reply) ;;;
   ret llm_reply)%py.

(** Summarizes conversation and clears short-term memory. *)
Definition end_session (user_id : pystr) : M pystr :=
  (memory <- MemoryStore.get_memory user_id ;;
   summary <- Llm.summarize w (MemoryStore.get_history memory) ;;
   MemoryStore.store_summary lib w memory (VStr summary) ;;;
   MemoryStore.on_memory user_id MemoryStore.clear ;;;
   ret (u "📝 Thanks for chatting! I've saved this summary: " ++ [10%N; 10%N]
        ++ QUOTE ++ summary ++ QUOTE))%py.

End ConversationalAgent.
End Agent.

(* ===================================================================== *)
(** * Concrete worlds for the examples                                     *)
(* ===================================================================== *)

Module Demo.
Import Py PyOps.

(** A JSON text, written with ' where the text has a double quote. *)
Definition json_text (s : string) : pystr := replace_char 39%N 34%N (u s).

Definition SAY_CHECK : pystr :=
  json_text "{'channel':'to_data_entry','message':'Please check availability on 2025-08-10 for 2 people.'}".
Definition SAY_BOOK : pystr :=
  json_text "{'channel':'to_data_entry','message':'Please make a reservation on 2025-08-10 at 19:00 for 4 people.'}".
Definition SAY_MODIFY : pystr :=
  json_text "{'channel':'to_data_entry','message':'Please modify booking ABC123.'}".
Definition SAY_CANCEL : pystr :=
  json_text "{'channel':'to_data_entry','message':'Please cancel booking ABC123.'}".
Definition SAY_SLOTS : pystr :=
  json_text "{'channel':'to_user','message':'We have a table at 19:00 on 2025-08-10.'}".

Definition CALL_CHECK : pystr :=
  json_text "{'tool_call':{'name':'check_availability','args':{'date':'2025-08-10','people':'2'}}}".
Definition CALL_BOOK : pystr :=
  json_text "{'tool_call':{'name':'make_reservation','args':{'date':'2025-08-10','time':'19:00','people':'4'}}}".
Definition CALL_BOOK_DATE_ONLY : pystr :=
  json_text "{'tool_call':{'name':'make_reservation','args':{'date':'2025-08-10'}}}".
Definition CALL_MODIFY_REF_ONLY : pystr :=
  json_text "{'tool_call':{'name':'modify_reservation','args':{'booking_reference':'ABC123'}}}".
Definition CALL_MODIFY_NO_ARGS : pystr :=
  json_text "{'tool_call':{'name':'modify_reservation','args':{}}}".
Definition CALL_CANCEL_NULL_ARGS : pystr :=
  json_text "{'tool_call':{'name':'cancel_reservation','args':null}}".

Definition say (channel message : string) : value :=
  VDict [(u "channel", VStr (u channel)); (u "message", VStr (u message))].

Definition call (name : string) (args : dict) : value :=
  VDict [(u "tool_call", VDict [(u "name", VStr (u name)); (u "args", VDict args)])].

(** The record [store_summary] writes for the summary "Booked a table for 4."
    at the first reading of the clock, and the line [json.dumps] makes of it. *)
Definition SUMMARY : pystr := u "Booked a table for 4.".
Definition NOW : pystr := u "2025-08-10T12:00:00".
Definition RECORD : value :=
  VDict [(u "timestamp", VStr NOW); (u "summary", VStr SUMMARY);
         (u "messages", VList [])].
Definition RECORD_LINE : pystr :=
  json_text "{'timestamp': '2025-08-10T12:00:00', 'summary': 'Booked a table for 4.', 'messages': []}".

(** What [json.loads] makes of the texts above (a trailing newline is
    whitespace to it). *)
Definition json_table : list (pystr * value) :=
  [ (SAY_CHECK, say "to_data_entry" "Please check availability on 2025-08-10 for 2 people.");
    (SAY_BOOK, say "to_data_entry"
                 "Please make a reservation on 2025-08-10 at 19:00 for 4 people.");
    (SAY_MODIFY, say "to_data_entry" "Please modify booking ABC123.");
    (SAY_CANCEL, say "to_data_entry" "Please cancel booking ABC123.");
    (SAY_SLOTS, say "to_user" "We have a table at 19:00 on 2025-08-10.");
    (CALL_CHECK, call "check_availability"
                   [(u "date", VStr (u "2025-08-10")); (u "people", VStr (u "2"))]);
    (CALL_BOOK, call "make_reservation"
                  [(u "date", VStr (u "2025-08-10")); (u "time", VStr (u "19:00"));
                   (u "people", VStr (u "4"))]);
    (CALL_BOOK_DATE_ONLY, call "make_reservation" [(u "date", VStr (u "2025-08-10"))]);
    (CALL_MODIFY_REF_ONLY, call "modify_reservation"
                             [(u "booking_reference", VStr (u "ABC123"))]);
    (CALL_MODIFY_NO_ARGS, call "modify_reservation" []);
    (CALL_CANCEL_NULL_ARGS,
     VDict [(u "tool_call", VDict [(u "name", VStr (u "cancel_reservation"));
                                   (u "args", VNone)])]);
    (RECORD_LINE ++ [10%N], RECORD) ].

(** A library that agrees with CPython on every input the examples give it:
    the JSON texts above, the date 2025-08-10 and the time 19:00:00. *)
Definition lib : PyLib :=
  {| json_loads := fun s => snd <$> List.find (fun kv => str_eqb (fst kv) s) json_table;
     json_dumps := fun _ => RECORD_LINE;
     int_nonascii := fun _ => None;
     repr_other := fun _ => u "<repr>";
     strptime_date_ok := fun s => str_eqb s (u "2025-08-10");
     strptime_time_ok := fun s => str_eqb s (u "19:00:00");
     builtin_msg := fun _ _ => u "<message>" |}.

(** The booking API of the examples: slots for an availability search, the
    reference ABC123 for a new booking, the booking itself for a lookup. *)
Definition BOOKING : value :=
  VDict [(u "booking_reference", VStr (u "ABC123"));
         (u "visit_date", VStr (u "2025-08-10"));
         (u "party_size", VInt 4)].

Definition booking_api (req : HttpRequest) : ApiOutcome :=
  match method req with
  | GET => ApiJson BOOKING
  | PATCH => ApiJson BOOKING
  | POST =>
    if is_substring (u "AvailabilitySearch") (url req)
    then ApiJson (VDict [(u "available_slots", VList [VStr (u "19:00:00")])])
    else ApiJson (VDict [(u "booking_reference", VStr (u "ABC123"))])
  end.

(** A world whose LLM gives the scripted completions in order (and fails
    once the script is over). *)
Definition scripted (completions : list (option pystr)) : World :=
  {| llm := fun n _ => nth n completions None;
     api := fun _ req => booking_api req;
     utcnow_isoformat := fun _ => NOW |}.

(** The same world with the booking API down. *)
Definition offline (completions : list (option pystr)) : World :=
  {| llm := fun n _ => nth n completions None;
     api := fun _ _ => ApiRequestException (u "Connection refused");
     utcnow_isoformat := fun _ => NOW |}.

(** Four rounds of availability checks, then an answer for the user. *)
Definition four_rounds_then_answer : World :=
  scripted [Some SAY_CHECK; Some CALL_CHECK; Some SAY_CHECK; Some CALL_CHECK;
            Some SAY_CHECK; Some CALL_CHECK; Some SAY_CHECK; Some CALL_CHECK;
            Some SAY_SLOTS].

Definition USER : pystr := u "user-1".

Definition first_turn (text : string) : list value :=
  [MemoryStore.turn (u "user") (VStr (u text))].

End Demo.

(* ===================================================================== *)
(** * Vocabulary of the statements                                         *)
(* ===================================================================== *)

Module Expected.
Import Py PyOps.


(** The schema registered for a tool name. *)
Definition schema_of (name : pystr) : option Llm.Schema :=
  snd <$> List.find (fun kv => str_eqb (fst kv) name) Llm.SCHEMAS.

(** The required keys whose value is absent, None or blank. *)
Definition missing_required (lib : PyLib) (schema : Llm.Schema) (args : dict)
    : list pystr :=
  List.filter (fun k => negb (Llm._present lib (dict_get_none k args)))
              (Llm.required schema).

(** A field name as it is read out: underscores become spaces. *)
Definition readable (field : pystr) : pystr := replace_char 95%N 32%N field.

(** The modify rule: neither a new date nor a new time is present. *)
Definition no_new_date_or_time (lib : PyLib) (args : dict) : bool :=
  negb (Llm._present lib (dict_get_none (u "new_date") args))
  && negb (Llm._present lib (dict_get_none (u "new_time") args)).

(** The clarifying question for the missing fields of a call: the dedicated
    question when the modify rule fires, else the first missing field, or the
    first two when more are missing. *)
Definition clarifying_question (lib : PyLib) (name : pystr) (args : dict)
    (missing : list pystr) : pystr :=
  if str_eqb name (u "modify_reservation") && no_new_date_or_time lib args
  then Llm.CHANGE_DATE_OR_TIME
  else match missing with
       | [] => Llm.TECHNICAL_ERRORS
       | [m0] => u "Got it, could you please share the " ++ readable m0 ++ u "?"
       | m0 :: m1 :: _ =>
         u "Thanks! I still need: " ++ readable m0 ++ u ", " ++ readable m1 ++ u "."
       end.

(** The arguments a validation sees: [tool_call.get("args", {}) or {}]. *)
Definition args_seen (tool_call : dict) : value :=
  py_or (dict_get_default (u "args") (VDict []) tool_call) (VDict []).

(** The GET request [check_reservation] sends for a reference. *)
Definition check_reservation_request (lib : PyLib) (booking_reference : value)
    : HttpRequest :=
  {| method := GET;
     url := Tools.BASE_URL ++ Tools.RESTAURANT_NAME ++ u "/" ++ u "Booking" ++ u "/"
            ++ str_of lib booking_reference;
     form_headers := false;
     data := None |}.

Definition NO_CHANGES : pystr :=
  u "No changes provided. Include at least one field to modify.".

(** The two line-break characters of text files. *)
Definition is_newline (c : N) : bool := ((c =? 10) || (c =? 13))%N.

(** A log file as [store_summary] leaves it: empty, or ending in a newline. *)
Definition log_wf (content : pystr) : Prop :=
  content = [] \/ exists body, content = body ++ [10%N].

(** The record [store_summary] writes. *)
Definition summary_record (timestamp : pystr) (summary : value) (messages : list value)
    : value :=
  VDict [(u "timestamp", VStr timestamp); (u "summary", summary);
         (u "messages", VList messages)].

(** The state of the memories and the files, and the clock, are the same. *)
Definition same_store (st st' : State) : Prop :=
  clock_reads st' = clock_reads st
  /\ user_memories st' = user_memories st
  /\ files st' = files st.

(** Between two states at most [n] completion requests and at most [k]
    booking requests were sent, and nothing was taken off the logs. *)
Definition sent (n k : nat) (st st' : State) : Prop :=
  exists l h,
    llm_calls st' = llm_calls st ++ l /\ (length l <= n)%nat
    /\ http_calls st' = http_calls st ++ h /\ (length h <= k)%nat.

(** A computation that sends at most [n] completion requests and at most
    [k] booking requests, whatever the state it starts in and however it
    ends. *)
Definition emits {A} (n k : nat) (m : M A) : Prop :=
  forall st, sent n k st (snd (m st)).

(** Every value a computation returns satisfies [P]. *)
Definition returns {A} (P : A -> Prop) (m : M A) : Prop :=
  forall st v st', m st = (Ok v, st') -> P v.

(** A reply of the pipeline: a text, or a tool call for dispatch. *)
Definition is_text (v : value) : Prop := exists s, v = VStr s.

Definition tool_call_reply (tc : dict) : value := VDict [(u "tool_call", VDict tc)].

(** A str with nothing but whitespace in it. *)
Definition blank (s : pystr) : bool := forallb isspace s.

(** A turn of the short-term history with the given role. *)
Definition has_role (role : pystr) (turn : value) : Prop :=
  exists content, turn = MemoryStore.turn role content.

(** What the development takes from the library about [int()] and [str()]
    where it leaves them to it: a float never prints blank, and a blank str
    with non-ASCII characters is no number. *)
Definition int_accepts_no_blank (lib : PyLib) : Prop :=
  (forall f, strip (repr_other lib (VFloat f)) <> [])
  /\ (forall s n, int_nonascii lib s = Some n -> strip s <> []).

(** An attempt of the worker that extracted nothing it can use. *)
Definition nothing_extracted (tool_call : option dict) : Prop :=
  match tool_call with
  | Some (_ :: _) => False
  | _ => True
  end.


(** The fields [modify_reservation] writes into its payload, and what holds
    of a field it wrote. *)
Definition MODIFIABLE : list pystr :=
  [u "VisitDate"; u "VisitTime"; u "PartySize"; u "SpecialRequests";
   u "IsLeaveTimeConfirmed"].

Definition valid_change (lib : PyLib) (kv : pystr * value) : Prop :=
  let (k, v) := kv in
  In k MODIFIABLE
  /\ (k = u "VisitDate" -> Tools._validate_date lib v = Ok tt)
  /\ (k = u "VisitTime" -> Tools._validate_time lib v = Ok tt)
  /\ (k = u "PartySize" -> exists n, 0 < n /\ v = VStr (str_of_Z n))
  /\ (k = u "SpecialRequests" -> truthy v = true)
  /\ (k = u "IsLeaveTimeConfirmed" -> v = VStr (u "true") \/ v = VStr (u "false")).

(** The payload of [modify_reservation]: the reference first, then changes. *)
Definition patch_payload (lib : PyLib) (ref : value) (payload : dict) : Prop :=
  exists changes,
    payload = (u "booking_reference", ref) :: changes
    /\ Forall (valid_change lib) changes.

(** A computation that leaves the whole state as it is. *)
Definition silent {A} (m : M A) : Prop := forall st, snd (m st) = st.

(** A computation that sends at most one request to the booking API and, if
    the request fails, raises the ToolError of the except clause that
    catches the failure. *)
Definition one_request (w : World) {A} (m : M A) : Prop :=
  forall st,
    snd (m st) = st
    \/ exists req,
         snd (m st) = log_http req st
         /\ (forall msg, api w (length (http_calls st)) req = ApiRequestException msg ->
                         fst (m st) = Raise (ToolError (u "API request failed: " ++ msg)))
         /\ (api w (length (http_calls st)) req = ApiValueError ->
             fst (m st) = Raise (ToolError (u "Invalid JSON response from server."))).

(** A computation that leaves the memories, the files and the clock alone. *)
Definition keeps_store {A} (m : M A) : Prop :=
  forall st, same_store st (snd (m st)).

End Expected.

(* ===================================================================== *)
(** * Properties                                                           *)
(* ===================================================================== *)

Import Py PyOps.

(** ** Strings, dicts and the monad *)

Lemma str_eqb_refl (s : pystr) : str_eqb s s = true.
Proof. unfold str_eqb. apply bool_decide_eq_true. reflexivity. Qed.

Lemma str_eqb_eq (s t : pystr) : str_eqb s t = true <-> s = t.
Proof. unfold str_eqb. apply bool_decide_eq_true. Qed.

Lemma str_eqb_neq (s t : pystr) : str_eqb s t = false <-> s <> t.
Proof. unfold str_eqb. apply bool_decide_eq_false. Qed.

Lemma str_eqb_sym (s t : pystr) : str_eqb s t = str_eqb t s.
Proof.
  destruct (str_eqb t s) eqn:E.
  - apply str_eqb_eq in E. subst. apply str_eqb_refl.
  - apply str_eqb_neq in E. apply str_eqb_neq. congruence.
Qed.

(** Evaluates the comparisons of two str literals in the goal. *)
Ltac eval_str_eqb :=
  repeat match goal with
  | |- context [str_eqb (u ?a) (u ?b)] =>
    let v := eval vm_compute in (str_eqb (u a) (u b)) in
    change (str_eqb (u a) (u b)) with v
  end.


Lemma dict_get_nonempty (k : pystr) (d : dict) (v : value) :
  dict_get k d = Some v -> exists kv rest, d = kv :: rest.
Proof. destruct d as [|kv rest]; [discriminate | eauto]. Qed.

Lemma dict_get_set_eq (k : pystr) (v : value) (d : dict) :
  dict_get k (dict_set k v d) = Some v.
Proof.
  induction d as [|[k' v'] r IH]; cbn [dict_set dict_get].
  - rewrite str_eqb_refl. reflexivity.
  - destruct (str_eqb k' k) eqn:E; cbn [dict_get].
    + rewrite str_eqb_refl. reflexivity.
    + rewrite E. exact IH.
Qed.

Lemma dict_get_set_ne (k k' : pystr) (v : value) (d : dict) :
  k <> k' -> dict_get k' (dict_set k v d) = dict_get k' d.
Proof.
  intros Hne. induction d as [|[k0 v0] r IH]; cbn [dict_set dict_get].
  - apply str_eqb_neq in Hne. rewrite Hne. reflexivity.
  - destruct (str_eqb k0 k) eqn:E; cbn [dict_get].
    + apply str_eqb_eq in E. subst k0.
      apply str_eqb_neq in Hne. rewrite Hne. reflexivity.
    + destruct (str_eqb k0 k'); [reflexivity | exact IH].
Qed.

Lemma bind_ok {A B} (m : M A) (k : A -> M B) (st st1 : State) (a : A) :
  m st = (Ok a, st1) -> bind m k st = k a st1.
Proof. intros H. unfold bind. rewrite H. reflexivity. Qed.

Lemma bind_raise {A B} (m : M A) (k : A -> M B) (st st1 : State) (e : PyExn) :
  m st = (Raise e, st1) -> bind m k st = (Raise e, st1).
Proof. intros H. unfold bind. rewrite H. reflexivity. Qed.

Lemma bind_inv {A B} (m : M A) (k : A -> M B) (st st' : State) (out : Result B) :
  bind m k st = (out, st') ->
  (exists a st1, m st = (Ok a, st1) /\ k a st1 = (out, st'))
  \/ (exists e, m st = (Raise e, st') /\ out = Raise e).
Proof.
  unfold bind. destruct (m st) as [[a|e] st1]; intros H.
  - left. eauto.
  - right. injection H as <- <-. eauto.
Qed.

Lemma length_log_llm (req : LLMRequest) (st : State) :
  length (llm_calls (log_llm req st)) = S (length (llm_calls st)).
Proof. cbn. rewrite length_app. cbn. lia. Qed.

(** ** tools.py *)

Section ToolsFacts.
Variable lib : PyLib.
Variable w : World.

Lemma request_json_state (req : HttpRequest) (st : State) :
  snd (Tools.request_json w req st) = log_http req st.
Proof. unfold Tools.request_json. destruct (api w _ req); reflexivity. Qed.

Lemma request_json_body (req : HttpRequest) (st : State) (body : value) :
  api w (length (http_calls st)) req = ApiJson body ->
  Tools.request_json w req st = (Ok body, log_http req st).
Proof. intros H. unfold Tools.request_json. rewrite H. reflexivity. Qed.

Lemma not_one_more {A} (l : list A) (x : A) : l <> l ++ [x].
Proof.
  intros H. apply (f_equal (@length A)) in H. rewrite length_app in H.
  cbn in H. lia.
Qed.

Lemma make_reservation_confirmed
    (date time people channel_code special_requests is_leave_time_confirmed
       room_number customer : value) (st : State) (req : HttpRequest) (body : dict) :
  http_calls (snd (Tools.make_reservation lib w date time people channel_code
                     special_requests is_leave_time_confirmed room_number customer st))
  = http_calls st ++ [req] ->
  api w (length (http_calls st)) req = ApiJson (VDict body) ->
  dict_get (u "booking_reference") body = Some (VStr (u "ABC123")) ->
  fst (Tools.make_reservation lib w date time people channel_code
         special_requests is_leave_time_confirmed room_number customer st)
  = Ok (VStr (u "Reservation confirmed! Your reference is ABC123.")).
Proof.
  intros Hlog Hapi Href. revert Hlog.
  unfold Tools.make_reservation, bind, lift, raise, ret.
  destruct (truthy date && truthy time && truthy people); cbn [negb];
    [|intros Hlog; cbn [snd] in Hlog; destruct (not_one_more _ _ Hlog)].
  destruct (le_zero people) as [[|]|e];
    try (intros Hlog; cbn [snd] in Hlog; destruct (not_one_more _ _ Hlog)).
  destruct (Tools._validate_date lib date) as [[]|e];
    try (intros Hlog; cbn [snd] in Hlog; destruct (not_one_more _ _ Hlog)).
  destruct (Tools._normalize_time time) as [time'|e];
    try (intros Hlog; cbn [snd] in Hlog; destruct (not_one_more _ _ Hlog)).
  destruct (Tools._validate_time lib time') as [[]|e];
    try (intros Hlog; cbn [snd] in Hlog; destruct (not_one_more _ _ Hlog)).
  match goal with
  | |- context [match (if truthy customer then ?a else ?b) st with _ => _ end] =>
    assert (Hpay : (exists payload, (if truthy customer then a else b) st = (Ok payload, st))
                   \/ (exists e, (if truthy customer then a else b) st = (Raise e, st)))
  end.
  { destruct (truthy customer); [|left; eauto].
    destruct customer; try solve [right; eexists; reflexivity]; left; eexists; reflexivity. }
  destruct Hpay as [[payload Hpay]|[e Hpay]]; rewrite Hpay;
    try (intros Hlog; cbn [snd] in Hlog; destruct (not_one_more _ _ Hlog)).
  unfold Tools.call_api.
  match goal with
  | |- context [Tools.request_json w ?r st] =>
    pose proof (request_json_state r st) as Hst;
    destruct (Tools.request_json w r st) as [out st1] eqn:Hreq
  end.
  cbn [snd] in Hst. subst st1.
  intros Hlog.
  match type of Hreq with
  | Tools.request_json w ?r st = _ => remember r as sent eqn:Hsent
  end.
  assert (Hreq' : sent = req).
  { destruct out as [resp|e];
      [destruct (value_get resp (u "booking_reference") VNone) as [b|e];
       [destruct (truthy b)|]|];
      cbn [snd log_http http_calls] in Hlog; apply app_inj_tail in Hlog; tauto. }
  rewrite Hreq' in Hreq. rewrite (request_json_body _ _ _ Hapi) in Hreq.
  injection Hreq as <-.
  cbv beta iota. unfold value_get, dict_get_default. rewrite Href.
  vm_compute. reflexivity.
Qed.

(** The handler is reached through its keyword call. *)
Lemma registry_lookup (name : pystr) :
  hashed_lookup (Agent.tool_registry lib w) (VStr name)
  = Ok (snd <$> List.find (fun kv => str_eqb (fst kv) name) (Agent.tool_registry lib w)).
Proof. reflexivity. Qed.


(** What [execute_tool] makes of the run of the handler it found. *)
Lemma execute_tool_found (tool_call : dict) (f : dict -> M value) (st : State) :
  hashed_lookup (Agent.tool_registry lib w) (dict_get_none (u "name") tool_call)
  = Ok (Some f) ->
  Agent.execute_tool lib w tool_call st
  = match (match dict_get_default (u "args") (VDict []) tool_call with
           | VDict kwargs => f kwargs
           | args => raise (Builtin TypeError [args])
           end) st with
    | (Ok v, st') => (Ok v, st')
    | (Raise (ToolError msg), st') => (Ok (VStr (u "[Tool Error] " ++ msg)), st')
    | (Raise e, st') =>
      (Ok (VStr (u "[Execution Error] Something went wrong while using `"
                 ++ str_of lib (dict_get_none (u "name") tool_call) ++ u "`: "
                 ++ exn_str lib e)), st')
    end.
Proof.
  intros Hf. unfold Agent.execute_tool, bind, lift. rewrite Hf.
  unfold try_except.
  destruct (dict_get_default (u "args") (VDict []) tool_call);
    match goal with
    | |- context [match ?run st with _ => _ end] =>
      destruct (run st) as [[v|[msg|k info]] st']; reflexivity
    end.
Qed.

Lemma registry_make_reservation :
  hashed_lookup (Agent.tool_registry lib w) (VStr (u "make_reservation"))
  = Ok (Some (Tools.make_reservation_kw lib w)).
Proof.
  unfold hashed_lookup, Agent.tool_registry. cbn [List.find fst snd].
  eval_str_eqb. reflexivity.
Qed.

Lemma registry_modify_reservation :
  hashed_lookup (Agent.tool_registry lib w) (VStr (u "modify_reservation"))
  = Ok (Some (Tools.modify_reservation_kw lib w)).
Proof.
  unfold hashed_lookup, Agent.tool_registry. cbn [List.find fst snd].
  eval_str_eqb. reflexivity.
Qed.

Lemma execute_make_reservation_confirmed
    (tool_call : dict) (st : State) (req : HttpRequest) (body : dict) :
  dict_get (u "name") tool_call = Some (VStr (u "make_reservation")) ->
  http_calls (snd (Agent.execute_tool lib w tool_call st)) = http_calls st ++ [req] ->
  api w (length (http_calls st)) req = ApiJson (VDict body) ->
  dict_get (u "booking_reference") body = Some (VStr (u "ABC123")) ->
  fst (Agent.execute_tool lib w tool_call st) = Ok (VStr (u "Reservation confirmed! Your reference is ABC123.")).
Proof.
  intros Hname Hlog Hapi Href.
  assert (Hf : hashed_lookup (Agent.tool_registry lib w)
                 (dict_get_none (u "name") tool_call)
               = Ok (Some (Tools.make_reservation_kw lib w))).
  { unfold dict_get_none, dict_get_default. rewrite Hname.
    apply registry_make_reservation. }
  rewrite (execute_tool_found _ _ _ Hf) in Hlog |- *.
  destruct (dict_get_default (u "args") (VDict []) tool_call) as [| | | | |l|kwargs];
    try (unfold raise in Hlog; cbn [snd] in Hlog; destruct (not_one_more _ _ Hlog)).
  revert Hlog. unfold Tools.make_reservation_kw, bind, lift.
  destruct (Tools.bind_kwargs _ _ kwargs) as [[]|e].
  2:{ intros Hlog. destruct e; cbn [snd] in Hlog; destruct (not_one_more _ _ Hlog). }
  match goal with
  | |- context [Tools.make_reservation lib w ?a ?b ?c ?d ?e ?f ?g ?h st] =>
    pose proof (make_reservation_confirmed a b c d e f g h st req body) as Hmr;
    destruct (Tools.make_reservation lib w a b c d e f g h st) as [[v|[msg|k info]] st']
  end; cbn [fst snd] in *; intros Hlog; specialize (Hmr Hlog Hapi Href);
    try discriminate Hmr; exact Hmr.
Qed.

(** A request that is sent is logged whatever the API answers. *)
Lemma call_api_get_check_state (params : dict) (reference : value) (st : State) :
  dict_get (u "booking_reference") params = Some reference ->
  snd (Tools.call_api_get lib w (u "Booking") params (u "check_reservation") st)
  = log_http (Expected.check_reservation_request lib reference) st.
Proof.
  intros Href. unfold Tools.call_api_get, bind, lift, subscript. rewrite Href.
  rewrite str_eqb_refl. unfold Expected.check_reservation_request.
  apply request_json_state.
Qed.

(** C9. [check_reservation] called with an empty (falsy) booking reference
    raises the domain ToolError and the booking API sees no request; with
    any other reference the call goes on to one HTTP GET for that
    reference. *)
Theorem check_reservation_requires_reference (booking_reference : value) (st : State) :
  (truthy booking_reference = false ->
   Tools.check_reservation lib w booking_reference st
   = (Raise (ToolError (u "Booking reference is required.")), st))
  /\
  (truthy booking_reference = true ->
   snd (Tools.check_reservation lib w booking_reference st)
   = log_http (Expected.check_reservation_request lib booking_reference) st).
Proof.
  unfold Tools.check_reservation. split; intros H; rewrite H; cbn [negb].
  - reflexivity.
  - rewrite (call_api_get_check_state _ booking_reference); [reflexivity|].
    cbn [dict_get]. rewrite str_eqb_refl. reflexivity.
Qed.

Lemma modify_reservation_nothing_to_change
    (booking_reference VisitDate VisitTime SpecialRequests : value) (st : State) :
  truthy booking_reference = true ->
  truthy VisitDate = false -> truthy VisitTime = false ->
  truthy SpecialRequests = false ->
  Tools.modify_reservation lib w booking_reference VisitDate VisitTime VNone
    SpecialRequests VNone st
  = (Raise (ToolError Expected.NO_CHANGES), st).
Proof.
  intros Href Hd Ht Hs. unfold Tools.modify_reservation.
  rewrite Href, Hd, Ht, Hs. unfold Expected.NO_CHANGES. reflexivity.
Qed.

Lemma kwarg_modify_reservation (args : dict) (name : pystr) :
  existsb (fun p => str_eqb (fst p) name) Tools.sig_modify_reservation = true ->
  Tools.kwarg Tools.sig_modify_reservation args name = dict_get_none name args.
Proof.
  intros _. unfold Tools.kwarg, dict_get_none, dict_get_default.
  destruct (dict_get name args); [reflexivity|].
  unfold Tools.sig_modify_reservation. cbn [List.find fst snd].
  repeat match goal with
         | |- context [if ?c then _ else _] => destruct c
         end; reflexivity.
Qed.

(** C10 (amended). [modify_reservation] called with a non-empty booking
    reference, with VisitDate, VisitTime and SpecialRequests each absent, None
    or falsy, and with PartySize and IsLeaveTimeConfirmed each absent or None,
    raises the ToolError saying that no changes were provided, and no request
    reaches the booking API; dispatched through [execute_tool], such a call
    comes back as the labelled tool-error string. *)
Theorem changeless_modify_never_reaches_api (tool_call args : dict) (st : State) :
  dict_get (u "name") tool_call = Some (VStr (u "modify_reservation")) ->
  dict_get (u "args") tool_call = Some (VDict args) ->
  Tools.bind_kwargs (u "modify_reservation") Tools.sig_modify_reservation args = Ok tt ->
  truthy (dict_get_none (u "booking_reference") args) = true ->
  truthy (dict_get_none (u "VisitDate") args) = false ->
  truthy (dict_get_none (u "VisitTime") args) = false ->
  truthy (dict_get_none (u "SpecialRequests") args) = false ->
  dict_get_none (u "PartySize") args = VNone ->
  dict_get_none (u "IsLeaveTimeConfirmed") args = VNone ->
  Tools.modify_reservation_kw lib w args st = (Raise (ToolError Expected.NO_CHANGES), st)
  /\ Agent.execute_tool lib w tool_call st
     = (Ok (VStr (u "[Tool Error] " ++ Expected.NO_CHANGES)), st).
Proof.
  intros Hname Hargs Hbind Href Hd Ht Hs Hp Hl.
  assert (Hcall : Tools.modify_reservation_kw lib w args st
                  = (Raise (ToolError Expected.NO_CHANGES), st)).
  { unfold Tools.modify_reservation_kw, bind, lift. rewrite Hbind.
    rewrite !kwarg_modify_reservation by (vm_compute; reflexivity).
    rewrite Hp, Hl. apply modify_reservation_nothing_to_change; assumption. }
  split; [exact Hcall|].
  rewrite (execute_tool_found tool_call (Tools.modify_reservation_kw lib w)).
  - unfold dict_get_default. rewrite Hargs, Hcall. reflexivity.
  - unfold dict_get_none, dict_get_default. rewrite Hname.
    apply registry_modify_reservation.
Qed.

(** A tool name that can be hashed never makes [execute_tool] raise. *)
Lemma execute_tool_returns (tool_call : dict) (st : State) :
  (forall l, dict_get_none (u "name") tool_call <> VList l) ->
  (forall d, dict_get_none (u "name") tool_call <> VDict d) ->
  exists v st', Agent.execute_tool lib w tool_call st = (Ok v, st').
Proof.
  intros Hl Hd.
  destruct (hashed_lookup (Agent.tool_registry lib w)
              (dict_get_none (u "name") tool_call)) as [[f|]|e] eqn:Hf.
  - rewrite (execute_tool_found _ _ _ Hf).
    match goal with
    | |- context [match ?run st with _ => _ end] =>
      destruct (run st) as [[v|[msg|k info]] st']; eauto
    end.
  - unfold Agent.execute_tool, bind, lift. rewrite Hf. unfold ret. eauto.
  - unfold hashed_lookup in Hf.
    destruct (dict_get_none (u "name") tool_call) eqn:E; try discriminate Hf.
    + destruct (Hl l eq_refl).
    + destruct (Hd d eq_refl).
Qed.

End ToolsFacts.

Lemma check_reservation_requires_reference_witness :
  Tools.check_reservation Demo.lib (Demo.scripted []) (VStr []) initial_state
  = (Raise (ToolError (u "Booking reference is required.")), initial_state)
  /\ http_calls (snd (Tools.check_reservation Demo.lib (Demo.scripted [])
                        (VStr (u "ABC123")) initial_state))
     = [Expected.check_reservation_request Demo.lib (VStr (u "ABC123"))].
Proof.
  split.
  - apply (check_reservation_requires_reference Demo.lib (Demo.scripted [])
             (VStr []) initial_state). reflexivity.
  - rewrite (proj2 (check_reservation_requires_reference Demo.lib (Demo.scripted [])
                      (VStr (u "ABC123")) initial_state));
      vm_compute; reflexivity.
Defined.

(** C10, as stated, fails: IsLeaveTimeConfirmed = False is falsy, yet the
    call is not changeless for the code and a PATCH request is sent. *)
Lemma falsy_leave_time_flag_is_sent :
  let run := Tools.modify_reservation Demo.lib (Demo.scripted [])
               (VStr (u "ABC123")) VNone VNone VNone VNone (VBool false)
               initial_state in
  truthy (VBool false) = false
  /\ fst run <> Raise (ToolError Expected.NO_CHANGES)
  /\ http_calls (snd run)
     = [ {| method := PATCH;
            url := u "http://localhost:8547/api/ConsumerApi/v1/Restaurant/TheHungryUnicorn/Booking/ABC123";
            form_headers := false;
            data := Some [(u "IsLeaveTimeConfirmed", VStr (u "false"))] |} ].
Proof.
  cbv zeta. split; [reflexivity|]. split.
  - vm_compute. discriminate.
  - vm_compute. reflexivity.
Qed.

Lemma changeless_modify_never_reaches_api_witness :
  Tools.modify_reservation_kw Demo.lib (Demo.scripted [])
    [(u "booking_reference", VStr (u "ABC123")); (u "VisitDate", VStr [])] initial_state
  = (Raise (ToolError Expected.NO_CHANGES), initial_state)
  /\ Agent.execute_tool Demo.lib (Demo.scripted [])
       [(u "name", VStr (u "modify_reservation"));
        (u "args", VDict [(u "booking_reference", VStr (u "ABC123"));
                          (u "VisitDate", VStr [])])] initial_state
     = (Ok (VStr (u "[Tool Error] " ++ Expected.NO_CHANGES)), initial_state).
Proof.
  apply (changeless_modify_never_reaches_api Demo.lib (Demo.scripted []) _
           [(u "booking_reference", VStr (u "ABC123")); (u "VisitDate", VStr [])]);
    vm_compute; reflexivity.
Defined.

(** C6 fails on the code: a successful [check_reservation] hands the decoded
    JSON response back as it is, and [execute_tool] returns that dict, not a
    str. *)
Theorem execute_tool_returns_the_booking_dict :
  Agent.execute_tool Demo.lib (Demo.scripted [])
    [(u "name", VStr (u "check_reservation"));
     (u "args", VDict [(u "booking_reference", VStr (u "ABC123"))])] initial_state
  = (Ok Demo.BOOKING,
     log_http (Expected.check_reservation_request Demo.lib (VStr (u "ABC123")))
       initial_state)
  /\ is_str Demo.BOOKING = false.
Proof. split; vm_compute; reflexivity. Qed.

(** ** llm.py *)

Section LlmFacts.
Variable lib : PyLib.
Variable w : World.

Lemma call_openrouter_run (req : LLMRequest) (st : State) :
  Llm._call_openrouter w req st
  = (Ok (llm w (length (llm_calls st)) req), log_llm req st).
Proof. reflexivity. Qed.


(** What [process] does with a decision for the user. *)
Lemma process_to_user (history : list value) (st st1 : State) (d : dict) (m : pystr) :
  Llm._receptionist lib w history st = (Ok (VDict d), st1) ->
  dict_get (u "channel") d = Some (VStr (u "to_user")) ->
  dict_get (u "message") d = Some (VStr m) ->
  Llm.process lib w history st
  = (Ok (VStr (str_or (strip m) Llm.SHARE_MORE_DETAIL)), st1).
Proof.
  intros Hrec Hch Hm. unfold Llm.process.
  rewrite (bind_ok _ _ _ _ _ Hrec).
  destruct (dict_get_nonempty _ _ _ Hch) as (kv & rest & ->).
  cbn [truthy negb]. unfold bind, lift, value_get, dict_get_default.
  rewrite Hch, Hm. cbn [method_strip eq_str]. rewrite str_eqb_refl.
  reflexivity.
Qed.


Lemma all_present_dict (args : dict) (keys : list pystr) :
  Llm.all_present lib (VDict args) keys
  = Ok (forallb (fun k => Llm._present lib (dict_get_none k args)) keys).
Proof.
  induction keys as [|k keys IH]; [reflexivity|].
  cbn [Llm.all_present forallb value_get rbind].
  fold (dict_get_none k args).
  destruct (Llm._present lib (dict_get_none k args)); [exact IH | reflexivity].
Qed.

Lemma missing_of_dict (args : dict) (keys : list pystr) :
  Llm.missing_of lib (VDict args) keys
  = Ok (List.filter (fun k => negb (Llm._present lib (dict_get_none k args))) keys).
Proof.
  induction keys as [|k keys IH]; [reflexivity|].
  cbn [Llm.missing_of List.filter value_get rbind].
  fold (dict_get_none k args). rewrite IH. cbn [rbind].
  destruct (Llm._present lib (dict_get_none k args)); reflexivity.
Qed.

Lemma forallb_filter_nil {A} (p : A -> bool) (l : list A) :
  List.filter (fun x => negb (p x)) l <> [] -> forallb p l = false.
Proof.
  induction l as [|x l IH]; cbn [List.filter forallb]; [congruence|].
  destruct (p x); cbn [negb andb]; [exact IH | reflexivity].
Qed.

Lemma hashed_lookup_schema (name : pystr) :
  hashed_lookup Llm.SCHEMAS (VStr name) = Ok (Expected.schema_of name).
Proof. unfold hashed_lookup, Expected.schema_of. reflexivity. Qed.

(** A call that lacks a required field does not validate. *)
Lemma validate_rejects_missing (tc args : dict) (name : pystr) (schema : Llm.Schema) :
  dict_get (u "name") tc = Some (VStr name) ->
  Expected.schema_of name = Some schema ->
  Expected.args_seen tc = VDict args ->
  Expected.missing_required lib schema args <> [] ->
  Llm._validate_tool_call lib tc = (false, tc).
Proof.
  intros Hname Hschema Hargs Hmiss.
  unfold Llm._validate_tool_call, Llm._validate_tool_call_body.
  fold (Expected.args_seen tc). rewrite Hargs.
  unfold dict_get_none, dict_get_default. rewrite Hname.
  rewrite hashed_lookup_schema, Hschema. cbn [rbind].
  rewrite all_present_dict. cbn [rbind].
  rewrite (forallb_filter_nil _ _ Hmiss). reflexivity.
Qed.

(** The missing list of a call with usable arguments. *)
Lemma missing_from_tool_call_dict (tc args : dict) (name : pystr) (schema : Llm.Schema) :
  dict_get (u "name") tc = Some (VStr name) ->
  Expected.schema_of name = Some schema ->
  Expected.args_seen tc = VDict args ->
  Llm._missing_from_tool_call lib (Some tc)
  = Ok (Expected.missing_required lib schema args
        ++ (if str_eqb name (u "modify_reservation")
               && Expected.no_new_date_or_time lib args
            then [u "new_date_or_new_time"] else [])).
Proof.
  intros Hname Hschema Hargs.
  destruct tc as [|kv rest]; [discriminate Hname|].
  unfold Llm._missing_from_tool_call. cbv beta iota.
  fold (Expected.args_seen (kv :: rest)). rewrite Hargs.
  unfold dict_get_none at 1 2. unfold dict_get_default. rewrite Hname.
  rewrite hashed_lookup_schema, Hschema. cbn [rbind].
  rewrite missing_of_dict. cbn [rbind eq_str value_get].
  fold (Expected.missing_required lib schema args).
  unfold Expected.no_new_date_or_time.
  fold (dict_get_none (u "new_date") args). fold (dict_get_none (u "new_time") args).
  destruct (str_eqb name (u "modify_reservation")); cbn [andb];
    [|rewrite app_nil_r; reflexivity].
  destruct (Llm._present lib (dict_get_none (u "new_date") args)); cbn [negb andb rbind];
    [rewrite app_nil_r; reflexivity|].
  destruct (Llm._present lib (dict_get_none (u "new_time") args)); cbn [negb andb rbind];
    [rewrite app_nil_r; reflexivity | reflexivity].
Qed.

Lemma existsb_filter_false {A} (p q : A -> bool) (l : list A) :
  existsb p l = false -> existsb p (List.filter q l) = false.
Proof.
  induction l as [|x l IH]; cbn [existsb List.filter]; [reflexivity|].
  intros H. apply orb_false_iff in H as [Hx Hl].
  destruct (q x); cbn [existsb]; [rewrite Hx|]; auto.
Qed.

(** No schema requires a key called new_date_or_new_time. *)
Lemma composite_key_not_required (name : pystr) (schema : Llm.Schema) :
  Expected.schema_of name = Some schema ->
  existsb (str_eqb (u "new_date_or_new_time")) (Llm.required schema) = false.
Proof.
  unfold Expected.schema_of, Llm.SCHEMAS. cbn [List.find fst snd].
  repeat match goal with
         | |- context [if str_eqb ?a name then _ else _] => destruct (str_eqb a name)
         end;
    cbn [fmap option_fmap option_map]; intros H; try discriminate H;
    injection H as <-; vm_compute; reflexivity.
Qed.

(** The question composed for the missing list of a call is the clarifying
    question of its missing required fields. *)
Lemma compose_missing_question_spec
    (name : pystr) (schema : Llm.Schema) (args : dict) :
  Expected.schema_of name = Some schema ->
  Expected.missing_required lib schema args <> [] ->
  Llm._compose_missing_question
    (Expected.missing_required lib schema args
     ++ (if str_eqb name (u "modify_reservation")
            && Expected.no_new_date_or_time lib args
         then [u "new_date_or_new_time"] else []))
  = Expected.clarifying_question lib name args
      (Expected.missing_required lib schema args).
Proof.
  intros Hschema Hmiss.
  pose proof (existsb_filter_false _
                (fun k => negb (Llm._present lib (dict_get_none k args))) _
                (composite_key_not_required _ _ Hschema)) as Hnot.
  fold (Expected.missing_required lib schema args) in Hnot.
  unfold Expected.clarifying_question.
  destruct (Expected.missing_required lib schema args) as [|m0 rest]; [congruence|].
  destruct (str_eqb name (u "modify_reservation")
            && Expected.no_new_date_or_time lib args).
  - unfold Llm._compose_missing_question. cbn [app].
    change (m0 :: rest ++ [u "new_date_or_new_time"])
      with ((m0 :: rest) ++ [u "new_date_or_new_time"]).
    rewrite existsb_app. cbn [existsb]. rewrite str_eqb_refl.
    cbn [orb]. rewrite orb_true_r. reflexivity.
  - rewrite app_nil_r. unfold Llm._compose_missing_question. rewrite Hnot.
    unfold Expected.readable.
    destruct rest as [|m1 rest]; cbn [length Nat.eqb firstn List.map join];
      [reflexivity|].
    change (firstn 0 rest) with (@nil pystr). cbn [List.map].
    rewrite <- !app_assoc. reflexivity.
Qed.

(** A call of the worker that lacks a required field is not dispatched:
    [process] asks for what is missing. *)
Lemma process_asks_for_missing
    (history : list value) (st st1 st2 : State) (d tc args : dict)
    (m name : pystr) (schema : Llm.Schema) :
  Llm._receptionist lib w history st = (Ok (VDict d), st1) ->
  dict_get (u "channel") d = Some (VStr (u "to_data_entry")) ->
  dict_get (u "message") d = Some (VStr m) ->
  strip m <> [] ->
  Llm._data_entry_worker lib w (strip m) history st1 = (Ok (Some tc), st2) ->
  dict_get (u "name") tc = Some (VStr name) ->
  Expected.schema_of name = Some schema ->
  Expected.args_seen tc = VDict args ->
  Expected.missing_required lib schema args <> [] ->
  Llm.process lib w history st
  = (Ok (VStr (Expected.clarifying_question lib name args
                 (Expected.missing_required lib schema args))), st2).
Proof.
  intros Hrec Hch Hm Hmsg Hwork Hname Hschema Hargs Hmiss.
  unfold Llm.process. rewrite (bind_ok _ _ _ _ _ Hrec).
  destruct d as [|kv rest]; [discriminate Hch|].
  cbn [truthy negb].
  unfold bind at 1 2 3. unfold lift, value_get, dict_get_default.
  rewrite Hch, Hm. cbn [method_strip eq_str].
  replace (str_eqb (u "to_data_entry") (u "to_user")) with false
    by (vm_compute; reflexivity).
  replace (str_eqb (u "to_data_entry") (u "to_data_entry")) with true
    by (symmetry; apply str_eqb_refl).
  destruct (strip m) as [|c msg] eqn:Hstrip; [congruence|].
  cbn [truthy negb orb].
  rewrite (bind_ok _ _ _ _ _ Hwork).
  destruct tc as [|kv' rest']; [discriminate Hname|].
  rewrite (validate_rejects_missing _ _ _ _ Hname Hschema Hargs Hmiss).
  rewrite (missing_from_tool_call_dict _ _ _ _ Hname Hschema Hargs).
  pose proof (compose_missing_question_spec name schema args Hschema Hmiss) as Hq.
  destruct (Expected.missing_required lib schema args) as [|m0 ms] eqn:E; [congruence|].
  unfold bind, lift, ret. cbn [app] in Hq |- *. rewrite Hq. reflexivity.
Qed.

(** The first extraction that yields a non-empty tool call ends the worker. *)
Lemma worker_first_attempt (speech : pystr) (history : list value) (st : State)
    (tc : dict) :
  Llm._extract_tool_call lib (llm w (length (llm_calls st)) (DataEntryPrompt speech))
  = Some tc ->
  tc <> [] ->
  Llm._data_entry_worker lib w speech history st
  = bind (lift (contains (u "people") (dict_get_default (u "args") (VDict []) tc)))
      (fun has_people : bool =>
         if has_people then
           match Llm.coerce_people lib tc with
           | Ok tc' => ret (Some tc')
           | Raise _ => ret (Some tc)
           end
         else ret (Some tc))
      (log_llm (DataEntryPrompt speech) st).
Proof.
  intros Hx Hne. unfold Llm._data_entry_worker. cbn [Llm._data_entry_worker_loop].
  unfold bind at 1. rewrite call_openrouter_run, Hx.
  destruct tc; [congruence | reflexivity].
Qed.

(** The coercion step of the worker: a party size given as the str "4"
    becomes the int 4 in the extracted arguments. *)
Lemma worker_coerces_people (speech : pystr) (history : list value) (st : State)
    (tc args : dict) :
  Llm._extract_tool_call lib (llm w (length (llm_calls st)) (DataEntryPrompt speech))
  = Some tc ->
  dict_get (u "args") tc = Some (VDict args) ->
  dict_get (u "people") args = Some (VStr (u "4")) ->
  Llm._data_entry_worker lib w speech history st
  = (Ok (Some (dict_set (u "args") (VDict (dict_set (u "people") (VInt 4) args)) tc)),
     log_llm (DataEntryPrompt speech) st).
Proof.
  intros Hx Hargs Hpeople.
  rewrite (worker_first_attempt _ _ _ _ Hx)
    by (intros ->; discriminate Hargs).
  unfold dict_get_default. rewrite Hargs.
  unfold bind, lift, contains, dict_mem. rewrite Hpeople.
  unfold Llm.coerce_people, subscript. rewrite Hargs. cbn [rbind].
  rewrite Hpeople. cbn [rbind].
  replace (int_of lib (VStr (u "4"))) with (@Ok Z 4) by (vm_compute; reflexivity).
  reflexivity.
Qed.

(** [args: null] in the extracted call makes the worker raise: the membership
    test on None is outside its try block. *)
Lemma worker_raises_on_null_args (speech : pystr) (history : list value) (st : State)
    (tc : dict) :
  Llm._extract_tool_call lib (llm w (length (llm_calls st)) (DataEntryPrompt speech))
  = Some tc ->
  dict_get (u "args") tc = Some VNone ->
  Llm._data_entry_worker lib w speech history st
  = (Raise (Builtin TypeError [VNone]), log_llm (DataEntryPrompt speech) st).
Proof.
  intros Hx Hargs.
  rewrite (worker_first_attempt _ _ _ _ Hx)
    by (intros ->; discriminate Hargs).
  unfold dict_get_default. rewrite Hargs. reflexivity.
Qed.

(** Validation looks at the required keys only: a modify_reservation call with
    a booking reference and no party size passes, whatever else it carries. *)
Lemma validate_ignores_modify_rule (tc args : dict) :
  dict_get (u "name") tc = Some (VStr (u "modify_reservation")) ->
  dict_get (u "args") tc = Some (VDict args) ->
  args <> [] ->
  Llm._present lib (dict_get_none (u "booking_reference") args) = true ->
  dict_get (u "people") args = None ->
  Llm._validate_tool_call lib tc = (true, tc).
Proof.
  intros Hname Hargs Hne Href Hpeople.
  unfold Llm._validate_tool_call, Llm._validate_tool_call_body.
  unfold dict_get_none at 1. unfold dict_get_default. rewrite Hname, Hargs.
  unfold py_or. destruct args as [|kv rest]; [congruence|]. cbn [truthy].
  rewrite hashed_lookup_schema.
  replace (Expected.schema_of (u "modify_reservation"))
    with (Some {| Llm.required := [u "booking_reference"];
                  Llm.optional := [u "VisitDate"; u "VisitTime"; u "PartySize";
                                   u "SpecialRequests"; u "IsLeaveTimeConfirmed"] |})
    by (vm_compute; reflexivity).
  cbn [rbind Llm.required]. rewrite all_present_dict. cbn [forallb rbind].
  rewrite Href. cbn [andb negb contains rbind]. unfold dict_mem. rewrite Hpeople.
  reflexivity.
Qed.

End LlmFacts.


(** C3, as stated, fails: a modify_reservation call with no arguments lacks
    its one required field, booking_reference, yet the question that comes
    back is the one about the date and the time and does not name it. *)
Lemma modify_without_reference_gets_date_question :
  let world := Demo.scripted [Some Demo.SAY_MODIFY; Some Demo.CALL_MODIFY_NO_ARGS] in
  let history := Demo.first_turn "Change my booking" in
  fst (Llm._data_entry_worker Demo.lib world (u "Please modify booking ABC123.")
         history (log_llm (ReceptionistPrompt history) initial_state))
  = Ok (Some [(u "name", VStr (u "modify_reservation")); (u "args", VDict [])])
  /\ Expected.missing_required Demo.lib
       {| Llm.required := [u "booking_reference"];
          Llm.optional := [u "VisitDate"; u "VisitTime"; u "PartySize";
                           u "SpecialRequests"; u "IsLeaveTimeConfirmed"] |} []
     = [u "booking_reference"]
  /\ fst (Llm.process Demo.lib world history initial_state)
     = Ok (VStr Llm.CHANGE_DATE_OR_TIME)
  /\ Llm.CHANGE_DATE_OR_TIME
     <> u "Got it, could you please share the booking reference?"
  /\ is_substring (u "booking reference") Llm.CHANGE_DATE_OR_TIME = false.
Proof.
  cbv zeta. repeat split; try (vm_compute; reflexivity).
  vm_compute. discriminate.
Qed.

(** C2 fails on the code: a modify_reservation call that carries a booking
    reference and neither a new date nor a new time passes validation, so
    [process] returns it for dispatch; the composite field is only flagged by
    [_missing_from_tool_call], which is not consulted for a call that
    validates. *)
Theorem modify_without_new_date_or_time_is_dispatched :
  let world := Demo.scripted [Some Demo.SAY_MODIFY; Some Demo.CALL_MODIFY_REF_ONLY] in
  let tc := [(u "name", VStr (u "modify_reservation"));
             (u "args", VDict [(u "booking_reference", VStr (u "ABC123"))])] in
  fst (Llm.process Demo.lib world (Demo.first_turn "Change my booking ABC123")
         initial_state)
  = Ok (VDict [(u "tool_call", VDict tc)])
  /\ Llm._validate_tool_call Demo.lib tc = (true, tc)
  /\ Llm._missing_from_tool_call Demo.lib (Some tc) = Ok [u "new_date_or_new_time"].
Proof. cbv zeta. repeat split; vm_compute; reflexivity. Qed.

(** C5 fails on the code: when the extraction stage answers with a tool call
    whose args are null, [process] raises TypeError to its caller. *)
Theorem process_raises_on_null_args :
  Llm._extract_tool_call Demo.lib (Some Demo.CALL_CANCEL_NULL_ARGS)
  = Some [(u "name", VStr (u "cancel_reservation")); (u "args", VNone)]
  /\ fst (Llm.process Demo.lib
            (Demo.scripted [Some Demo.SAY_CANCEL; Some Demo.CALL_CANCEL_NULL_ARGS])
            (Demo.first_turn "Cancel my booking") initial_state)
     = Raise (Builtin TypeError [VNone]).
Proof. split; vm_compute; reflexivity. Qed.

(** ** agent.py *)

Section AgentFacts.
Variable lib : PyLib.
Variable w : World.

(** One turn of the while loop of [handle_user_input]. *)
Lemma tool_call_loop_step (fuel : nat) (user_id : pystr) (i : Z) (llm_reply : value)
    (st : State) :
  Agent.is_tool_call llm_reply && (i <? 4) = false ->
  Agent.tool_call_loop lib w fuel user_id i llm_reply st = (Ok (i, llm_reply), st).
Proof.
  intros H. destruct fuel; cbn [Agent.tool_call_loop]; [reflexivity|].
  rewrite H. reflexivity.
Qed.

(** The loop counter only grows, and never beyond 4. *)
Lemma tool_call_loop_counter (fuel : nat) (user_id : pystr) :
  forall (i : Z) (llm_reply : value) (st : State) (i' : Z) (reply' : value) (st' : State),
    Agent.tool_call_loop lib w fuel user_id i llm_reply st = (Ok (i', reply'), st') ->
    i <= i' /\ (i <= 4 -> i' <= 4).
Proof.
  induction fuel as [|fuel IH]; intros i llm_reply st i' reply' st' H;
    cbn [Agent.tool_call_loop] in H.
  - injection H as <- <- <-. lia.
  - destruct (Agent.is_tool_call llm_reply && (i <? 4)) eqn:Hc.
    + apply andb_true_iff in Hc as [_ Hlt]. apply Z.ltb_lt in Hlt.
      repeat (apply bind_inv in H as [(? & ? & _ & H)|(? & _ & ?)]; [|discriminate]).
      apply IH in H. lia.
    + injection H as <- <- <-. lia.
Qed.

(** When the loop ends without an exception, either the reply is no tool
    call or the counter stands at 4: four units of fuel are enough. *)
Lemma tool_call_loop_exit (fuel : nat) (user_id : pystr) :
  forall (i : Z) (llm_reply : value) (st : State) (i' : Z) (reply' : value) (st' : State),
    4 - i <= Z.of_nat fuel ->
    Agent.tool_call_loop lib w fuel user_id i llm_reply st = (Ok (i', reply'), st') ->
    Agent.is_tool_call reply' && (i' <? 4) = false.
Proof.
  induction fuel as [|fuel IH]; intros i llm_reply st i' reply' st' Hfuel H;
    cbn [Agent.tool_call_loop] in H.
  - injection H as <- <- <-.
    replace (i <? 4) with false by (symmetry; apply Z.ltb_ge; lia).
    apply andb_false_r.
  - destruct (Agent.is_tool_call llm_reply && (i <? 4)) eqn:Hc.
    + repeat (apply bind_inv in H as [(? & ? & _ & H)|(? & _ & ?)]; [|discriminate]).
      apply IH in H; [exact H | lia].
    + injection H as <- <- <-. exact Hc.
Qed.

(** More fuel than the loop can use changes nothing. *)
Lemma tool_call_loop_fuel (fuel : nat) (user_id : pystr) :
  forall (i : Z) (llm_reply : value) (st : State),
    4 - i <= Z.of_nat fuel ->
    Agent.tool_call_loop lib w (S fuel) user_id i llm_reply st
    = Agent.tool_call_loop lib w fuel user_id i llm_reply st.
Proof.
  induction fuel as [|fuel IH]; intros i llm_reply st Hfuel.
  - cbn [Agent.tool_call_loop].
    replace (i <? 4) with false by (symmetry; apply Z.ltb_ge; lia).
    rewrite andb_false_r. reflexivity.
  - change (Agent.tool_call_loop lib w (S (S fuel)) user_id i llm_reply st)
      with ((if Agent.is_tool_call llm_reply && (i <? 4) then
               bind (lift (subscript llm_reply (u "tool_call"))) (fun tool_call =>
               bind (match tool_call with
                     | VDict tc => Agent.execute_tool lib w tc
                     | _ => raise (Builtin AttributeError [tool_call; VStr (u "get")])
                     end) (fun tool_result =>
               bind (MemoryStore.on_memory user_id
                       (MemoryStore.add_tool_result tool_result)) (fun _ =>
               bind (MemoryStore.the_memory user_id) (fun memory =>
               bind (Llm.process lib w (MemoryStore.get_history memory)) (fun llm_reply =>
               Agent.tool_call_loop lib w (S fuel) user_id (i + 1) llm_reply)))))
             else ret (i, llm_reply)) st).
    cbn [Agent.tool_call_loop].
    destruct (Agent.is_tool_call llm_reply && (i <? 4)); [|reflexivity].
    unfold bind.
    repeat match goal with
           | |- context [match ?m st with _ => _ end] =>
             destruct (m st) as [[?|?] ?]; [|reflexivity]
           | |- (let (_, _) := ?m ?s in _) = _ =>
             destruct (m s) as [[?|?] ?]; [|reflexivity]
           | |- match ?m ?s with _ => _ end = _ =>
             destruct (m s) as [[?|?] ?]; [|reflexivity]
           end.
    apply IH. lia.
Qed.

End AgentFacts.

(** C1 fails on the code: the world answers four tool calls in a row and
    then a plain text.  The loop dispatches the four calls and leaves with
    that text and the counter at 4; no fifth dispatch is pending, yet
    [handle_user_input] replaces the text by the apology. *)
Theorem answer_after_fourth_dispatch_is_replaced :
  let world := Demo.four_rounds_then_answer in
  let question := VStr (u "Any table on 10 August for 2?") in
  let first_pass :=
    (Py.bind (MemoryStore.get_memory Demo.USER) (fun _ =>
     Py.bind (MemoryStore.on_memory Demo.USER (MemoryStore.add_user_message question))
       (fun _ =>
     Py.bind (MemoryStore.the_memory Demo.USER) (fun memory =>
     Llm.process Demo.lib world (MemoryStore.get_history memory)))))
      initial_state in
  match first_pass with
  | (Ok llm_reply, st) =>
    Agent.is_tool_call llm_reply = true
    /\ fst (Agent.tool_call_loop Demo.lib world 4 Demo.USER 0 llm_reply st)
       = Ok (4, VStr (u "We have a table at 19:00 on 2025-08-10."))
    /\ length (http_calls
                 (snd (Agent.tool_call_loop Demo.lib world 4 Demo.USER 0 llm_reply st)))
       = 4%nat
  | _ => False
  end
  /\ fst (Agent.handle_user_input Demo.lib world Demo.USER question initial_state)
     = Ok (VStr Agent.APOLOGY).
Proof. cbv zeta. vm_compute. repeat split. Qed.

(** ** The booking example, end to end *)

(** C7. The coercion step of the data-entry worker turns an extracted
    [people: "4"] into the int 4, and for a make_reservation call that
    reaches the booking API and is answered with booking_reference
    "ABC123", the dispatcher returns exactly
    "Reservation confirmed! Your reference is ABC123.". *)
Theorem people_coerced_and_reservation_confirmed (lib : PyLib) (w : World) :
  (forall (speech : pystr) (history : list value) (st : State) (tc args : dict),
      Llm._extract_tool_call lib (llm w (length (llm_calls st)) (DataEntryPrompt speech))
      = Some tc ->
      dict_get (u "args") tc = Some (VDict args) ->
      dict_get (u "people") args = Some (VStr (u "4")) ->
      Llm._data_entry_worker lib w speech history st
      = (Ok (Some (dict_set (u "args")
                     (VDict (dict_set (u "people") (VInt 4) args)) tc)),
         log_llm (DataEntryPrompt speech) st))
  /\
  (forall (tool_call : dict) (st : State) (req : HttpRequest) (body : dict),
      dict_get (u "name") tool_call = Some (VStr (u "make_reservation")) ->
      http_calls (snd (Agent.execute_tool lib w tool_call st)) = http_calls st ++ [req] ->
      api w (length (http_calls st)) req = ApiJson (VDict body) ->
      dict_get (u "booking_reference") body = Some (VStr (u "ABC123")) ->
      fst (Agent.execute_tool lib w tool_call st)
      = Ok (VStr (u "Reservation confirmed! Your reference is ABC123."))).
Proof.
  split.
  - apply worker_coerces_people.
  - apply execute_make_reservation_confirmed.
Qed.

Lemma people_coerced_and_reservation_confirmed_witness :
  let world := Demo.scripted [Some Demo.CALL_BOOK] in
  let coerced := [(u "name", VStr (u "make_reservation"));
                  (u "args", VDict [(u "date", VStr (u "2025-08-10"));
                                    (u "time", VStr (u "19:00"));
                                    (u "people", VInt 4)])] in
  Llm._data_entry_worker Demo.lib world
    (u "Please make a reservation on 2025-08-10 at 19:00 for 4 people.")
    (Demo.first_turn "Book a table for 4 tomorrow at 7pm") initial_state
  = (Ok (Some coerced),
     log_llm (DataEntryPrompt
                (u "Please make a reservation on 2025-08-10 at 19:00 for 4 people."))
       initial_state)
  /\ fst (Agent.execute_tool Demo.lib world coerced initial_state)
     = Ok (VStr (u "Reservation confirmed! Your reference is ABC123.")).
Proof.
  cbv zeta.
  destruct (people_coerced_and_reservation_confirmed Demo.lib
              (Demo.scripted [Some Demo.CALL_BOOK])) as [Hcoerce Hconfirm].
  split.
  - eapply eq_trans.
    + apply (Hcoerce _ _ initial_state
               [(u "name", VStr (u "make_reservation"));
                (u "args", VDict [(u "date", VStr (u "2025-08-10"));
                                  (u "time", VStr (u "19:00"));
                                  (u "people", VStr (u "4"))])]
               [(u "date", VStr (u "2025-08-10")); (u "time", VStr (u "19:00"));
                (u "people", VStr (u "4"))]);
        vm_compute; reflexivity.
    + vm_compute. reflexivity.
  - apply (Hconfirm _ initial_state
             {| method := POST;
                url := u "http://localhost:8547/api/ConsumerApi/v1/Restaurant/TheHungryUnicorn/BookingWithStripeToken";
                form_headers := true;
                data := Some [(u "VisitDate", VStr (u "2025-08-10"));
                              (u "VisitTime", VStr (u "19:00:00"));
                              (u "PartySize", VStr (u "4"));
                              (u "ChannelCode", VStr (u "ONLINE"))] |}
             [(u "booking_reference", VStr (u "ABC123"))]);
      vm_compute; reflexivity.
Defined.

(** ** memory.py *)

Section MemoryFacts.
Variable lib : PyLib.
Variable w : World.

Lemma universal_newlines_no_cr (s : pystr) :
  forallb (fun c => negb (c =? 13)%N) s = true ->
  MemoryStore.universal_newlines s = s.
Proof.
  induction s as [|c r IH]; cbn [forallb MemoryStore.universal_newlines]; [reflexivity|].
  intros H. apply andb_true_iff in H as [Hc Hr].
  apply negb_true_iff in Hc. rewrite Hc, (IH Hr). reflexivity.
Qed.

Lemma line_has_no_cr (line : pystr) :
  forallb (fun c => negb (Expected.is_newline c)) line = true ->
  forallb (fun c => negb (c =? 13)%N) (line ++ [10%N]) = true.
Proof.
  induction line as [|c r IH]; cbn [forallb app]; [reflexivity|].
  intros H. apply andb_true_iff in H as [Hc Hr].
  unfold Expected.is_newline in Hc. apply negb_true_iff, orb_false_iff in Hc as [_ Hc].
  rewrite Hc, (IH Hr). reflexivity.
Qed.

(** Translating a text that ends in "\n": the result ends in "\n", and what
    follows the text is translated on its own. *)
Lemma universal_newlines_after_newline (n : nat) :
  forall body : pystr, (length body <= n)%nat ->
    exists body',
      forall rest : pystr,
        MemoryStore.universal_newlines ((body ++ [10%N]) ++ rest)
        = (body' ++ [10%N]) ++ MemoryStore.universal_newlines rest.
Proof.
  induction n as [|n IH]; intros body Hlen.
  - destruct body; [|cbn in Hlen; lia]. exists []. intros rest. reflexivity.
  - destruct body as [|c r].
    + exists []. intros rest. reflexivity.
    + cbn [length] in Hlen. cbn [app MemoryStore.universal_newlines].
      destruct (c =? 13)%N.
      * destruct r as [|c' r']; cbn [app].
        -- exists []. intros rest. reflexivity.
        -- destruct (c' =? 10)%N.
           ++ destruct (IH r') as [b Hb]; [cbn [length] in Hlen; lia|].
              exists (10%N :: b). intros rest. cbn [app]. f_equal. apply Hb.
           ++ destruct (IH (c' :: r')) as [b Hb]; [lia|].
              exists (10%N :: b). intros rest. cbn [app]. f_equal. apply Hb.
      * destruct (IH r) as [b Hb]; [lia|].
        exists (c :: b). intros rest. cbn [app]. f_equal. apply Hb.
Qed.

Lemma lines_keepends_one (line : pystr) :
  forallb (fun c => negb (Expected.is_newline c)) line = true ->
  MemoryStore.lines_keepends (line ++ [10%N]) = [line ++ [10%N]].
Proof.
  induction line as [|c r IH]; cbn [forallb app MemoryStore.lines_keepends];
    [reflexivity|].
  intros H. apply andb_true_iff in H as [Hc Hr].
  unfold Expected.is_newline in Hc. apply negb_true_iff, orb_false_iff in Hc as [Hc _].
  rewrite Hc, (IH Hr). reflexivity.
Qed.

Lemma lines_keepends_after_newline (body rest : pystr) :
  MemoryStore.lines_keepends ((body ++ [10%N]) ++ rest)
  = MemoryStore.lines_keepends (body ++ [10%N]) ++ MemoryStore.lines_keepends rest.
Proof.
  induction body as [|c r IH]; cbn [app MemoryStore.lines_keepends].
  - reflexivity.
  - destruct (c =? 10)%N; cbn [app]; [f_equal; exact IH|].
    rewrite IH.
    destruct (MemoryStore.lines_keepends (r ++ [10%N])) as [|l ls] eqn:E; [|reflexivity].
    exfalso. clear IH. revert E. clear.
    induction r as [|c' r' IH']; cbn [app MemoryStore.lines_keepends]; [discriminate|].
    destruct (c' =? 10)%N; [discriminate|].
    destruct (MemoryStore.lines_keepends (r' ++ [10%N])); discriminate.
Qed.

(** The last line read from a well-formed log that a line was appended to is
    that line. *)
Lemma readlines_last_appended (content line : pystr) :
  Expected.log_wf content ->
  forallb (fun c => negb (Expected.is_newline c)) line = true ->
  last (MemoryStore.readlines (content ++ line ++ [10%N])) = Some (line ++ [10%N]).
Proof.
  intros Hwf Hline. unfold MemoryStore.readlines.
  assert (Hl : MemoryStore.universal_newlines (line ++ [10%N]) = line ++ [10%N]).
  { apply universal_newlines_no_cr, line_has_no_cr, Hline. }
  destruct Hwf as [->|[body ->]].
  - cbn [app]. rewrite Hl, (lines_keepends_one _ Hline). reflexivity.
  - destruct (universal_newlines_after_newline (length body) body (le_n _)) as [b Hb].
    rewrite Hb, Hl, lines_keepends_after_newline, (lines_keepends_one _ Hline).
    apply last_snoc.
Qed.

(** C8. Round trip of the long-term summary: after [store_summary] has
    appended the record of a summary str to the log of a memory,
    [get_last_summary] of that memory returns exactly that str.  The log is
    what earlier calls left (it is missing, or every write ended in a
    newline), and the JSON library is assumed to write the record on one
    line and to read that line back as the record. *)
Theorem stored_summary_is_last_summary (self : Memory) (s : pystr) (st : State) :
  let record := Expected.summary_record (utcnow_isoformat w (clock_reads st))
                  (VStr s) (history self) in
  (forall content, files st !! summary_file self = Some content ->
                   Expected.log_wf content) ->
  forallb (fun c => negb (Expected.is_newline c)) (json_dumps lib record) = true ->
  json_loads lib (json_dumps lib record ++ [10%N]) = Some record ->
  exists st1,
    MemoryStore.store_summary lib w self (VStr s) st = (Ok tt, st1)
    /\ MemoryStore.get_last_summary lib self st1 = (Ok (VStr s), st1).
Proof.
  intros record Hwf Hline Hload.
  eexists. split.
  - unfold MemoryStore.store_summary, MemoryStore.utcnow, MemoryStore.append_file,
      bind, modify_state. reflexivity.
  - unfold MemoryStore.get_last_summary, bind, get_state.
    cbn [files set_files tick_clock]. rewrite lookup_insert_eq.
    fold (Expected.summary_record (utcnow_isoformat w (clock_reads st)) (VStr s)
            (history self)).
    fold record.
    unfold MemoryStore.NEWLINE.
    assert (Hcontent : Expected.log_wf (default [] (files st !! summary_file self))).
    { destruct (files st !! summary_file self) as [content|] eqn:E;
        [apply Hwf; reflexivity | left; reflexivity]. }
    rewrite (readlines_last_appended _ _ Hcontent Hline), Hload.
    unfold record, Expected.summary_record, value_get, dict_get_default.
    cbn [dict_get]. eval_str_eqb. cbn [dict_get]. reflexivity.
Qed.

(** [store_summary] leaves the log well formed and touches no other file. *)
Lemma store_summary_keeps_log_wf (self : Memory) (summary : value) (st : State) :
  (forall content, files st !! summary_file self = Some content ->
                   Expected.log_wf content) ->
  let st1 := snd (MemoryStore.store_summary lib w self summary st) in
  (forall content, files st1 !! summary_file self = Some content ->
                   Expected.log_wf content)
  /\ (forall path, path <> summary_file self -> files st1 !! path = files st !! path).
Proof.
  intros Hwf st1. subst st1.
  unfold MemoryStore.store_summary, MemoryStore.utcnow, MemoryStore.append_file,
    bind, modify_state.
  cbn [snd files set_files tick_clock]. split.
  - intros content. rewrite lookup_insert_eq. intros [= <-].
    right. unfold MemoryStore.NEWLINE. eexists. rewrite app_assoc. reflexivity.
  - intros path Hne. apply lookup_insert_ne. congruence.
Qed.

End MemoryFacts.

Lemma stored_summary_is_last_summary_witness :
  exists st1,
    MemoryStore.store_summary Demo.lib (Demo.scripted [])
      (MemoryStore.new_memory Demo.USER) (VStr Demo.SUMMARY) initial_state
    = (Ok tt, st1)
    /\ MemoryStore.get_last_summary Demo.lib (MemoryStore.new_memory Demo.USER) st1
       = (Ok (VStr Demo.SUMMARY), st1).
Proof.
  apply (stored_summary_is_last_summary Demo.lib (Demo.scripted [])
           (MemoryStore.new_memory Demo.USER) Demo.SUMMARY initial_state).
  - intros content H. vm_compute in H. discriminate H.
  - vm_compute. reflexivity.
  - vm_compute. reflexivity.
Defined.

(** ** Asking back for a missing field *)

Section AsksBack.
Variable lib : PyLib.
Variable w : World.

Lemma lstrip_by_keeps_last (p : N -> bool) (l : pystr) (c : N) :
  p c = false -> lstrip_by p (l ++ [c]) <> [].
Proof.
  intros Hc. induction l as [|x l IH]; cbn [app lstrip_by].
  - rewrite Hc. discriminate.
  - destruct (p x); [exact IH | discriminate].
Qed.

(** A str that starts with a character that is no whitespace is not blank. *)
Lemma strip_keeps_first (c : N) (r : pystr) :
  isspace c = false -> strip (c :: r) <> [].
Proof.
  intros Hc. unfold strip, strip_by, rstrip_by. cbn [lstrip_by]. rewrite Hc.
  cbn [rev]. intros H. apply (f_equal (@rev N)) in H. rewrite rev_involutive in H.
  cbn [rev] in H. exact (lstrip_by_keeps_last _ _ _ Hc H).
Qed.

Lemma str_of_Z_first (z : Z) :
  exists c r, str_of_Z z = c :: r /\ isspace c = false.
Proof.
  unfold str_of_Z. destruct (Z.to_int z) as [d|d]; destruct d;
    cbn [NilZero.string_of_int NilZero.string_of_uint NilEmpty.string_of_uint
         list_ascii_of_string List.map];
    eexists; eexists; (split; [reflexivity | vm_compute; reflexivity]).
Qed.

(** An int is always present. *)
Lemma present_int (z : Z) : Llm._present lib (VInt z) = true.
Proof.
  unfold Llm._present, str_of.
  destruct (str_of_Z_first z) as (c & r & -> & Hc).
  apply negb_true_iff, str_eqb_neq, strip_keeps_first, Hc.
Qed.

(** *** What [int()] accepts is present *)

Lemma lstrip_by_nil (p : N -> bool) (s : pystr) :
  lstrip_by p s = [] -> forallb p s = true.
Proof.
  induction s as [|c r IH]; cbn [lstrip_by forallb]; [reflexivity|].
  destruct (p c); [exact IH | discriminate].
Qed.

Lemma lstrip_by_all_back (p : N -> bool) (s : pystr) :
  forallb p (lstrip_by p s) = true -> forallb p s = true.
Proof.
  induction s as [|c r IH]; cbn [lstrip_by forallb]; [reflexivity|].
  destruct (p c) eqn:Hc; cbn [forallb andb]; [exact IH|].
  rewrite Hc. discriminate.
Qed.

Lemma forallb_rev (p : N -> bool) (s : pystr) :
  forallb p (rev s) = true -> forallb p s = true.
Proof.
  rewrite !forallb_forall. intros H x Hx. apply H, in_rev. rewrite rev_involutive.
  exact Hx.
Qed.

(** A str that strips to nothing holds only characters that are stripped. *)
Lemma strip_by_nil (p : N -> bool) (s : pystr) :
  strip_by p s = [] -> forallb p s = true.
Proof.
  unfold strip_by, rstrip_by. intros H.
  apply (f_equal (@rev N)) in H. rewrite rev_involutive in H. cbn [rev] in H.
  apply lstrip_by_all_back, forallb_rev, lstrip_by_nil, H.
Qed.

Lemma lstrip_by_incl (p : N -> bool) (s : pystr) (x : N) :
  In x (lstrip_by p s) -> In x s.
Proof.
  induction s as [|c r IH]; cbn [lstrip_by]; [tauto|].
  destruct (p c); [right; auto | tauto].
Qed.

Lemma strip_by_incl (p : N -> bool) (s : pystr) (x : N) :
  In x (strip_by p s) -> In x s.
Proof.
  unfold strip_by, rstrip_by. intros H.
  apply in_rev in H. apply lstrip_by_incl in H. apply in_rev in H.
  apply lstrip_by_incl in H. exact H.
Qed.

(** The white space of ASCII. *)
Lemma ascii_space (c : N) :
  (c <? 128)%N = true -> isspace c = true ->
  In c [9; 10; 11; 12; 13; 28; 29; 30; 31; 32]%N.
Proof.
  intros Hc Hs. apply N.ltb_lt in Hc. unfold isspace in Hs.
  repeat rewrite ?orb_true_iff, ?andb_true_iff, ?N.leb_le, ?N.eqb_eq in Hs.
  assert (H : (c = 9 \/ c = 10 \/ c = 11 \/ c = 12 \/ c = 13 \/ c = 28 \/ c = 29
               \/ c = 30 \/ c = 31 \/ c = 32)%N) by lia.
  cbn [In]. intuition congruence.
Qed.

(** A blank ASCII str is no number. *)
Lemma int_of_ascii_not_blank (s : pystr) (n : Z) :
  forallb (fun c => (c <? 128)%N) s = true ->
  int_of_ascii s = Some n -> strip s <> [].
Proof.
  intros Hascii Hint Hblank. apply strip_by_nil in Hblank.
  unfold int_of_ascii in Hint.
  destruct (strip_by is_c_space s) as [|c r] eqn:Hb; [discriminate Hint|].
  assert (Hin : In c s) by (apply (strip_by_incl is_c_space); rewrite Hb; left; reflexivity).
  rewrite forallb_forall in Hascii, Hblank.
  pose proof (ascii_space c (Hascii c Hin) (Hblank c Hin)) as Hc.
  cbn [In] in Hc.
  repeat (destruct Hc as [<-|Hc]; [vm_compute in Hint; discriminate Hint|]).
  exact Hc.
Qed.

(** [int()] accepts no value that counts as missing. *)
Lemma int_of_present (v : value) (n : Z) :
  Expected.int_accepts_no_blank lib ->
  int_of lib v = Ok n -> Llm._present lib v = true.
Proof.
  intros [Hfloat Hstr] Hint.
  destruct v as [|b|z|f|s|l|d]; try discriminate Hint.
  - destruct b; vm_compute; reflexivity.
  - apply present_int.
  - unfold Llm._present, str_of. apply negb_true_iff, str_eqb_neq, Hfloat.
  - unfold Llm._present, str_of. apply negb_true_iff, str_eqb_neq.
    cbn [int_of] in Hint. unfold int_of_str in Hint.
    destruct (forallb (fun c => (c <? 128)%N) s) eqn:Hascii.
    + destruct (int_of_ascii s) as [z|] eqn:Hz; [|discriminate Hint].
      exact (int_of_ascii_not_blank _ _ Hascii Hz).
    + destruct (int_nonascii lib s) as [z|] eqn:Hz; [|discriminate Hint].
      exact (Hstr _ _ Hz).
Qed.

(** *** The worker *)

(** The attempt that extracts a call ends the worker, after the attempts that
    extracted nothing. *)
Lemma worker_loop_attempt (k : nat) (speech : pystr) (tc : dict) :
  forall (attempts : nat) (st : State),
    (k < attempts)%nat ->
    (forall j, (j < k)%nat ->
               Expected.nothing_extracted
                 (Llm._extract_tool_call lib
                    (llm w (length (llm_calls st) + j) (DataEntryPrompt speech)))) ->
    Llm._extract_tool_call lib
      (llm w (length (llm_calls st) + k) (DataEntryPrompt speech)) = Some tc ->
    tc <> [] ->
    Llm._data_entry_worker_loop lib w attempts speech st
    = bind (lift (contains (u "people") (dict_get_default (u "args") (VDict []) tc)))
        (fun has_people : bool =>
           if has_people then
             match Llm.coerce_people lib tc with
             | Ok tc' => ret (Some tc')
             | Raise _ => ret (Some tc)
             end
           else ret (Some tc))
        (Nat.iter (S k) (log_llm (DataEntryPrompt speech)) st).
Proof.
  induction k as [|k IH]; intros attempts st Hlt Hnone Hx Hne.
  - destruct attempts as [|attempts]; [lia|].
    rewrite Nat.add_0_r in Hx.
    cbn [Llm._data_entry_worker_loop Nat.iter nat_rect]. unfold bind at 1.
    rewrite call_openrouter_run, Hx. destruct tc; [congruence | reflexivity].
  - destruct attempts as [|attempts]; [lia|].
    pose proof (Hnone 0%nat ltac:(lia)) as H0. rewrite Nat.add_0_r in H0.
    cbn [Llm._data_entry_worker_loop]. unfold bind at 1.
    rewrite call_openrouter_run.
    assert (Hnext : Llm._data_entry_worker_loop lib w attempts speech
                      (log_llm (DataEntryPrompt speech) st)
                    = bind (lift (contains (u "people")
                                    (dict_get_default (u "args") (VDict []) tc)))
                        (fun has_people : bool =>
                           if has_people then
                             match Llm.coerce_people lib tc with
                             | Ok tc' => ret (Some tc')
                             | Raise _ => ret (Some tc)
                             end
                           else ret (Some tc))
                        (Nat.iter (S (S k)) (log_llm (DataEntryPrompt speech)) st)).
    { rewrite (Nat.iter_succ_r (S k)). apply IH; [lia | | | exact Hne].
      - intros j Hj. rewrite length_log_llm.
        replace (S (length (llm_calls st)) + j)%nat
          with (length (llm_calls st) + S j)%nat by lia.
        apply Hnone. lia.
      - rewrite length_log_llm.
        replace (S (length (llm_calls st)) + k)%nat
          with (length (llm_calls st) + S k)%nat by lia.
        exact Hx. }
    destruct (Llm._extract_tool_call lib
                (llm w (length (llm_calls st)) (DataEntryPrompt speech)))
      as [[|kv rest]|]; [exact Hnext | destruct H0 | exact Hnext].
Qed.

(** What the worker hands on for a call whose args are absent or a mapping:
    the call itself, or the call with the party size coerced. *)
Lemma worker_hands_on (k : nat) (speech : pystr) (history : list value) (st : State)
    (tc args : dict) :
  (k < 2)%nat ->
  (forall j, (j < k)%nat ->
             Expected.nothing_extracted
               (Llm._extract_tool_call lib
                  (llm w (length (llm_calls st) + j) (DataEntryPrompt speech)))) ->
  Llm._extract_tool_call lib
    (llm w (length (llm_calls st) + k) (DataEntryPrompt speech)) = Some tc ->
  tc <> [] ->
  (dict_get (u "args") tc = None /\ args = [])
  \/ dict_get (u "args") tc = Some (VDict args) ->
  exists tc' args',
    Llm._data_entry_worker lib w speech history st
    = (Ok (Some tc'), Nat.iter (S k) (log_llm (DataEntryPrompt speech)) st)
    /\ dict_get (u "name") tc' = dict_get (u "name") tc
    /\ Expected.args_seen tc' = VDict args'
    /\ (args' = args
        \/ exists people n, dict_get (u "people") args = Some people
                            /\ int_of lib people = Ok n
                            /\ args' = dict_set (u "people") (VInt n) args).
Proof.
  intros Hk Hnone Hx Hne Hargs.
  unfold Llm._data_entry_worker.
  rewrite (worker_loop_attempt k speech tc 2 st Hk Hnone Hx Hne).
  assert (Hseen : Expected.args_seen tc = VDict args).
  { unfold Expected.args_seen, dict_get_default, py_or.
    destruct Hargs as [[H1 H2] | H1]; rewrite H1; [subst args; reflexivity|].
    destruct args; reflexivity. }
  unfold dict_get_default.
  destruct Hargs as [[Hnoargs ->]|Hargs].
  - rewrite Hnoargs. unfold bind, lift, contains, dict_mem. cbn [dict_get].
    exists tc, []. unfold ret. auto.
  - rewrite Hargs. unfold bind, lift, contains, dict_mem.
    destruct (dict_get (u "people") args) as [people|] eqn:Hpeople;
      [|exists tc, args; unfold ret; auto].
    unfold Llm.coerce_people, subscript. rewrite Hargs. cbn [rbind].
    rewrite Hpeople. cbn [rbind].
    destruct (int_of lib people) as [n|e] eqn:Hint; cbn [rbind setitem];
      [|exists tc, args; unfold ret; auto].
    exists (dict_set (u "args") (VDict (dict_set (u "people") (VInt n) args)) tc),
           (dict_set (u "people") (VInt n) args).
    unfold ret. split; [reflexivity|]. split; [|split].
    + apply dict_get_set_ne. intros H. vm_compute in H. discriminate H.
    + unfold Expected.args_seen, dict_get_default, py_or.
      rewrite dict_get_set_eq.
      destruct (dict_set (u "people") (VInt n) args) eqn:E; [|reflexivity].
      destruct args as [|[k0 v0] r]; cbn [dict_set] in E; [discriminate E|].
      destruct (str_eqb k0 (u "people")); discriminate E.
    + right. exists people, n. auto.
Qed.

(** Coercing a party size that [int()] accepts changes no answer to "is this
    field present". *)
Lemma coercion_keeps_presence (args : dict) (people : value) (n : Z) (k : pystr) :
  Expected.int_accepts_no_blank lib ->
  dict_get (u "people") args = Some people ->
  int_of lib people = Ok n ->
  Llm._present lib (dict_get_none k (dict_set (u "people") (VInt n) args))
  = Llm._present lib (dict_get_none k args).
Proof.
  intros Hlib Hpeople Hint. unfold dict_get_none, dict_get_default.
  destruct (str_eqb (u "people") k) eqn:Hk.
  - apply str_eqb_eq in Hk. subst k. rewrite dict_get_set_eq, Hpeople.
    rewrite present_int. symmetry. exact (int_of_present _ _ Hlib Hint).
  - apply str_eqb_neq in Hk. rewrite (dict_get_set_ne _ _ _ _ Hk). reflexivity.
Qed.

Lemma coercion_keeps_question
    (args : dict) (people : value) (n : Z) (name : pystr) (schema : Llm.Schema) :
  Expected.int_accepts_no_blank lib ->
  dict_get (u "people") args = Some people ->
  int_of lib people = Ok n ->
  Expected.missing_required lib schema (dict_set (u "people") (VInt n) args)
  = Expected.missing_required lib schema args
  /\ Expected.no_new_date_or_time lib (dict_set (u "people") (VInt n) args)
     = Expected.no_new_date_or_time lib args.
Proof.
  intros Hlib Hpeople Hint. split.
  - unfold Expected.missing_required. apply filter_ext. intros k.
    rewrite (coercion_keeps_presence _ _ _ k Hlib Hpeople Hint). reflexivity.
  - unfold Expected.no_new_date_or_time.
    rewrite !(coercion_keeps_presence _ _ _ _ Hlib Hpeople Hint). reflexivity.
Qed.

(** C3 (amended). An extracted tool call whose name is in the schema
    registry, whose args are absent or a mapping, and which lacks at least
    one required field (absent, None or blank) is not dispatched, whether the
    worker extracted it at its first or at its second attempt.  [process]
    returns a clarifying question instead: for modify_reservation with
    neither new_date nor new_time present, the dedicated question about the
    date and the time; otherwise the question that names the first missing
    field when one is missing, or the first two when more are, with
    underscores read as spaces.  The library is taken to agree with CPython
    in that a float never prints blank and a blank str is no number. *)
Theorem missing_required_field_asks_back
    (history : list value) (st st1 : State) (d tc args : dict)
    (m name : pystr) (schema : Llm.Schema) (k : nat) :
  Expected.int_accepts_no_blank lib ->
  Llm._receptionist lib w history st = (Ok (VDict d), st1) ->
  dict_get (u "channel") d = Some (VStr (u "to_data_entry")) ->
  dict_get (u "message") d = Some (VStr m) ->
  strip m <> [] ->
  (k < 2)%nat ->
  (forall j, (j < k)%nat ->
             Expected.nothing_extracted
               (Llm._extract_tool_call lib
                  (llm w (length (llm_calls st1) + j) (DataEntryPrompt (strip m))))) ->
  Llm._extract_tool_call lib
    (llm w (length (llm_calls st1) + k) (DataEntryPrompt (strip m))) = Some tc ->
  dict_get (u "name") tc = Some (VStr name) ->
  Expected.schema_of name = Some schema ->
  (dict_get (u "args") tc = None /\ args = [])
  \/ dict_get (u "args") tc = Some (VDict args) ->
  Expected.missing_required lib schema args <> [] ->
  Llm.process lib w history st
  = (Ok (VStr (Expected.clarifying_question lib name args
                 (Expected.missing_required lib schema args))),
     Nat.iter (S k) (log_llm (DataEntryPrompt (strip m))) st1).
Proof.
  intros Hlib Hrec Hch Hm Hmsg Hk Hnone Hx Hname Hschema Hargs Hmiss.
  assert (Hne : tc <> []) by (intros ->; discriminate Hname).
  destruct (worker_hands_on k (strip m) history st1 tc args Hk Hnone Hx Hne Hargs)
    as (tc' & args' & Hwork & Hname' & Hseen & Hcoerced).
  rewrite Hname in Hname'.
  assert (Hsame : Expected.missing_required lib schema args'
                  = Expected.missing_required lib schema args
                  /\ Expected.no_new_date_or_time lib args'
                     = Expected.no_new_date_or_time lib args).
  { destruct Hcoerced as [->|(people & n & Hpeople & Hint & ->)]; [split; reflexivity|].
    exact (coercion_keeps_question _ _ _ name schema Hlib Hpeople Hint). }
  destruct Hsame as [Hmissing Hrule].
  assert (Hmiss' : Expected.missing_required lib schema args' <> [])
    by (rewrite Hmissing; exact Hmiss).
  rewrite (process_asks_for_missing lib w history st st1 _ d tc' args' m name schema
             Hrec Hch Hm Hmsg Hwork Hname' Hschema Hseen Hmiss').
  unfold Expected.clarifying_question. rewrite Hmissing, Hrule. reflexivity.
Qed.

End AsksBack.

Lemma missing_required_field_asks_back_witness :
  Llm.process Demo.lib (Demo.scripted [Some Demo.SAY_BOOK; Some Demo.CALL_BOOK_DATE_ONLY])
    (Demo.first_turn "Book a table on 10 August") initial_state
  = (Ok (VStr (Expected.clarifying_question Demo.lib (u "make_reservation")
                 [(u "date", VStr (u "2025-08-10"))]
                 (Expected.missing_required Demo.lib
                    {| Llm.required := [u "date"; u "time"; u "people"];
                       Llm.optional :=
                         [u "SpecialRequests"; u "IsLeaveTimeConfirmed"; u "RoomNumber";
                          u "Customer[Title]"; u "Customer[FirstName]";
                          u "Customer[Surname]"; u "Customer[Email]";
                          u "Customer[Mobile]"; u "Customer[Phone]";
                          u "Customer[MobileCountryCode]";
                          u "Customer[PhoneCountryCode]";
                          u "Customer[ReceiveEmailMarketing]";
                          u "Customer[ReceiveSmsMarketing]"] |}
                    [(u "date", VStr (u "2025-08-10"))]))),
     Nat.iter 1 (log_llm (DataEntryPrompt
                            (strip (u "Please make a reservation on 2025-08-10 at 19:00 for 4 people."))))
       (log_llm (ReceptionistPrompt (Demo.first_turn "Book a table on 10 August"))
          initial_state))
  /\ Expected.clarifying_question Demo.lib (u "make_reservation")
       [(u "date", VStr (u "2025-08-10"))] [u "time"; u "people"]
     = u "Thanks! I still need: time, people.".
Proof.
  split; [|vm_compute; reflexivity].
  apply (missing_required_field_asks_back Demo.lib
           (Demo.scripted [Some Demo.SAY_BOOK; Some Demo.CALL_BOOK_DATE_ONLY])
           (Demo.first_turn "Book a table on 10 August") initial_state
           (log_llm (ReceptionistPrompt (Demo.first_turn "Book a table on 10 August"))
              initial_state)
           [(u "channel", VStr (u "to_data_entry"));
            (u "message",
             VStr (u "Please make a reservation on 2025-08-10 at 19:00 for 4 people."))]
           [(u "name", VStr (u "make_reservation"));
            (u "args", VDict [(u "date", VStr (u "2025-08-10"))])]
           [(u "date", VStr (u "2025-08-10"))]
           (u "Please make a reservation on 2025-08-10 at 19:00 for 4 people.")
           (u "make_reservation") _ 0%nat).
  - split; [intros f; vm_compute; discriminate | intros s n H; discriminate H].
  - vm_compute. reflexivity.
  - vm_compute. reflexivity.
  - vm_compute. reflexivity.
  - vm_compute. discriminate.
  - lia.
  - intros j Hj. lia.
  - vm_compute. reflexivity.
  - vm_compute. reflexivity.
  - vm_compute. reflexivity.
  - right. reflexivity.
  - vm_compute. discriminate.
Defined.

(** ** What a computation sends out and what it leaves alone *)

Lemma sent_refl (n k : nat) (st : State) : Expected.sent n k st st.
Proof. exists [], []. rewrite !app_nil_r. cbn. repeat split; lia. Qed.

Lemma sent_same_logs (n k : nat) (st st' : State) :
  llm_calls st' = llm_calls st -> http_calls st' = http_calls st ->
  Expected.sent n k st st'.
Proof.
  intros Hl Hh. exists [], []. rewrite !app_nil_r. cbn. repeat split; auto; lia.
Qed.

Lemma sent_trans (n1 k1 n2 k2 : nat) (a b c : State) :
  Expected.sent n1 k1 a b -> Expected.sent n2 k2 b c ->
  Expected.sent (n1 + n2) (k1 + k2) a c.
Proof.
  intros (l1 & h1 & Hl1 & Hn1 & Hh1 & Hk1) (l2 & h2 & Hl2 & Hn2 & Hh2 & Hk2).
  exists (l1 ++ l2), (h1 ++ h2).
  rewrite Hl2, Hl1, Hh2, Hh1, <- !app_assoc, !length_app. repeat split; lia.
Qed.

Lemma sent_weaken (n k n' k' : nat) (a b : State) :
  (n <= n')%nat -> (k <= k')%nat -> Expected.sent n k a b -> Expected.sent n' k' a b.
Proof.
  intros Hn Hk (l & h & Hl & Hln & Hh & Hhk). exists l, h. repeat split; auto; lia.
Qed.

Lemma same_store_refl (st : State) : Expected.same_store st st.
Proof. repeat split. Qed.

Lemma same_store_trans (a b c : State) :
  Expected.same_store a b -> Expected.same_store b c -> Expected.same_store a c.
Proof. intros (? & ? & ?) (? & ? & ?). repeat split; congruence. Qed.

Section Effects.
Context {A B : Type}.

Lemma emits_ret (n k : nat) (a : A) : Expected.emits n k (ret a).
Proof. intros st. apply sent_weaken with 0%nat 0%nat; [lia | lia | apply sent_refl]. Qed.

Lemma emits_raise (n k : nat) (e : PyExn) : Expected.emits n k (@raise A e).
Proof. intros st. apply sent_weaken with 0%nat 0%nat; [lia | lia | apply sent_refl]. Qed.

Lemma emits_lift (n k : nat) (r : Result A) : Expected.emits n k (lift r).
Proof. intros st. apply sent_weaken with 0%nat 0%nat; [lia | lia | apply sent_refl]. Qed.

Lemma emits_weaken (n k n' k' : nat) (m : M A) :
  (n <= n')%nat -> (k <= k')%nat -> Expected.emits n k m -> Expected.emits n' k' m.
Proof. intros Hn Hk Hm st. eapply sent_weaken; eauto. Qed.

(** Sequencing adds the budgets. *)
Lemma emits_bind (n1 k1 n2 k2 : nat) (m : M A) (f : A -> M B) :
  Expected.emits n1 k1 m -> (forall a, Expected.emits n2 k2 (f a)) ->
  Expected.emits (n1 + n2) (k1 + k2) (bind m f).
Proof.
  intros Hm Hf st. specialize (Hm st). unfold bind.
  destruct (m st) as [[a|e] st1]; cbn [snd] in *.
  - eapply sent_trans; [exact Hm | apply Hf].
  - eapply sent_weaken; [| |exact Hm]; lia.
Qed.

(** The same, splitting a given budget. *)
Lemma emits_bind_sub (n1 k1 n k : nat) (m : M A) (f : A -> M B) :
  Expected.emits n1 k1 m -> (n1 <= n)%nat -> (k1 <= k)%nat ->
  (forall a, Expected.emits (n - n1) (k - k1) (f a)) ->
  Expected.emits n k (bind m f).
Proof.
  intros Hm Hn Hk Hf.
  replace n with (n1 + (n - n1))%nat by lia. replace k with (k1 + (k - k1))%nat by lia.
  apply emits_bind; assumption.
Qed.

Lemma keeps_ret (a : A) : Expected.keeps_store (ret a).
Proof. intros st. apply same_store_refl. Qed.

Lemma keeps_raise (e : PyExn) : Expected.keeps_store (@raise A e).
Proof. intros st. apply same_store_refl. Qed.

Lemma keeps_lift (r : Result A) : Expected.keeps_store (lift r).
Proof. intros st. apply same_store_refl. Qed.

Lemma keeps_bind (m : M A) (f : A -> M B) :
  Expected.keeps_store m -> (forall a, Expected.keeps_store (f a)) ->
  Expected.keeps_store (bind m f).
Proof.
  intros Hm Hf st. specialize (Hm st). unfold bind.
  destruct (m st) as [[a|e] st1]; cbn [snd] in *; [|exact Hm].
  eapply same_store_trans; [exact Hm | apply Hf].
Qed.

End Effects.

Lemma emits_try_except {A} (n1 k1 n2 k2 : nat) (m : M A) (h : PyExn -> option (M A)) :
  Expected.emits n1 k1 m ->
  (forall e k, h e = Some k -> Expected.emits n2 k2 k) ->
  Expected.emits (n1 + n2) (k1 + k2) (try_except m h).
Proof.
  intros Hm Hh st. specialize (Hm st). unfold try_except.
  destruct (m st) as [[a|e] st1]; cbn [snd] in *.
  - eapply sent_weaken; [| |exact Hm]; lia.
  - destruct (h e) as [k|] eqn:E; cbn [snd].
    + eapply sent_trans; [exact Hm | apply (Hh e k E)].
    + eapply sent_weaken; [| |exact Hm]; lia.
Qed.

Lemma keeps_try_except {A} (m : M A) (h : PyExn -> option (M A)) :
  Expected.keeps_store m ->
  (forall e k, h e = Some k -> Expected.keeps_store k) ->
  Expected.keeps_store (try_except m h).
Proof.
  intros Hm Hh st. specialize (Hm st). unfold try_except.
  destruct (m st) as [[a|e] st1]; cbn [snd] in *; [exact Hm|].
  destruct (h e) as [k|] eqn:E; cbn [snd]; [|exact Hm].
  eapply same_store_trans; [exact Hm | apply (Hh e k E)].
Qed.

Lemma emits_bind_lift {A B} (n k : nat) (r : Result A) (f : A -> M B) :
  (forall a, r = Ok a -> Expected.emits n k (f a)) ->
  Expected.emits n k (bind (lift r) f).
Proof.
  intros Hf st. unfold bind, lift. destruct r as [a|e]; [apply (Hf a eq_refl)|].
  cbn [snd]. apply sent_weaken with 0%nat 0%nat; [lia | lia | apply sent_refl].
Qed.

Lemma keeps_bind_lift {A B} (r : Result A) (f : A -> M B) :
  (forall a, r = Ok a -> Expected.keeps_store (f a)) ->
  Expected.keeps_store (bind (lift r) f).
Proof.
  intros Hf st. unfold bind, lift. destruct r as [a|e]; [apply (Hf a eq_refl)|].
  apply same_store_refl.
Qed.

(** Steps that send nothing, within any budget. *)
Ltac emits_pure_step :=
  match goal with
  | |- Expected.emits _ _ (ret _) => apply emits_ret
  | |- Expected.emits _ _ (raise _) => apply emits_raise
  | |- Expected.emits _ _ (lift _) => apply emits_lift
  | |- Expected.emits _ _ (bind _ _) =>
    apply (emits_bind_sub 0 0); [ | lia | lia | intros; cbn [Nat.sub] ]
  | |- Expected.emits _ _ (if ?c then _ else _) => destruct c
  | |- Expected.emits _ _ (match ?x with _ => _ end) => destruct x
  end.

Ltac emits_pure := repeat emits_pure_step.

Ltac keeps_pure_step :=
  match goal with
  | |- Expected.keeps_store (ret _) => apply keeps_ret
  | |- Expected.keeps_store (raise _) => apply keeps_raise
  | |- Expected.keeps_store (lift _) => apply keeps_lift
  | |- Expected.keeps_store (bind _ _) => apply keeps_bind; [ | intros ]
  | |- Expected.keeps_store (if ?c then _ else _) => destruct c
  | |- Expected.keeps_store (match ?x with _ => _ end) => destruct x
  end.

Ltac keeps_pure := repeat keeps_pure_step.

Section EffectsOfTheCode.
Variable lib : PyLib.
Variable w : World.

Lemma emits_call_openrouter (req : LLMRequest) :
  Expected.emits 1 0 (Llm._call_openrouter w req).
Proof.
  intros st. exists [req], []. cbn. rewrite app_nil_r. repeat split; lia.
Qed.

Lemma keeps_call_openrouter (req : LLMRequest) :
  Expected.keeps_store (Llm._call_openrouter w req).
Proof. intros st. repeat split. Qed.

Lemma emits_request_json (req : HttpRequest) :
  Expected.emits 0 1 (Tools.request_json w req).
Proof.
  intros st. rewrite request_json_state. exists [], [req]. cbn.
  rewrite app_nil_r. repeat split; lia.
Qed.

Lemma keeps_request_json (req : HttpRequest) :
  Expected.keeps_store (Tools.request_json w req).
Proof. intros st. rewrite request_json_state. repeat split. Qed.

Lemma emits_receptionist_loop (attempts : nat) (history : list value) :
  Expected.emits attempts 0 (Llm._receptionist_loop lib w attempts history).
Proof.
  induction attempts as [|n IH]; cbn [Llm._receptionist_loop]; [apply emits_ret|].
  apply (emits_bind 1 0 n 0); [apply emits_call_openrouter|]. intros raw.
  destruct (Llm._validate_receptionist_json _); [apply emits_ret | exact IH].
Qed.

Lemma keeps_receptionist_loop (attempts : nat) (history : list value) :
  Expected.keeps_store (Llm._receptionist_loop lib w attempts history).
Proof.
  induction attempts as [|n IH]; cbn [Llm._receptionist_loop]; [apply keeps_ret|].
  apply keeps_bind; [apply keeps_call_openrouter|]. intros raw.
  destruct (Llm._validate_receptionist_json _); [apply keeps_ret | exact IH].
Qed.

Lemma emits_data_entry_worker_loop (attempts : nat) (speech : pystr) :
  Expected.emits attempts 0 (Llm._data_entry_worker_loop lib w attempts speech).
Proof.
  induction attempts as [|n IH]; cbn [Llm._data_entry_worker_loop]; [apply emits_ret|].
  apply (emits_bind 1 0 n 0); [apply emits_call_openrouter|]. intros raw.
  destruct (Llm._extract_tool_call lib raw) as [[|kv tc]|]; try exact IH.
  emits_pure.
Qed.

Lemma keeps_data_entry_worker_loop (attempts : nat) (speech : pystr) :
  Expected.keeps_store (Llm._data_entry_worker_loop lib w attempts speech).
Proof.
  induction attempts as [|n IH]; cbn [Llm._data_entry_worker_loop]; [apply keeps_ret|].
  apply keeps_bind; [apply keeps_call_openrouter|]. intros raw.
  destruct (Llm._extract_tool_call lib raw) as [[|kv tc]|]; try exact IH.
  keeps_pure.
Qed.

(** One run of the pipeline sends at most four completion requests (two of
    the receptionist, two of the worker) and nothing to the booking API. *)
Lemma emits_process (history : list value) :
  Expected.emits 4 0 (Llm.process lib w history).
Proof.
  unfold Llm.process.
  apply (emits_bind 2 0 2 0); [apply emits_receptionist_loop|]. intros rec_obj.
  destruct (negb (truthy rec_obj)); [apply emits_ret|].
  do 3 (apply (emits_bind_sub 0 0); [apply emits_lift | lia | lia | intros ?]).
  cbn [Nat.sub].
  destruct (eq_str _ _ || _); [apply emits_ret|].
  destruct (eq_str _ _); [|apply emits_ret].
  apply (emits_bind_sub 2 0); [apply emits_data_entry_worker_loop | lia | lia |].
  intros tool_call. cbn [Nat.sub].
  destruct tool_call as [[|kv tc]|]; try apply emits_ret.
  destruct (Llm._validate_tool_call lib (kv :: tc)) as [[|] tc']; [apply emits_ret|].
  emits_pure.
Qed.

Lemma keeps_process (history : list value) :
  Expected.keeps_store (Llm.process lib w history).
Proof.
  unfold Llm.process.
  apply keeps_bind; [apply keeps_receptionist_loop|]. intros rec_obj.
  destruct (negb (truthy rec_obj)); [apply keeps_ret|].
  do 3 (apply keeps_bind; [apply keeps_lift | intros ?]).
  destruct (eq_str _ _ || _); [apply keeps_ret|].
  destruct (eq_str _ _); [|apply keeps_ret].
  apply keeps_bind; [apply keeps_data_entry_worker_loop|].
  intros tool_call.
  destruct tool_call as [[|kv tc]|]; try apply keeps_ret.
  destruct (Llm._validate_tool_call lib (kv :: tc)) as [[|] tc']; [apply keeps_ret|].
  keeps_pure.
Qed.

End EffectsOfTheCode.

(** ** Requests of the booking tools *)

Section ToolEffects.
Variable lib : PyLib.
Variable w : World.

Lemma emits_call_api (endpoint : pystr) (params : dict) :
  Expected.emits 0 1 (Tools.call_api w endpoint params).
Proof. unfold Tools.call_api. apply emits_request_json. Qed.

Lemma keeps_call_api (endpoint : pystr) (params : dict) :
  Expected.keeps_store (Tools.call_api w endpoint params).
Proof. unfold Tools.call_api. apply keeps_request_json. Qed.

Lemma emits_call_api_get (endpoint : pystr) (params : dict) (func_name : pystr) :
  Expected.emits 0 1 (Tools.call_api_get lib w endpoint params func_name).
Proof.
  unfold Tools.call_api_get.
  apply (emits_bind_sub 0 0); [apply emits_lift | lia | lia | intros reference].
  destruct (str_eqb _ _); [apply emits_request_json|].
  destruct (truthy _); apply emits_request_json.
Qed.

Lemma keeps_call_api_get (endpoint : pystr) (params : dict) (func_name : pystr) :
  Expected.keeps_store (Tools.call_api_get lib w endpoint params func_name).
Proof.
  unfold Tools.call_api_get.
  apply keeps_bind; [apply keeps_lift | intros reference].
  destruct (str_eqb _ _); [apply keeps_request_json|].
  destruct (truthy _); apply keeps_request_json.
Qed.

(** Walks through a handler: pure steps cost nothing, the one call to the
    booking API uses the budget of one request. *)
Ltac emits_tool_step :=
  match goal with
  | |- Expected.emits _ _ (Tools.request_json _ _) => apply emits_request_json
  | |- Expected.emits _ _ (Tools.call_api _ _ _) => apply emits_call_api
  | |- Expected.emits _ _ (Tools.call_api_get _ _ _ _ _) => apply emits_call_api_get
  | |- Expected.emits _ _ (bind (Tools.call_api _ _ _) _) =>
    apply (emits_bind_sub 0 1);
      [ apply emits_call_api | lia | lia | intros; cbn [Nat.sub] ]
  | |- Expected.emits _ _ (bind (Tools.call_api_get _ _ _ _ _) _) =>
    apply (emits_bind_sub 0 1);
      [ apply emits_call_api_get | lia | lia | intros; cbn [Nat.sub] ]
  | _ => emits_pure_step
  end.

Ltac emits_tool := repeat emits_tool_step.

Ltac keeps_tool_step :=
  match goal with
  | |- Expected.keeps_store (Tools.request_json _ _) => apply keeps_request_json
  | |- Expected.keeps_store (Tools.call_api _ _ _) => apply keeps_call_api
  | |- Expected.keeps_store (Tools.call_api_get _ _ _ _ _) => apply keeps_call_api_get
  | _ => keeps_pure_step
  end.

Ltac keeps_tool := repeat keeps_tool_step.

Lemma emits_check_availability (args : dict) :
  Expected.emits 0 1 (Tools.check_availability_kw w args).
Proof.
  unfold Tools.check_availability_kw, Tools.check_availability. cbv zeta. emits_tool.
Qed.

Lemma emits_make_reservation (args : dict) :
  Expected.emits 0 1 (Tools.make_reservation_kw lib w args).
Proof.
  unfold Tools.make_reservation_kw, Tools.make_reservation. cbv zeta. emits_tool.
Qed.

Lemma emits_check_reservation (args : dict) :
  Expected.emits 0 1 (Tools.check_reservation_kw lib w args).
Proof.
  unfold Tools.check_reservation_kw, Tools.check_reservation. cbv zeta. emits_tool.
Qed.

Lemma emits_modify_reservation (args : dict) :
  Expected.emits 0 1 (Tools.modify_reservation_kw lib w args).
Proof.
  unfold Tools.modify_reservation_kw, Tools.modify_reservation. cbv zeta. emits_tool.
Qed.

Lemma emits_cancel_reservation (args : dict) :
  Expected.emits 0 1 (Tools.cancel_reservation_kw lib w args).
Proof.
  unfold Tools.cancel_reservation_kw, Tools.cancel_reservation. cbv zeta. emits_tool.
Qed.

Lemma keeps_check_availability (args : dict) :
  Expected.keeps_store (Tools.check_availability_kw w args).
Proof.
  unfold Tools.check_availability_kw, Tools.check_availability. cbv zeta. keeps_tool.
Qed.

Lemma keeps_make_reservation (args : dict) :
  Expected.keeps_store (Tools.make_reservation_kw lib w args).
Proof.
  unfold Tools.make_reservation_kw, Tools.make_reservation. cbv zeta. keeps_tool.
Qed.

Lemma keeps_check_reservation (args : dict) :
  Expected.keeps_store (Tools.check_reservation_kw lib w args).
Proof.
  unfold Tools.check_reservation_kw, Tools.check_reservation. cbv zeta. keeps_tool.
Qed.

Lemma keeps_modify_reservation (args : dict) :
  Expected.keeps_store (Tools.modify_reservation_kw lib w args).
Proof.
  unfold Tools.modify_reservation_kw, Tools.modify_reservation. cbv zeta. keeps_tool.
Qed.

Lemma keeps_cancel_reservation (args : dict) :
  Expected.keeps_store (Tools.cancel_reservation_kw lib w args).
Proof.
  unfold Tools.cancel_reservation_kw, Tools.cancel_reservation. cbv zeta. keeps_tool.
Qed.

(** The handlers the registry can hand out. *)
Lemma registry_handlers (name : value) (f : dict -> M value) :
  hashed_lookup (Agent.tool_registry lib w) name = Ok (Some f) ->
  f = Tools.check_availability_kw w \/ f = Tools.make_reservation_kw lib w
  \/ f = Tools.check_reservation_kw lib w \/ f = Tools.modify_reservation_kw lib w
  \/ f = Tools.cancel_reservation_kw lib w.
Proof.
  unfold hashed_lookup, Agent.tool_registry.
  destruct name; try discriminate. cbn [List.find fst snd].
  repeat match goal with
         | |- context [if str_eqb ?a s then _ else _] => destruct (str_eqb a s)
         end;
    cbn [fmap option_fmap option_map snd]; intros H; try discriminate H;
    injection H as <-; tauto.
Qed.

Lemma emits_handler (name : value) (f : dict -> M value) (args : dict) :
  hashed_lookup (Agent.tool_registry lib w) name = Ok (Some f) ->
  Expected.emits 0 1 (f args) /\ Expected.keeps_store (f args).
Proof.
  intros H. destruct (registry_handlers _ _ H) as [->|[->|[->|[->| ->]]]]; split;
    auto using emits_check_availability, emits_make_reservation,
      emits_check_reservation, emits_modify_reservation, emits_cancel_reservation,
      keeps_check_availability, keeps_make_reservation, keeps_check_reservation,
      keeps_modify_reservation, keeps_cancel_reservation.
Qed.

Lemma execute_tool_effects (tool_call : dict) :
  Expected.emits 0 1 (Agent.execute_tool lib w tool_call)
  /\ Expected.keeps_store (Agent.execute_tool lib w tool_call).
Proof.
  unfold Agent.execute_tool. split.
  - apply emits_bind_lift. intros [f|] Hf; [|apply emits_ret].
    apply (emits_try_except 0 1 0 0).
    + destruct (dict_get_default (u "args") (VDict []) tool_call);
        try apply emits_raise.
      apply (emits_handler _ _ _ Hf).
    + intros [msg|kind info] k [= <-]; apply emits_ret.
  - apply keeps_bind_lift. intros [f|] Hf; [|apply keeps_ret].
    apply keeps_try_except.
    + destruct (dict_get_default (u "args") (VDict []) tool_call);
        try apply keeps_raise.
      apply (emits_handler _ _ _ Hf).
    + intros [msg|kind info] k [= <-]; apply keeps_ret.
Qed.

(** X1. One dispatch is at most one request to the booking API; it never
    calls the LLM and never touches the memories, the files or the clock,
    whether the handler returns or raises. *)
Theorem execute_tool_sends_at_most_one_request (tool_call : dict) :
  Expected.emits 0 1 (Agent.execute_tool lib w tool_call)
  /\ Expected.keeps_store (Agent.execute_tool lib w tool_call).
Proof. apply execute_tool_effects. Qed.

End ToolEffects.

(** ** Cost of one user turn *)

Section TurnEffects.
Variable lib : PyLib.
Variable w : World.

(** X2. One run of the pipeline sends at most four completion requests (two
    by the receptionist, two by the data-entry worker), sends nothing to the
    booking API and leaves the memories, the files and the clock alone,
    whether it returns or raises. *)
Theorem process_sends_at_most_four_completions (history : list value) :
  Expected.emits 4 0 (Llm.process lib w history)
  /\ Expected.keeps_store (Llm.process lib w history).
Proof. split; [apply emits_process | apply keeps_process]. Qed.

Lemma emits_on_memory (n k : nat) (user_id : pystr) (method : Memory -> Memory) :
  Expected.emits n k (MemoryStore.on_memory user_id method).
Proof. intros st. apply sent_same_logs; reflexivity. Qed.

Lemma emits_the_memory (n k : nat) (user_id : pystr) :
  Expected.emits n k (MemoryStore.the_memory user_id).
Proof. intros st. apply sent_weaken with 0%nat 0%nat; [lia | lia | apply sent_refl]. Qed.

Lemma emits_get_memory (n k : nat) (user_id : pystr) :
  Expected.emits n k (MemoryStore.get_memory user_id).
Proof.
  intros st. unfold MemoryStore.get_memory, bind, get_state.
  destruct (user_memories st !! user_id); apply sent_same_logs; reflexivity.
Qed.

Lemma emits_tool_call_loop (fuel : nat) (user_id : pystr) :
  forall (i : Z) (llm_reply : value),
    Expected.emits (4 * fuel) fuel (Agent.tool_call_loop lib w fuel user_id i llm_reply).
Proof.
  induction fuel as [|fuel IH]; intros i llm_reply; cbn [Agent.tool_call_loop];
    [apply emits_ret|].
  destruct (Agent.is_tool_call llm_reply && (i <? 4)); [|apply emits_ret].
  apply (emits_bind_sub 0 0); [apply emits_lift | lia | lia | intros tool_call].
  apply (emits_bind_sub 0 1);
    [destruct tool_call; try apply emits_raise;
     apply execute_tool_effects
    | lia | lia | intros tool_result].
  apply (emits_bind_sub 0 0); [apply emits_on_memory | lia | lia | intros _].
  apply (emits_bind_sub 0 0); [apply emits_the_memory | lia | lia | intros memory].
  apply (emits_bind_sub 4 0); [apply emits_process | lia | lia | intros reply].
  replace (4 * S fuel - 0 - 0 - 0 - 0 - 4)%nat with (4 * fuel)%nat by lia.
  replace (S fuel - 0 - 1 - 0 - 0 - 0)%nat with fuel by lia.
  apply IH.
Qed.

(** X3. One user turn costs at most twenty completion requests and at most
    four requests to the booking API, whether [handle_user_input] returns or
    raises. *)
Theorem handle_user_input_cost (user_id : pystr) (user_input : value) :
  Expected.emits 20 4 (Agent.handle_user_input lib w user_id user_input).
Proof.
  unfold Agent.handle_user_input.
  apply (emits_bind_sub 0 0); [apply emits_get_memory | lia | lia | intros _].
  apply (emits_bind_sub 0 0); [apply emits_on_memory | lia | lia | intros _].
  apply (emits_bind_sub 0 0); [apply emits_the_memory | lia | lia | intros memory].
  apply (emits_bind_sub 4 0); [apply emits_process | lia | lia | intros llm_reply].
  apply (emits_bind_sub 16 4); [apply (emits_tool_call_loop 4) | lia | lia |].
  intros [i reply].
  apply (emits_bind_sub 0 0); [apply emits_on_memory | lia | lia | intros _].
  apply emits_ret.
Qed.

End TurnEffects.

(** ** What the pipeline returns *)

Section Returns.
Context {A B : Type}.

Lemma returns_ret (P : A -> Prop) (a : A) : P a -> Expected.returns P (ret a).
Proof. intros Ha st v st' [= <- _]. exact Ha. Qed.

Lemma returns_raise (P : A -> Prop) (e : PyExn) : Expected.returns P (@raise A e).
Proof. intros st v st' H. discriminate H. Qed.

Lemma returns_bind (P : B -> Prop) (m : M A) (f : A -> M B) :
  (forall a, Expected.returns P (f a)) -> Expected.returns P (bind m f).
Proof.
  intros Hf st v st' H. apply bind_inv in H as [(a & st1 & _ & H)|(e & _ & ?)];
    [exact (Hf a _ _ _ H) | discriminate].
Qed.

Lemma returns_bind_strong (Q : A -> Prop) (P : B -> Prop) (m : M A) (f : A -> M B) :
  Expected.returns Q m -> (forall a, Q a -> Expected.returns P (f a)) ->
  Expected.returns P (bind m f).
Proof.
  intros Hm Hf st v st' H. apply bind_inv in H as [(a & st1 & Ha & H)|(e & _ & ?)];
    [exact (Hf a (Hm _ _ _ Ha) _ _ _ H) | discriminate].
Qed.

End Returns.

Section Shape.
Variable lib : PyLib.
Variable w : World.

Lemma dict_set_idem (k : pystr) (v : value) (d : dict) :
  dict_set k v (dict_set k v d) = dict_set k v d.
Proof.
  induction d as [|[k' v'] r IH]; cbn [dict_set].
  - rewrite str_eqb_refl. reflexivity.
  - destruct (str_eqb k' k) eqn:E; cbn [dict_set].
    + rewrite str_eqb_refl. reflexivity.
    + rewrite E, IH. reflexivity.
Qed.

Lemma dict_set_nonempty (k : pystr) (v : value) (d : dict) :
  truthy (VDict (dict_set k v d)) = true.
Proof. destruct d as [|[k' v'] r]; cbn [dict_set truthy]; [|destruct (str_eqb k' k)]; reflexivity. Qed.

Lemma schema_requires_something (name : pystr) (schema : Llm.Schema) :
  Expected.schema_of name = Some schema -> Llm.required schema <> [].
Proof.
  unfold Expected.schema_of, Llm.SCHEMAS. cbn [List.find fst snd].
  repeat match goal with
         | |- context [if str_eqb ?a name then _ else _] => destruct (str_eqb a name)
         end;
    cbn [fmap option_fmap option_map]; intros H; try discriminate H;
    injection H as <-; discriminate.
Qed.

(** What a successful validation has established. *)
Lemma validate_accepts_inv (tc tc' : dict) :
  Llm._validate_tool_call lib tc = (true, tc') ->
  exists name schema args,
    dict_get_none (u "name") tc = VStr name
    /\ Expected.schema_of name = Some schema
    /\ Expected.args_seen tc = VDict args
    /\ forallb (fun k => Llm._present lib (dict_get_none k args)) (Llm.required schema)
       = true
    /\ (match dict_get (u "people") args with
        | None => tc' = tc
        | Some people =>
          exists n, int_of lib people = Ok n
                    /\ tc' = dict_set (u "args")
                               (VDict (dict_set (u "people") (VInt n) args)) tc
        end).
Proof.
  unfold Llm._validate_tool_call, Llm._validate_tool_call_body.
  fold (Expected.args_seen tc).
  destruct (dict_get_none (u "name") tc) as [| | | |name| |] eqn:Hname;
    try (unfold hashed_lookup; cbn [rbind]; intros H; discriminate H).
  rewrite hashed_lookup_schema.
  destruct (Expected.schema_of name) as [schema|] eqn:Hschema;
    cbn [rbind]; [|intros H; discriminate H].
  pose proof (schema_requires_something _ _ Hschema) as Hreq.
  destruct (Expected.args_seen tc) as [| | | | | |args] eqn:Hargs;
    try (destruct (Llm.required schema); [congruence|];
         cbn [Llm.all_present value_get rbind]; intros H; discriminate H).
  rewrite all_present_dict. cbn [rbind].
  destruct (forallb _ (Llm.required schema)) eqn:Hall; cbn [negb];
    [|intros H; discriminate H].
  cbn [contains rbind]. unfold dict_mem, subscript.
  destruct (dict_get (u "people") args) as [people|] eqn:Hpeople.
  - cbn [rbind]. destruct (int_of lib people) as [n|e] eqn:Hint; cbn [rbind setitem];
      intros [= <-].
    exists name, schema, args. rewrite Hpeople. repeat split; eauto.
  - intros [= <-]. exists name, schema, args. rewrite Hpeople. repeat split; eauto.
Qed.
(** What a validation answers for a call with a registered name, usable
    arguments and all required fields present. *)
Lemma validate_accepts_intro (tc args : dict) (name : pystr) (schema : Llm.Schema) :
  dict_get_none (u "name") tc = VStr name ->
  Expected.schema_of name = Some schema ->
  Expected.args_seen tc = VDict args ->
  forallb (fun k => Llm._present lib (dict_get_none k args)) (Llm.required schema)
  = true ->
  Llm._validate_tool_call lib tc
  = match dict_get (u "people") args with
    | None => (true, tc)
    | Some people =>
      match int_of lib people with
      | Ok n => (true, dict_set (u "args")
                         (VDict (dict_set (u "people") (VInt n) args)) tc)
      | Raise _ => (false, tc)
      end
    end.
Proof.
  intros Hname Hschema Hargs Hall.
  unfold Llm._validate_tool_call, Llm._validate_tool_call_body.
  fold (Expected.args_seen tc). rewrite Hname, Hargs, hashed_lookup_schema, Hschema.
  cbn [rbind]. rewrite all_present_dict, Hall. cbn [rbind negb contains].
  unfold dict_mem, subscript.
  destruct (dict_get (u "people") args) as [people|]; cbn [rbind]; [|reflexivity].
  destruct (int_of lib people) as [n|e]; reflexivity.
Qed.

Lemma args_is_not_name : u "args" <> u "name".
Proof. intros H. vm_compute in H. discriminate H. Qed.

(** A call that validation accepted and coerced is accepted again, as it is. *)
Lemma validate_idempotent (tc tc' : dict) :
  Llm._validate_tool_call lib tc = (true, tc') ->
  Llm._validate_tool_call lib tc' = (true, tc').
Proof.
  intros H. pose proof H as H0.
  apply validate_accepts_inv in H as (name & schema & args & Hname & Hschema & Hargs
                                      & Hall & Hpeople).
  destruct (dict_get (u "people") args) as [people|] eqn:Hp.
  2:{ subst tc'. exact H0. }
  destruct Hpeople as (n & Hint & ->).
  set (args' := dict_set (u "people") (VInt n) args).
  rewrite (validate_accepts_intro _ args' name schema).
  - unfold args'. rewrite dict_get_set_eq. cbn [int_of].
    rewrite !dict_set_idem. reflexivity.
  - unfold dict_get_none, dict_get_default in *.
    rewrite dict_get_set_ne by exact args_is_not_name. exact Hname.
  - exact Hschema.
  - unfold Expected.args_seen, dict_get_default. rewrite dict_get_set_eq.
    unfold py_or, args'. rewrite dict_set_nonempty. reflexivity.
  - apply forallb_forall. intros k Hk.
    rewrite forallb_forall in Hall. specialize (Hall k Hk).
    unfold args', dict_get_none, dict_get_default in *.
    destruct (str_eqb (u "people") k) eqn:E.
    + apply str_eqb_eq in E. subst k. rewrite dict_get_set_eq. apply present_int.
    + apply str_eqb_neq in E. rewrite dict_get_set_ne by exact E. exact Hall.
Qed.

Lemma returns_process (history : list value) :
  Expected.returns
    (fun v => Expected.is_text v
              \/ exists tc tc', v = Expected.tool_call_reply tc'
                                /\ Llm._validate_tool_call lib tc = (true, tc'))
    (Llm.process lib w history).
Proof.
  unfold Llm.process.
  apply returns_bind. intros rec_obj.
  destruct (negb (truthy rec_obj)); [apply returns_ret; left; eexists; reflexivity|].
  do 3 (apply returns_bind; intros ?).
  destruct (eq_str _ _ || _); [apply returns_ret; left; eexists; reflexivity|].
  destruct (eq_str _ _); [|apply returns_ret; left; eexists; reflexivity].
  apply returns_bind. intros tool_call.
  destruct tool_call as [[|kv tc]|];
    try (apply returns_ret; left; eexists; reflexivity).
  destruct (Llm._validate_tool_call lib (kv :: tc)) as [[|] tc'] eqn:Hv.
  - apply returns_ret. right. exists (kv :: tc), tc'. split; [reflexivity | exact Hv].
  - apply returns_bind. intros missing.
    destruct missing; apply returns_ret; left; eexists; reflexivity.
Qed.

(** X4. Whenever [process] returns, it returns a text or a tool call under
    the key tool_call; the tool call is the extracted one after validation,
    and validating it again accepts it unchanged: its name is registered,
    every required field is present and a party size, if any, is an int. *)
Theorem process_returns_text_or_valid_call
    (history : list value) (st st' : State) (v : value) :
  Llm.process lib w history st = (Ok v, st') ->
  Expected.is_text v
  \/ exists tc, v = Expected.tool_call_reply tc
                /\ Llm._validate_tool_call lib tc = (true, tc)
                /\ (forall people, subscript (Expected.args_seen tc) (u "people")
                                   = Ok people ->
                                   exists n, people = VInt n).
Proof.
  intros H. destruct (returns_process history st v st' H) as [Ht|(tc & tc' & -> & Hv)];
    [left; exact Ht|].
  right. exists tc'. split; [reflexivity|]. split; [exact (validate_idempotent _ _ Hv)|].
  intros people Hp.
  pose proof (validate_idempotent _ _ Hv) as Hv'.
  apply validate_accepts_inv in Hv as (name & schema & args & Hname & Hschema & Hargs
                                       & Hall & Hpeople).
  destruct (dict_get (u "people") args) as [p|] eqn:Hget.
  - destruct Hpeople as (n & Hint & ->).
    unfold Expected.args_seen, dict_get_default in Hp.
    rewrite dict_get_set_eq in Hp. unfold py_or in Hp.
    rewrite dict_set_nonempty in Hp. unfold subscript in Hp.
    rewrite dict_get_set_eq in Hp. injection Hp as <-. eauto.
  - subst tc'. rewrite Hargs in Hp. unfold subscript in Hp. rewrite Hget in Hp.
    discriminate Hp.
Qed.

End Shape.

Lemma process_returns_text_or_valid_call_witness :
  exists v st',
    Llm.process Demo.lib (Demo.scripted [Some Demo.SAY_BOOK; Some Demo.CALL_BOOK])
      (Demo.first_turn "Book a table for 4 tomorrow at 7pm") initial_state
    = (Ok v, st')
    /\ (Expected.is_text v
        \/ exists tc, v = Expected.tool_call_reply tc
                      /\ Llm._validate_tool_call Demo.lib tc = (true, tc)
                      /\ (forall people,
                             subscript (Expected.args_seen tc) (u "people") = Ok people ->
                             exists n, people = VInt n)).
Proof.
  pose (run := Llm.process Demo.lib
                 (Demo.scripted [Some Demo.SAY_BOOK; Some Demo.CALL_BOOK])
                 (Demo.first_turn "Book a table for 4 tomorrow at 7pm") initial_state).
  exists (match fst run with Ok v => v | Raise _ => VNone end), (snd run).
  assert (E : Llm.process Demo.lib
                (Demo.scripted [Some Demo.SAY_BOOK; Some Demo.CALL_BOOK])
                (Demo.first_turn "Book a table for 4 tomorrow at 7pm") initial_state
              = (Ok (match fst run with Ok v => v | Raise _ => VNone end), snd run))
    by (vm_compute; reflexivity).
  split; [exact E|].
  exact (process_returns_text_or_valid_call Demo.lib _ _ _ _ _ E).
Defined.

(** ** What a user turn returns and records *)

Section Turn.
Variable lib : PyLib.
Variable w : World.

Lemma process_reply_shape (history : list value) :
  Expected.returns
    (fun v => Expected.is_text v \/ exists tc, v = Expected.tool_call_reply tc)
    (Llm.process lib w history).
Proof.
  intros st v st' H.
  destruct (returns_process lib w history st v st' H) as [Ht|(tc & tc' & -> & _)];
    [left; exact Ht | right; eauto].
Qed.

Lemma tool_call_loop_reply_shape (fuel : nat) (user_id : pystr) :
  forall (i : Z) (llm_reply : value),
    (Expected.is_text llm_reply \/ exists tc, llm_reply = Expected.tool_call_reply tc) ->
    Expected.returns
      (fun exit : Z * value =>
         Expected.is_text (snd exit) \/ exists tc, snd exit = Expected.tool_call_reply tc)
      (Agent.tool_call_loop lib w fuel user_id i llm_reply).
Proof.
  induction fuel as [|fuel IH]; intros i llm_reply Hreply; cbn [Agent.tool_call_loop].
  - apply returns_ret. exact Hreply.
  - destruct (Agent.is_tool_call llm_reply && (i <? 4)); [|apply returns_ret; exact Hreply].
    do 4 (apply returns_bind; intros ?).
    eapply returns_bind_strong; [apply process_reply_shape|].
    intros reply Hr. apply IH. exact Hr.
Qed.

Lemma get_memory_the (user_id : pystr) (st : State) :
  exists st0,
    MemoryStore.get_memory user_id st
    = (Ok (default (MemoryStore.new_memory user_id) (user_memories st !! user_id)), st0)
    /\ user_memories st0 !! user_id
       = Some (default (MemoryStore.new_memory user_id) (user_memories st !! user_id))
    /\ (forall other, other <> user_id ->
                      user_memories st0 !! other = user_memories st !! other)
    /\ files st0 = files st /\ llm_calls st0 = llm_calls st
    /\ http_calls st0 = http_calls st /\ clock_reads st0 = clock_reads st.
Proof.
  unfold MemoryStore.get_memory, bind, get_state, modify_state, ret.
  destruct (user_memories st !! user_id) as [m|] eqn:E.
  - exists st. rewrite E. repeat split; auto.
  - eexists. split; [reflexivity|].
    cbn [user_memories files set_user_memories llm_calls http_calls clock_reads default].
    rewrite lookup_insert_eq. repeat split; auto.
    intros other Hne. apply lookup_insert_ne. congruence.
Qed.

(** The reply the loop leaves with is what the pipeline returned last, on the
    history of the user as it then stands, and nothing was sent after it. *)
Lemma tool_call_loop_last (fuel : nat) (user_id : pystr) :
  forall (i : Z) (llm_reply : value) (st : State) (i' : Z) (reply' : value)
         (st' : State),
    (exists m st0, user_memories st !! user_id = Some m
                   /\ Llm.process lib w (history m) st0 = (Ok llm_reply, st)) ->
    Agent.tool_call_loop lib w fuel user_id i llm_reply st = (Ok (i', reply'), st') ->
    exists m' st0', user_memories st' !! user_id = Some m'
                    /\ Llm.process lib w (history m') st0' = (Ok reply', st').
Proof.
  induction fuel as [|fuel IH]; intros i llm_reply st i' reply' st' Hinv H;
    cbn [Agent.tool_call_loop] in H.
  - injection H as <- <- <-. exact Hinv.
  - destruct (Agent.is_tool_call llm_reply && (i <? 4));
      [|injection H as <- <- <-; exact Hinv].
    destruct Hinv as (m & st0 & Hm & _).
    apply bind_inv in H as [(tool_call & s0 & H0 & H)|(e & _ & ?)]; [|discriminate].
    injection H0 as _ <-.
    apply bind_inv in H as [(tool_result & s1 & Hexec & H)|(e & _ & ?)]; [|discriminate].
    assert (Hs1 : Expected.same_store st s1).
    { destruct tool_call; try discriminate Hexec.
      pose proof (proj2 (execute_tool_effects lib w d) st) as Hk.
      rewrite Hexec in Hk. exact Hk. }
    destruct Hs1 as (_ & Hmem1 & _).
    apply bind_inv in H as [(u0 & s2 & Hon & H)|(e & _ & ?)]; [|discriminate].
    injection Hon as _ <-.
    apply bind_inv in H as [(memory & s3 & Hthe & H)|(e & _ & ?)]; [|discriminate].
    unfold MemoryStore.the_memory, bind, get_state, ret in Hthe.
    cbn [user_memories set_user_memories] in Hthe.
    rewrite lookup_alter_eq, Hmem1, Hm in Hthe. cbn [fmap option_fmap option_map default]
      in Hthe.
    injection Hthe as <- <-.
    apply bind_inv in H as [(reply & s4 & Hproc & H)|(e & _ & ?)]; [|discriminate].
    apply (IH _ _ _ _ _ _) in H; [exact H|].
    match type of Hproc with
    | Llm.process _ _ ?h ?s = _ => pose proof (keeps_process lib w h s) as Hk
    end.
    rewrite Hproc in Hk. destruct Hk as (_ & Hmem4 & _). cbn [snd] in Hmem4.
    cbn [user_memories set_user_memories] in Hmem4.
    exists (MemoryStore.add_tool_result tool_result m). eexists. split; [|exact Hproc].
    rewrite Hmem4, lookup_alter_eq, Hm. reflexivity.
Qed.

(** X5. Whatever the LLM and the booking API answer, a user turn that
    returns hands back a text, never a tool call: either the apology, or the
    text the pipeline returned last.  In the second case that text is the
    result of [process] on the history as it stands just before the assistant
    turn is appended, and nothing is sent to the LLM or to the booking API
    after that run of the pipeline. *)
Theorem handle_user_input_returns_text
    (user_id : pystr) (user_input : value) (st st' : State) (v : value) :
  Agent.handle_user_input lib w user_id user_input st = (Ok v, st') ->
  Expected.is_text v /\ Agent.is_tool_call v = false
  /\ (v = VStr Agent.APOLOGY
      \/ exists h st0 st1,
           Llm.process lib w h st0 = (Ok v, st1)
           /\ history <$> user_memories st' !! user_id
              = Some (h ++ [MemoryStore.turn (u "assistant") v])
           /\ llm_calls st' = llm_calls st1 /\ http_calls st' = http_calls st1).
Proof.
  intros H. unfold Agent.handle_user_input in H.
  apply bind_inv in H as [(m0 & s0 & Hget & H)|(e & _ & ?)]; [|discriminate].
  apply bind_inv in H as [(u0 & s1 & Hon & H)|(e & _ & ?)]; [|discriminate].
  apply bind_inv in H as [(m1 & s2 & Hthe & H)|(e & _ & ?)]; [|discriminate].
  apply bind_inv in H as [(reply0 & s3 & Hproc & H)|(e & _ & ?)]; [|discriminate].
  apply bind_inv in H as [([i reply] & s4 & Hloop & H)|(e & _ & ?)]; [|discriminate].
  apply bind_inv in H as [(u1 & s5 & Hbot & H)|(e & _ & ?)]; [|discriminate].
  injection H as <- <-.
  assert (Htext : Expected.is_text (if i >? 3 then VStr Agent.APOLOGY else reply)).
  { destruct (i >? 3) eqn:Hi; [eexists; reflexivity|].
    pose proof (tool_call_loop_exit lib w 4 user_id 0 reply0 s3 i reply s4
                  ltac:(lia) Hloop) as Hexit.
    replace (i <? 4) with true in Hexit
      by (symmetry; apply Z.ltb_lt; rewrite Z.gtb_ltb in Hi; apply Z.ltb_ge in Hi; lia).
    rewrite andb_true_r in Hexit.
    destruct (tool_call_loop_reply_shape 4 user_id 0 reply0
                (process_reply_shape _ _ _ _ Hproc) _ _ _ Hloop) as [Ht|[tc Htc]];
      [exact Ht|].
    cbn [snd] in Htc. subst reply. unfold Expected.tool_call_reply in Hexit.
    cbn [Agent.is_tool_call] in Hexit. unfold dict_mem in Hexit.
    cbn [dict_get] in Hexit. rewrite str_eqb_refl in Hexit. discriminate Hexit. }
  split; [exact Htext|]. split; [destruct Htext as [s ->]; reflexivity|].
  destruct (i >? 3); [left; reflexivity | right].
  (* the history the first run of the pipeline saw *)
  destruct (get_memory_the user_id st) as (s0' & Hget' & Hm0 & _).
  rewrite Hget in Hget'. injection Hget' as -> ->.
  unfold MemoryStore.on_memory, modify_state in Hon. injection Hon as _ <-.
  unfold MemoryStore.the_memory, bind, get_state, ret in Hthe.
  cbn [user_memories set_user_memories] in Hthe.
  rewrite lookup_alter_eq, Hm0 in Hthe.
  cbn [fmap option_fmap option_map default] in Hthe. injection Hthe as <- <-.
  match type of Hproc with
  | Llm.process _ _ ?h ?s = _ => pose proof (keeps_process lib w h s) as Hk
  end.
  rewrite Hproc in Hk. destruct Hk as (_ & Hmem3 & _). cbn [snd] in Hmem3.
  cbn [user_memories set_user_memories] in Hmem3.
  assert (Hinv : exists m st0, user_memories s3 !! user_id = Some m
                               /\ Llm.process lib w (history m) st0 = (Ok reply0, s3)).
  { eexists. eexists. split; [|exact Hproc].
    rewrite Hmem3, lookup_alter_eq, Hm0. reflexivity. }
  destruct (tool_call_loop_last 4 user_id 0 reply0 s3 i reply s4 Hinv Hloop)
    as (m' & st0' & Hm' & Hlast).
  unfold MemoryStore.on_memory, modify_state in Hbot. injection Hbot as _ <-.
  exists (history m'), st0', s4. split; [exact Hlast|].
  cbn [user_memories set_user_memories llm_calls http_calls].
  rewrite lookup_alter_eq, Hm'. repeat split.
Qed.

(** How the loop grows the history of the user it serves. *)
Lemma tool_call_loop_history (fuel : nat) (user_id : pystr) :
  forall (i : Z) (llm_reply : value) (st : State) (m : Memory)
         (i' : Z) (reply' : value) (st' : State),
    user_memories st !! user_id = Some m ->
    Agent.tool_call_loop lib w fuel user_id i llm_reply st = (Ok (i', reply'), st') ->
    exists tools,
      (length tools <= fuel)%nat
      /\ Forall (Expected.has_role (u "tool")) tools
      /\ user_memories st' !! user_id
         = Some (MemoryStore.with_history (history m ++ tools) m)
      /\ (forall other, other <> user_id ->
                        user_memories st' !! other = user_memories st !! other)
      /\ files st' = files st.
Proof.
  induction fuel as [|fuel IH]; intros i llm_reply st m i' reply' st' Hm H;
    cbn [Agent.tool_call_loop] in H.
  - injection H as <- <- <-. exists []. rewrite app_nil_r.
    repeat split; [cbn; lia | constructor | destruct m; exact Hm].
  - destruct (Agent.is_tool_call llm_reply && (i <? 4)).
    2:{ injection H as <- <- <-. exists []. rewrite app_nil_r.
        repeat split; [cbn; lia | constructor | destruct m; exact Hm]. }
    apply bind_inv in H as [(tool_call & s0 & H0 & H)|(e & _ & ?)]; [|discriminate].
    injection H0 as _ <-.
    apply bind_inv in H as [(tool_result & s1 & Hexec & H)|(e & _ & ?)]; [|discriminate].
    assert (Hs1 : Expected.same_store st s1).
    { destruct tool_call; try discriminate Hexec.
      pose proof (proj2 (execute_tool_effects lib w d) st) as Hk.
      rewrite Hexec in Hk. exact Hk. }
    destruct Hs1 as (_ & Hmem1 & Hfiles1).
    apply bind_inv in H as [(u0 & s2 & Hon & H)|(e & _ & ?)]; [|discriminate].
    injection Hon as _ <-.
    apply bind_inv in H as [(memory & s3 & Hthe & H)|(e & _ & ?)]; [|discriminate].
    injection Hthe as _ <-.
    apply bind_inv in H as [(reply & s4 & Hproc & H)|(e & _ & ?)]; [|discriminate].
    pose proof (keeps_process lib w (MemoryStore.get_history memory)
                  (set_user_memories
                     (alter (MemoryStore.add_tool_result tool_result) user_id
                        (user_memories s1)) s1)) as Hk.
    rewrite Hproc in Hk. destruct Hk as (_ & Hmem4 & Hfiles4). cbn [snd] in *.
    cbn [user_memories files set_user_memories] in Hmem4, Hfiles4.
    assert (Hm4 : user_memories s4 !! user_id
                  = Some (MemoryStore.add_tool_result tool_result m)).
    { rewrite Hmem4, lookup_alter_eq, Hmem1, Hm. reflexivity. }
    destruct (IH _ _ _ _ _ _ _ Hm4 H) as (tools & Hlen & Hroles & Hlook & Hothers & Hfiles).
    exists (MemoryStore.turn (u "tool") tool_result :: tools).
    repeat split.
    + cbn [length]. lia.
    + constructor; [eexists; reflexivity | exact Hroles].
    + rewrite Hlook. unfold MemoryStore.add_tool_result, MemoryStore.with_history.
      cbn [history Py.user_id summary_file]. rewrite <- app_assoc. reflexivity.
    + intros other Hne. rewrite (Hothers other Hne), Hmem4.
      rewrite lookup_alter_ne by congruence. rewrite Hmem1. reflexivity.
    + rewrite Hfiles, Hfiles4. exact Hfiles1.
Qed.

Lemma get_memory_run (user_id : pystr) (st : State) :
  exists m st0,
    MemoryStore.get_memory user_id st = (Ok m, st0)
    /\ user_memories st0 !! user_id = Some m
    /\ history m = default [] (history <$> user_memories st !! user_id)
    /\ (forall other, other <> user_id ->
                      user_memories st0 !! other = user_memories st !! other)
    /\ files st0 = files st /\ llm_calls st0 = llm_calls st
    /\ http_calls st0 = http_calls st /\ clock_reads st0 = clock_reads st.
Proof.
  unfold MemoryStore.get_memory, bind, get_state, modify_state, ret.
  destruct (user_memories st !! user_id) as [m|] eqn:E.
  - exists m, st. rewrite E. repeat split; auto.
  - eexists. eexists. split; [reflexivity|].
    cbn [user_memories files set_user_memories llm_calls http_calls clock_reads].
    rewrite lookup_insert_eq. repeat split; auto.
    intros other Hne. apply lookup_insert_ne. congruence.
Qed.

(** X6. A user turn that returns appends to the history of that user, in
    this order: the user's message, one tool turn per dispatched call (four
    at most), and the reply that is returned, as the assistant turn.  What
    was in the history stays, the memories of other users and the files are
    not touched. *)
Theorem handle_user_input_records_turn
    (user_id : pystr) (user_input : value) (st st' : State) (v : value) :
  Agent.handle_user_input lib w user_id user_input st = (Ok v, st') ->
  exists tools,
    (length tools <= 4)%nat
    /\ Forall (Expected.has_role (u "tool")) tools
    /\ history <$> user_memories st' !! user_id
       = Some (default [] (history <$> user_memories st !! user_id)
               ++ [MemoryStore.turn (u "user") user_input] ++ tools
               ++ [MemoryStore.turn (u "assistant") v])
    /\ (forall other, other <> user_id ->
                      user_memories st' !! other = user_memories st !! other)
    /\ files st' = files st.
Proof.
  intros H. unfold Agent.handle_user_input in H.
  destruct (get_memory_run user_id st)
    as (m & s0 & Hget & Hm0 & Hhist & Hothers0 & Hfiles0 & _).
  rewrite (bind_ok _ _ _ _ _ Hget) in H.
  apply bind_inv in H as [(u0 & s1 & Hon & H)|(e & _ & ?)]; [|discriminate].
  injection Hon as _ <-.
  apply bind_inv in H as [(memory & s2 & Hthe & H)|(e & _ & ?)]; [|discriminate].
  injection Hthe as _ <-.
  apply bind_inv in H as [(reply0 & s3 & Hproc & H)|(e & _ & ?)]; [|discriminate].
  match type of Hproc with
  | Llm.process _ _ ?h ?s = _ => pose proof (keeps_process lib w h s) as Hk
  end.
  rewrite Hproc in Hk. destruct Hk as (_ & Hmem3 & Hfiles3). cbn [snd] in *.
  cbn [user_memories files set_user_memories] in Hmem3, Hfiles3.
  apply bind_inv in H as [([i reply] & s4 & Hloop & H)|(e & _ & ?)]; [|discriminate].
  assert (Hm3 : user_memories s3 !! user_id
                = Some (MemoryStore.add_user_message user_input m)).
  { rewrite Hmem3, lookup_alter_eq, Hm0. reflexivity. }
  destruct (tool_call_loop_history 4 user_id _ _ _ _ _ _ _ Hm3 Hloop)
    as (tools & Hlen & Hroles & Hlook & Hothers4 & Hfiles4).
  apply bind_inv in H as [(u1 & s5 & Hon & H)|(e & _ & ?)]; [|discriminate].
  injection Hon as _ <-. injection H as <- <-.
  exists tools. repeat split; [exact Hlen | exact Hroles | | | ].
  - cbn [user_memories set_user_memories]. rewrite lookup_alter_eq, Hlook.
    cbn [fmap option_fmap option_map MemoryStore.add_bot_message
         MemoryStore.with_history MemoryStore.add_user_message history].
    rewrite Hhist, <- !app_assoc. reflexivity.
  - intros other Hne. cbn [user_memories set_user_memories].
    rewrite lookup_alter_ne by congruence.
    rewrite (Hothers4 other Hne), Hmem3, lookup_alter_ne by congruence.
    apply Hothers0, Hne.
  - cbn [files set_user_memories]. rewrite Hfiles4, Hfiles3. exact Hfiles0.
Qed.

End Turn.

Lemma handle_user_input_returns_text_witness :
  exists v st',
    Agent.handle_user_input Demo.lib
      (Demo.scripted [Some Demo.SAY_BOOK; Some Demo.CALL_BOOK; Some Demo.SAY_SLOTS])
      Demo.USER (VStr (u "Book a table for 4 tomorrow at 7pm")) initial_state
    = (Ok v, st')
    /\ Expected.is_text v /\ Agent.is_tool_call v = false.
Proof.
  pose (run := Agent.handle_user_input Demo.lib
                 (Demo.scripted [Some Demo.SAY_BOOK; Some Demo.CALL_BOOK;
                                 Some Demo.SAY_SLOTS])
                 Demo.USER (VStr (u "Book a table for 4 tomorrow at 7pm")) initial_state).
  exists (match fst run with Ok v => v | Raise _ => VNone end), (snd run).
  assert (E : Agent.handle_user_input Demo.lib
                (Demo.scripted [Some Demo.SAY_BOOK; Some Demo.CALL_BOOK;
                                Some Demo.SAY_SLOTS])
                Demo.USER (VStr (u "Book a table for 4 tomorrow at 7pm")) initial_state
              = (Ok (match fst run with Ok v => v | Raise _ => VNone end), snd run))
    by (vm_compute; reflexivity).
  split; [exact E|].
  destruct (handle_user_input_returns_text Demo.lib _ _ _ _ _ _ E) as (Ht & Hc & _).
  split; assumption.
Defined.

Lemma handle_user_input_records_turn_witness :
  exists v st' tools,
    Agent.handle_user_input Demo.lib
      (Demo.scripted [Some Demo.SAY_BOOK; Some Demo.CALL_BOOK; Some Demo.SAY_SLOTS])
      Demo.USER (VStr (u "Book a table for 4 tomorrow at 7pm")) initial_state
    = (Ok v, st')
    /\ (length tools <= 4)%nat
    /\ Forall (Expected.has_role (u "tool")) tools
    /\ history <$> user_memories st' !! Demo.USER
       = Some (default [] (history <$> user_memories initial_state !! Demo.USER)
               ++ [MemoryStore.turn (u "user")
                     (VStr (u "Book a table for 4 tomorrow at 7pm"))]
               ++ tools ++ [MemoryStore.turn (u "assistant") v])
    /\ (forall other, other <> Demo.USER ->
                      user_memories st' !! other = user_memories initial_state !! other)
    /\ files st' = files initial_state.
Proof.
  pose (run := Agent.handle_user_input Demo.lib
                 (Demo.scripted [Some Demo.SAY_BOOK; Some Demo.CALL_BOOK;
                                 Some Demo.SAY_SLOTS])
                 Demo.USER (VStr (u "Book a table for 4 tomorrow at 7pm")) initial_state).
  assert (E : Agent.handle_user_input Demo.lib
                (Demo.scripted [Some Demo.SAY_BOOK; Some Demo.CALL_BOOK;
                                Some Demo.SAY_SLOTS])
                Demo.USER (VStr (u "Book a table for 4 tomorrow at 7pm")) initial_state
              = (Ok (match fst run with Ok v => v | Raise _ => VNone end), snd run))
    by (vm_compute; reflexivity).
  destruct (handle_user_input_records_turn Demo.lib _ _ _ _ _ _ E) as (tools & Ht).
  exists (match fst run with Ok v => v | Raise _ => VNone end), (snd run), tools.
  split; [exact E | exact Ht].
Defined.

(** ** Failures of the booking API and of the dispatch *)

Section Silent.
Context {A B : Type}.

Lemma silent_ret (a : A) : Expected.silent (ret a).
Proof. intros st. reflexivity. Qed.

Lemma silent_raise (e : PyExn) : Expected.silent (@raise A e).
Proof. intros st. reflexivity. Qed.

Lemma silent_lift (r : Result A) : Expected.silent (lift r).
Proof. intros st. reflexivity. Qed.

Lemma silent_bind (m : M A) (f : A -> M B) :
  Expected.silent m -> (forall a, Expected.silent (f a)) -> Expected.silent (bind m f).
Proof.
  intros Hm Hf st. specialize (Hm st). unfold bind.
  destruct (m st) as [[a|e] st1]; cbn [snd] in *; subst st1; [apply Hf | reflexivity].
Qed.

End Silent.

Ltac silent_step :=
  match goal with
  | |- Expected.silent (ret _) => apply silent_ret
  | |- Expected.silent (raise _) => apply silent_raise
  | |- Expected.silent (lift _) => apply silent_lift
  | |- Expected.silent (bind _ _) => apply silent_bind; [ | intros ]
  | |- Expected.silent (if ?c then _ else _) => destruct c
  | |- Expected.silent (match ?x with _ => _ end) => destruct x
  end.

Ltac silent_tac := repeat silent_step.

Section OneRequest.
Variable lib : PyLib.
Variable w : World.

Lemma one_request_silent {A} (m : M A) : Expected.silent m -> Expected.one_request w m.
Proof. intros Hm st. left. apply Hm. Qed.

Lemma one_request_request_json (req : HttpRequest) :
  Expected.one_request w (Tools.request_json w req).
Proof.
  intros st. right. exists req. rewrite request_json_state.
  unfold Tools.request_json. split; [reflexivity|].
  split; [intros msg H | intros H]; rewrite H; reflexivity.
Qed.

(** Pure steps before the request. *)
Lemma one_request_after {A B} (m : M A) (f : A -> M B) :
  Expected.silent m -> (forall a, Expected.one_request w (f a)) ->
  Expected.one_request w (bind m f).
Proof.
  intros Hm Hf st. specialize (Hm st). unfold bind.
  destruct (m st) as [[a|e] st1]; cbn [snd] in *; subst st1; [apply Hf | left; reflexivity].
Qed.

(** Pure steps after the request. *)
Lemma one_request_then {A B} (m : M A) (f : A -> M B) :
  Expected.one_request w m -> (forall a, Expected.silent (f a)) ->
  Expected.one_request w (bind m f).
Proof.
  intros Hm Hf st. specialize (Hm st). unfold bind.
  destruct (m st) as [[a|e] st1] eqn:E; cbn [fst snd] in *.
  - specialize (Hf a st1).
    destruct Hm as [->|(req & -> & Hfail & Hjson)].
    + left. exact Hf.
    + right. exists req. split; [exact Hf|].
      split; [intros msg H; specialize (Hfail msg H) | intros H; specialize (Hjson H)];
        discriminate.
  - destruct Hm as [->|(req & -> & Hfail & Hjson)]; [left; reflexivity|].
    right. exists req. split; [reflexivity|].
    split; [intros msg H; specialize (Hfail msg H); injection Hfail as ->
           | intros H; specialize (Hjson H); injection Hjson as ->]; reflexivity.
Qed.

Lemma one_request_call_api (endpoint : pystr) (params : dict) :
  Expected.one_request w (Tools.call_api w endpoint params).
Proof. unfold Tools.call_api. apply one_request_request_json. Qed.

Lemma one_request_call_api_get (endpoint : pystr) (params : dict) (func_name : pystr) :
  Expected.one_request w (Tools.call_api_get lib w endpoint params func_name).
Proof.
  unfold Tools.call_api_get. apply one_request_after; [apply silent_lift|].
  intros reference. destruct (str_eqb _ _); [apply one_request_request_json|].
  destruct (truthy _); apply one_request_request_json.
Qed.

Ltac one_request_step :=
  match goal with
  | |- Expected.one_request _ (Tools.call_api _ _ _) => apply one_request_call_api
  | |- Expected.one_request _ (Tools.call_api_get _ _ _ _ _) =>
    apply one_request_call_api_get
  | |- Expected.one_request _ (bind (Tools.call_api _ _ _) _) =>
    apply one_request_then; [apply one_request_call_api | intros; silent_tac]
  | |- Expected.one_request _ (bind (Tools.call_api_get _ _ _ _ _) _) =>
    apply one_request_then; [apply one_request_call_api_get | intros; silent_tac]
  | |- Expected.one_request _ (bind _ _) =>
    apply one_request_after; [silent_tac | intros]
  | |- Expected.one_request _ (if ?c then _ else _) => destruct c
  | |- Expected.one_request _ (match ?x with _ => _ end) => destruct x
  | |- Expected.one_request _ (ret _) => apply one_request_silent, silent_ret
  | |- Expected.one_request _ (raise _) => apply one_request_silent, silent_raise
  | |- Expected.one_request _ (lift _) => apply one_request_silent, silent_lift
  end.

Ltac one_request_tac := repeat one_request_step.

Lemma one_request_handler (name : value) (f : dict -> M value) (args : dict) :
  hashed_lookup (Agent.tool_registry lib w) name = Ok (Some f) ->
  Expected.one_request w (f args).
Proof.
  intros H. destruct (registry_handlers _ _ _ _ H) as [->|[->|[->|[->| ->]]]].
  - unfold Tools.check_availability_kw, Tools.check_availability. cbv zeta.
    one_request_tac.
  - unfold Tools.make_reservation_kw, Tools.make_reservation. cbv zeta.
    one_request_tac.
  - unfold Tools.check_reservation_kw, Tools.check_reservation. cbv zeta.
    one_request_tac.
  - unfold Tools.modify_reservation_kw, Tools.modify_reservation. cbv zeta.
    one_request_tac.
  - unfold Tools.cancel_reservation_kw, Tools.cancel_reservation. cbv zeta.
    one_request_tac.
Qed.

(** X7. When the request a dispatch sent fails, the dispatcher says so:
    whatever tool the call names and whatever its arguments, if the request
    raised a RequestException with message msg, the result is the text
    "[Tool Error] API request failed: msg".  No connection, an HTTP error
    status and, from requests 2.27 on, an answer that is not JSON are such
    failures. *)
Theorem api_failure_is_labelled
    (tool_call : dict) (st : State) (req : HttpRequest) (msg : pystr) :
  http_calls (snd (Agent.execute_tool lib w tool_call st)) = http_calls st ++ [req] ->
  api w (length (http_calls st)) req = ApiRequestException msg ->
  fst (Agent.execute_tool lib w tool_call st)
  = Ok (VStr (u "[Tool Error] " ++ u "API request failed: " ++ msg)).
Proof.
  intros Hlog Hapi.
  destruct (hashed_lookup (Agent.tool_registry lib w)
              (dict_get_none (u "name") tool_call)) as [[f|]|e] eqn:Hf.
  2,3: exfalso; revert Hlog; unfold Agent.execute_tool, bind, lift; rewrite Hf;
       cbn [snd]; apply not_one_more.
  rewrite (execute_tool_found _ _ _ _ _ Hf) in Hlog |- *.
  destruct (dict_get_default (u "args") (VDict []) tool_call) as [| | | | | |kwargs];
    try (exfalso; revert Hlog; unfold raise; cbn [snd]; apply not_one_more).
  pose proof (one_request_handler _ _ kwargs Hf st) as Hone.
  destruct (f kwargs st) as [out st1]. cbn [fst snd] in Hone.
  assert (Hst1 : http_calls st1 = http_calls st ++ [req])
    by (destruct out as [v|[m|k info]]; exact Hlog).
  destruct Hone as [->|(req' & -> & Hfail & _)];
    [exfalso; exact (not_one_more _ _ Hst1)|].
  cbn [http_calls log_http] in Hst1. apply app_inj_tail in Hst1 as [_ ->].
  rewrite (Hfail msg Hapi). reflexivity.
Qed.

(** X8. A tool call whose name is not one of the five tools of the schema
    table (or is missing, or is not a str) is answered with the
    "[Error] Unknown tool" text; nothing is sent and nothing is stored. *)
Theorem unknown_tool_is_reported (tool_call : dict) (st : State) :
  (forall l, dict_get_none (u "name") tool_call <> VList l) ->
  (forall d, dict_get_none (u "name") tool_call <> VDict d) ->
  (forall s, dict_get_none (u "name") tool_call = VStr s ->
             ~ In s (map fst Llm.SCHEMAS)) ->
  Agent.execute_tool lib w tool_call st
  = (Ok (VStr (u "[Error] Unknown tool: `"
               ++ str_of lib (dict_get_none (u "name") tool_call) ++ u "`")), st).
Proof.
  intros Hl Hd Hs. unfold Agent.execute_tool, bind, lift. cbv zeta.
  destruct (dict_get_none (u "name") tool_call) as [| | | |s|l|d] eqn:E;
    try reflexivity; [|destruct (Hl l eq_refl)|destruct (Hd d eq_refl)].
  specialize (Hs s eq_refl).
  assert (Hfind : List.find (fun kv => str_eqb (fst kv) s) (Agent.tool_registry lib w)
                  = None).
  { unfold Agent.tool_registry. cbn [List.find fst snd].
    repeat match goal with
           | |- context [if str_eqb ?a s then _ else _] =>
             let Ea := fresh "Ea" in
             destruct (str_eqb a s) eqn:Ea;
               [apply str_eqb_eq in Ea; subst s; exfalso; apply Hs; vm_compute;
                repeat (first [left; reflexivity | right]) | ]
           end.
    reflexivity. }
  unfold hashed_lookup. rewrite Hfind. reflexivity.
Qed.

(** The schema table and the registry of handlers name the same tools. *)
Lemma schema_has_handler (name : pystr) (schema : Llm.Schema) :
  Expected.schema_of name = Some schema ->
  exists f, hashed_lookup (Agent.tool_registry lib w) (VStr name) = Ok (Some f).
Proof.
  unfold Expected.schema_of, Llm.SCHEMAS. cbn [List.find fst snd].
  repeat match goal with
         | |- context [if str_eqb ?a name then _ else _] =>
           let Ea := fresh "Ea" in
           destruct (str_eqb a name) eqn:Ea;
             [apply str_eqb_eq in Ea; subst name; intros _;
              unfold hashed_lookup, Agent.tool_registry; cbn [List.find fst snd];
              eval_str_eqb; eexists; reflexivity | ]
         end.
  discriminate.
Qed.

(** X9. Every tool call that [_validate_tool_call] accepts names a tool the
    dispatcher has a handler for: the "Unknown tool" answer cannot come from
    a call the pipeline hands over. *)
Theorem accepted_call_has_a_handler (tc tc' : dict) :
  Llm._validate_tool_call lib tc = (true, tc') ->
  exists f, hashed_lookup (Agent.tool_registry lib w) (dict_get_none (u "name") tc')
            = Ok (Some f).
Proof.
  intros H. destruct (validate_accepts_inv _ _ _ H)
    as (name & schema & args & Hname & Hschema & _ & _ & Hpeople).
  assert (Hname' : dict_get_none (u "name") tc' = VStr name).
  { destruct (dict_get (u "people") args) as [people|].
    - destruct Hpeople as (n & _ & ->).
      unfold dict_get_none, dict_get_default in *.
      rewrite dict_get_set_ne by exact args_is_not_name. exact Hname.
    - subst tc'. exact Hname. }
  rewrite Hname'. exact (schema_has_handler _ _ Hschema).
Qed.



End OneRequest.

Lemma api_failure_is_labelled_witness :
  fst (Agent.execute_tool Demo.lib (Demo.offline [])
         [(u "name", VStr (u "check_reservation"));
          (u "args", VDict [(u "booking_reference", VStr (u "ABC123"))])]
         initial_state)
  = Ok (VStr (u "[Tool Error] " ++ u "API request failed: " ++ u "Connection refused")).
Proof.
  apply (api_failure_is_labelled Demo.lib (Demo.offline [])
           [(u "name", VStr (u "check_reservation"));
            (u "args", VDict [(u "booking_reference", VStr (u "ABC123"))])]
           initial_state
           (Expected.check_reservation_request Demo.lib (VStr (u "ABC123")))
           (u "Connection refused")).
  - vm_compute. reflexivity.
  - vm_compute. reflexivity.
Defined.

Lemma unknown_tool_is_reported_witness :
  Agent.execute_tool Demo.lib (Demo.scripted [])
    [(u "name", VStr (u "order_pizza")); (u "args", VDict [])] initial_state
  = (Ok (VStr (u "[Error] Unknown tool: `" ++ u "order_pizza" ++ u "`")), initial_state).
Proof.
  apply (unknown_tool_is_reported Demo.lib (Demo.scripted [])
           [(u "name", VStr (u "order_pizza")); (u "args", VDict [])] initial_state).
  - intros l H. vm_compute in H. discriminate H.
  - intros d H. vm_compute in H. discriminate H.
  - intros s H. vm_compute in H. injection H as <-. vm_compute.
    intros [H|[H|[H|[H|[H|[]]]]]]; discriminate H.
Defined.

Lemma accepted_call_has_a_handler_witness :
  exists f,
    hashed_lookup (Agent.tool_registry Demo.lib (Demo.scripted []))
      (dict_get_none (u "name")
         [(u "name", VStr (u "cancel_reservation"));
          (u "args", VDict [(u "booking_reference", VStr (u "ABC123"))])])
    = Ok (Some f).
Proof.
  apply (accepted_call_has_a_handler Demo.lib (Demo.scripted [])
           [(u "name", VStr (u "cancel_reservation"));
            (u "args", VDict [(u "booking_reference", VStr (u "ABC123"))])]).
  vm_compute. reflexivity.
Defined.


(** ** What the requests to the booking API carry *)

Section Requests.
Variable lib : PyLib.
Variable w : World.


Ltac no_request :=
  let Hlog := fresh "Hlog" in
  intros Hlog; cbn [snd] in Hlog; destruct (not_one_more _ _ Hlog).



Lemma bind_pure_cases {A B} (P : A -> Prop) (m : M A) (f : A -> M B) (st : State) :
  Expected.silent m -> Expected.returns P m ->
  (exists a, P a /\ bind m f st = f a st) \/ (exists e, bind m f st = (Raise e, st)).
Proof.
  intros Hs Hr. unfold bind. specialize (Hs st).
  destruct (m st) as [[a|e] st1] eqn:E; cbn [snd] in Hs; subst st1.
  - left. exists a. split; [exact (Hr _ _ _ E) | reflexivity].
  - right. eauto.
Qed.

Lemma Forall_dict_set (P : pystr * value -> Prop) (k : pystr) (v : value) (d : dict) :
  P (k, v) -> Forall P d -> Forall P (dict_set k v d).
Proof.
  intros Hkv Hd. induction Hd as [|[k0 v0] r H0 Hr IH]; cbn [dict_set].
  - constructor; [exact Hkv | constructor].
  - destruct (str_eqb k0 k); constructor; assumption.
Qed.

Lemma patch_payload_set (ref : value) (k : pystr) (v : value) (p : dict) :
  u "booking_reference" <> k -> Expected.valid_change lib (k, v) ->
  Expected.patch_payload lib ref p -> Expected.patch_payload lib ref (dict_set k v p).
Proof.
  intros Hne Hv (changes & -> & Hall). exists (dict_set k v changes). split.
  - cbn [dict_set]. apply str_eqb_neq in Hne. rewrite Hne. reflexivity.
  - apply Forall_dict_set; assumption.
Qed.

Lemma changes_without_reference (changes : dict) :
  Forall (Expected.valid_change lib) changes ->
  dict_mem (u "booking_reference") changes = false.
Proof.
  unfold dict_mem. induction 1 as [|[k0 v0] r H0 Hr IH]; [reflexivity|].
  cbn [dict_get]. destruct (str_eqb k0 (u "booking_reference")) eqn:E; [|exact IH].
  exfalso. apply str_eqb_eq in E. subst k0. destruct H0 as [Hin _].
  unfold Expected.MODIFIABLE in Hin. cbn [In] in Hin.
  repeat (destruct Hin as [Hin|Hin]; [vm_compute in Hin; discriminate Hin|]).
  exact Hin.
Qed.

Ltac valid_change_tac :=
  unfold Expected.valid_change, Expected.MODIFIABLE; cbn [In];
  repeat match goal with
         | |- _ /\ _ => split
         | |- u ?a = u ?a \/ _ => left; reflexivity
         | |- u _ = u _ \/ _ => right
         | |- u ?a = u ?b -> _ =>
           first [ let H := fresh "H" in
                   intros H; vm_compute in H; discriminate H
                 | intros _ ]
         end.

(** X12. A request that changes a booking is sent only for a truthy
    reference; it is a PATCH to Booking/<reference> whose body does not hold
    the reference, holds at least one change, and holds only fields the
    function wrote after checking them: a date that parses, a normalized time
    that parses, the decimal text of a positive party size, a truthy special
    request, "true" or "false" for the leave-time flag. *)
Theorem modify_request_carries_valid_changes
    (booking_reference VisitDate VisitTime PartySize SpecialRequests
       IsLeaveTimeConfirmed : value) (st : State) (req : HttpRequest) :
  http_calls (snd (Tools.modify_reservation lib w booking_reference VisitDate VisitTime
                     PartySize SpecialRequests IsLeaveTimeConfirmed st))
  = http_calls st ++ [req] ->
  exists changes,
    truthy booking_reference = true
    /\ req = {| method := PATCH;
                url := Tools.BASE_URL ++ Tools.RESTAURANT_NAME ++ u "/" ++ u "Booking"
                       ++ u "/" ++ str_of lib booking_reference;
                form_headers := false; data := Some changes |}
    /\ changes <> []
    /\ dict_mem (u "booking_reference") changes = false
    /\ Forall (Expected.valid_change lib) changes.
Proof.
  unfold Tools.modify_reservation.
  destruct (truthy booking_reference) eqn:Href; cbn [negb]; [|unfold raise; no_request].
  cbv zeta.
  (* the date *)
  match goal with
  | |- context [bind ?m ?f st] =>
    destruct (bind_pure_cases (Expected.patch_payload lib booking_reference) m f st)
      as [(p1 & H1 & ->)|(e & ->)]
  end; [silent_tac| | |no_request].
  { destruct (truthy VisitDate);
      [|apply returns_ret; exists []; split; [reflexivity | constructor]].
    intros st0 v st0'. unfold bind, lift, ret.
    destruct (Tools._validate_date lib VisitDate) as [[]|e] eqn:Hvd; [|discriminate].
    intros [= <- _]. exists [(u "VisitDate", VisitDate)].
    split; [reflexivity|]. constructor; [|constructor].
    valid_change_tac. exact Hvd. }
  cbv beta.
  (* the time *)
  match goal with
  | |- context [bind ?m ?f st] =>
    destruct (bind_pure_cases (Expected.patch_payload lib booking_reference) m f st)
      as [(p2 & H2 & ->)|(e & ->)]
  end; [silent_tac| | |no_request].
  { destruct (truthy VisitTime); [|apply returns_ret; exact H1].
    intros st0 v st0'. unfold bind, lift, ret.
    destruct (Tools._normalize_time VisitTime) as [time'|e]; [|discriminate].
    destruct (Tools._validate_time lib time') as [[]|e] eqn:Hvt; [|discriminate].
    intros [= <- _]. apply patch_payload_set; [| |exact H1].
    - intros H; vm_compute in H; discriminate H.
    - valid_change_tac. exact Hvt. }
  cbv beta.
  (* the party size *)
  match goal with
  | |- context [bind ?m ?f st] =>
    destruct (bind_pure_cases (Expected.patch_payload lib booking_reference) m f st)
      as [(p3 & H3 & ->)|(e & ->)]
  end; [silent_tac| | |no_request].
  { intros st0 v st0'. unfold bind, lift, ret, raise.
    destruct PartySize; try (intros [= <- _]; exact H2); try discriminate;
      (destruct (int_of lib _) as [n|e]; [|discriminate]);
      (destruct (n <=? 0) eqn:Hn; [discriminate|]);
      intros [= <- _]; (apply patch_payload_set; [| |exact H2]);
      try (intros H; vm_compute in H; discriminate H);
      valid_change_tac; exists n; (split; [lia | reflexivity]). }
  cbv beta.
  (* the special requests and the leave-time flag *)
  match goal with
  | |- context [(length ?p =? 1)%nat] =>
    assert (H5 : Expected.patch_payload lib booking_reference p);
      [|destruct H5 as (changes & H5 & Hall); rewrite H5]
  end.
  { assert (H4 : Expected.patch_payload lib booking_reference
                   (if truthy SpecialRequests
                    then dict_set (u "SpecialRequests") SpecialRequests p3 else p3)).
    { destruct (truthy SpecialRequests) eqn:Hsr; [|exact H3].
      apply patch_payload_set; [| |exact H3].
      - intros H; vm_compute in H; discriminate H.
      - valid_change_tac. exact Hsr. }
    destruct IsLeaveTimeConfirmed; try exact H4;
      (apply patch_payload_set; [| |exact H4]);
      try (intros H; vm_compute in H; discriminate H);
      valid_change_tac; unfold Tools._bool_to_str;
      match goal with
      | |- context [if ?c then _ else _] => destruct c; [left|right]; reflexivity
      end. }
  destruct changes as [|c changes]; cbn [length Nat.eqb]; [unfold raise; no_request|].
  unfold Tools.call_api_get, bind, lift, subscript. cbn [dict_get dict_del].
  rewrite str_eqb_refl. eval_str_eqb. cbv iota.
  change (truthy (VStr (u "modify_reservation"))) with true. cbv iota.
  match goal with
  | |- context [Tools.request_json w ?r st] =>
    pose proof (request_json_state w r st) as Hst;
    destruct (Tools.request_json w r st) as [out st1]
  end.
  cbn [snd] in Hst. subst st1. intros Hlog.
  exists (c :: changes). split; [reflexivity|]. split.
  - destruct out as [resp|e]; cbn [snd log_http http_calls ret] in Hlog;
      apply app_inj_tail in Hlog as [_ <-]; reflexivity.
  - split; [discriminate|]. split; [apply changes_without_reference|]; exact Hall.
Qed.

(** Runs the request of the goal with the answer [Hapi] gives for it. *)
Ltac run_request Hapi :=
  let E := fresh "E" in
  pose proof (request_json_body w _ _ _ Hapi) as E;
  match type of E with
  | ?lhs = _ =>
    match goal with
    | |- context [Tools.request_json w ?r ?st] =>
      change (Tools.request_json w r st) with lhs
    end
  end;
  rewrite E.

(** X13. Cancelling with a truthy reference sends exactly one request: a
    POST to Booking/<reference>/Cancel whose body holds micrositeName,
    bookingReference and cancellationReasonId 1, and not the key
    booking_reference; the tool returns str() of the API's JSON answer. *)
Theorem cancel_request_shape (booking_reference : value) (st : State) :
  truthy booking_reference = true ->
  let req := {| method := POST;
                url := (Tools.BASE_URL ++ Tools.RESTAURANT_NAME ++ u "/" ++ u "Booking"
                        ++ u "/" ++ str_of lib booking_reference) ++ u "/Cancel";
                form_headers := false;
                data := Some [(u "micrositeName", VStr Tools.RESTAURANT_NAME);
                              (u "bookingReference", booking_reference);
                              (u "cancellationReasonId", VInt 1)] |} in
  snd (Tools.cancel_reservation lib w booking_reference st) = log_http req st
  /\ (forall body, api w (length (http_calls st)) req = ApiJson body ->
                   fst (Tools.cancel_reservation lib w booking_reference st)
                   = Ok (VStr (str_of lib body))).
Proof.
  intros Href. cbv zeta. unfold Tools.cancel_reservation. rewrite Href. cbn [negb].
  unfold Tools.call_api_get, bind, lift, subscript. cbn [dict_get dict_del].
  eval_str_eqb. cbv iota. rewrite ?str_eqb_refl.
  change (str_eqb [] (u "check_reservation")) with false.
  change (truthy (VStr [])) with false. cbv iota.
  split.
  - match goal with
    | |- context [Tools.request_json w ?r st] =>
      pose proof (request_json_state w r st) as Hst;
      destruct (Tools.request_json w r st) as [[resp|e] st1]
    end; exact Hst.
  - intros body Hapi. run_request Hapi. reflexivity.
Qed.

(** X14. An availability search with a truthy date and party size sends one
    form-encoded POST to AvailabilitySearch with the date, the party size as
    given and the channel ONLINE, and returns the available_slots member of
    the answer; an answer without that member raises instead of returning. *)
Theorem availability_returns_the_slots (date people : value) (st : State) :
  truthy date = true -> truthy people = true ->
  let req := {| method := POST;
                url := Tools.BASE_URL ++ Tools.RESTAURANT_NAME ++ u "/"
                       ++ u "AvailabilitySearch";
                form_headers := true;
                data := Some [(u "VisitDate", date); (u "PartySize", people);
                              (u "ChannelCode", VStr (u "ONLINE"))] |} in
  snd (Tools.check_availability w date people st) = log_http req st
  /\ (forall body, api w (length (http_calls st)) req = ApiJson body ->
                   fst (Tools.check_availability w date people st)
                   = subscript body (u "available_slots")).
Proof.
  intros Hd Hp. cbv zeta. unfold Tools.check_availability. rewrite Hd, Hp.
  cbn [negb orb]. unfold Tools.call_api, bind, lift. split.
  - match goal with
    | |- context [Tools.request_json w ?r st] =>
      pose proof (request_json_state w r st) as Hst;
      destruct (Tools.request_json w r st) as [[resp|e] st1]
    end; [destruct (subscript resp _)|]; exact Hst.
  - intros body Hapi. run_request Hapi.
    destruct (subscript body _); reflexivity.
Qed.

End Requests.


Lemma modify_request_carries_valid_changes_witness :
  exists changes,
    changes <> [] /\ dict_mem (u "booking_reference") changes = false
    /\ Forall (Expected.valid_change Demo.lib) changes.
Proof.
  destruct (modify_request_carries_valid_changes Demo.lib (Demo.scripted [])
              (VStr (u "ABC123")) (VStr (u "2025-08-10")) VNone VNone VNone VNone
              initial_state
              {| method := PATCH;
                 url := Tools.BASE_URL ++ Tools.RESTAURANT_NAME ++ u "/" ++ u "Booking"
                        ++ u "/" ++ u "ABC123";
                 form_headers := false;
                 data := Some [(u "VisitDate", VStr (u "2025-08-10"))] |}
              ltac:(vm_compute; reflexivity))
    as (changes & _ & _ & Hne & Hmem & Hall).
  exists changes. repeat split; assumption.
Defined.

Lemma cancel_request_shape_witness :
  fst (Tools.cancel_reservation Demo.lib (Demo.scripted []) (VStr (u "ABC123"))
         initial_state)
  = Ok (VStr (str_of Demo.lib
                (VDict [(u "booking_reference", VStr (u "ABC123"))]))).
Proof.
  apply (proj2 (cancel_request_shape Demo.lib (Demo.scripted []) (VStr (u "ABC123"))
                  initial_state ltac:(vm_compute; reflexivity))).
  vm_compute. reflexivity.
Defined.

Lemma availability_returns_the_slots_witness :
  fst (Tools.check_availability (Demo.scripted []) (VStr (u "2025-08-10")) (VInt 2)
         initial_state)
  = subscript (VDict [(u "available_slots", VList [VStr (u "19:00:00")])])
      (u "available_slots").
Proof.
  apply (proj2 (availability_returns_the_slots (Demo.scripted [])
                  (VStr (u "2025-08-10")) (VInt 2) initial_state
                  ltac:(vm_compute; reflexivity) ltac:(vm_compute; reflexivity))).
  vm_compute. reflexivity.
Defined.

(** ** The long-term memory *)

Section LongTermFacts.
Variable lib : PyLib.
Variable w : World.

(** Reading a well-formed log that a line was appended to gives the lines it
    had, then that line. *)
Lemma readlines_appended (content line : pystr) :
  Expected.log_wf content ->
  forallb (fun c => negb (Expected.is_newline c)) line = true ->
  MemoryStore.readlines (content ++ line ++ [10%N])
  = MemoryStore.readlines content ++ [line ++ [10%N]].
Proof.
  intros Hwf Hline. unfold MemoryStore.readlines.
  assert (Hl : MemoryStore.universal_newlines (line ++ [10%N]) = line ++ [10%N]).
  { apply universal_newlines_no_cr, line_has_no_cr, Hline. }
  destruct Hwf as [->|[body ->]].
  - cbn [app MemoryStore.universal_newlines MemoryStore.lines_keepends].
    rewrite Hl, (lines_keepends_one _ Hline). reflexivity.
  - destruct (universal_newlines_after_newline (length body) body (le_n _)) as [b Hb].
    rewrite Hb, Hl, lines_keepends_after_newline, (lines_keepends_one _ Hline).
    specialize (Hb []). cbn [MemoryStore.universal_newlines] in Hb.
    rewrite 2!List.app_nil_r in Hb. rewrite Hb. reflexivity.
Qed.

Lemma store_summary_run (self : Memory) (summary : value) (st : State) :
  MemoryStore.store_summary lib w self summary st
  = (Ok tt,
     set_files
       (<[summary_file self :=
            default [] (files st !! summary_file self)
            ++ json_dumps lib (Expected.summary_record
                                 (utcnow_isoformat w (clock_reads st)) summary
                                 (history self))
            ++ MemoryStore.NEWLINE]> (files st))
       (tick_clock st)).
Proof. reflexivity. Qed.

(** X15. [store_summary] only ever appends (the log is taken to be
    writable): the log of the memory gains exactly one line, the JSON text of
    the record (the time of the call, the summary, the messages of the
    session), after the lines it had; no other file, no memory and no request
    log changes, and the clock was read once. *)
Theorem store_summary_appends_one_record
    (self : Memory) (summary : value) (st : State) :
  let record := Expected.summary_record (utcnow_isoformat w (clock_reads st)) summary
                  (history self) in
  let st1 := snd (MemoryStore.store_summary lib w self summary st) in
  Expected.log_wf (default [] (files st !! summary_file self)) ->
  forallb (fun c => negb (Expected.is_newline c)) (json_dumps lib record) = true ->
  MemoryStore.readlines (default [] (files st1 !! summary_file self))
  = MemoryStore.readlines (default [] (files st !! summary_file self))
    ++ [json_dumps lib record ++ MemoryStore.NEWLINE]
  /\ (forall path, path <> summary_file self -> files st1 !! path = files st !! path)
  /\ user_memories st1 = user_memories st
  /\ llm_calls st1 = llm_calls st /\ http_calls st1 = http_calls st
  /\ clock_reads st1 = S (clock_reads st).
Proof.
  intros record st1 Hwf Hline. subst st1. rewrite store_summary_run.
  cbn [snd files set_files tick_clock user_memories llm_calls http_calls clock_reads].
  split; [|split; [intros path Hne; apply lookup_insert_ne; congruence|tauto]].
  rewrite lookup_insert_eq. cbn [default]. unfold MemoryStore.NEWLINE.
  exact (readlines_appended _ _ Hwf Hline).
Qed.

(** X16. [get_last_summary] never raises and changes nothing; when it
    returns something other than None, that value is the summary member of
    the JSON object on the last line of the log.  A missing or empty log, a
    last line that is no JSON, or one that is no object, all give None,
    whatever the earlier lines hold. *)
Theorem get_last_summary_reads_the_last_line (self : Memory) (st : State) :
  exists v,
    MemoryStore.get_last_summary lib self st = (Ok v, st)
    /\ (v <> VNone ->
        exists content line d,
          files st !! summary_file self = Some content
          /\ last (MemoryStore.readlines content) = Some line
          /\ json_loads lib line = Some (VDict d)
          /\ dict_get (u "summary") d = Some v).
Proof.
  unfold MemoryStore.get_last_summary, bind, get_state, ret.
  destruct (files st !! summary_file self) as [content|] eqn:Hfile;
    [|exists VNone; split; [reflexivity | intros H; destruct (H eq_refl)]].
  destruct (last (MemoryStore.readlines content)) as [line|] eqn:Hlast;
    [|exists VNone; split; [reflexivity | intros H; destruct (H eq_refl)]].
  destruct (json_loads lib line) as [obj|] eqn:Hload;
    [|exists VNone; split; [reflexivity | intros H; destruct (H eq_refl)]].
  destruct obj as [| | | | | |d];
    try (exists VNone; split; [reflexivity | intros H; destruct (H eq_refl)]).
  cbn [value_get]. unfold dict_get_default.
  destruct (dict_get (u "summary") d) as [v|] eqn:Hget;
    [|exists VNone; split; [reflexivity | intros H; destruct (H eq_refl)]].
  exists v. split; [reflexivity|]. intros _. exists content, line, d. repeat split; assumption.
Qed.

Lemma os_path_join_data (b : pystr) :
  MemoryStore.os_path_join MemoryStore.DATA_DIR b
  = if startswith (u "/") b then b else MemoryStore.DATA_DIR ++ u "/" ++ b.
Proof.
  unfold MemoryStore.os_path_join. destruct (startswith (u "/") b); [reflexivity|].
  vm_compute. reflexivity.
Qed.

(** Two users never share a log file. *)
Lemma summary_file_injective (a b : pystr) :
  summary_file (MemoryStore.new_memory a) = summary_file (MemoryStore.new_memory b) ->
  a = b.
Proof.
  unfold MemoryStore.new_memory. cbn [summary_file]. rewrite !os_path_join_data.
  assert (Habs : forall x y : pystr,
             startswith (u "/") (x ++ u "_memory.jsonl") = true ->
             x ++ u "_memory.jsonl"
             = MemoryStore.DATA_DIR ++ u "/" ++ y ++ u "_memory.jsonl" -> False).
  { intros x y Hx E. destruct x as [|c x].
    - vm_compute in Hx. discriminate Hx.
    - change (startswith (u "/") ((c :: x) ++ u "_memory.jsonl"))
        with ((47 =? c)%N && true) in Hx.
      rewrite andb_true_r in Hx. apply N.eqb_eq in Hx. subst c.
      vm_compute in E. discriminate E. }
  destruct (startswith (u "/") (a ++ u "_memory.jsonl")) eqn:Ea,
           (startswith (u "/") (b ++ u "_memory.jsonl")) eqn:Eb; intros E.
  - exact (app_inv_tail _ _ _ E).
  - destruct (Habs _ _ Ea E).
  - destruct (Habs _ _ Eb (eq_sym E)).
  - apply app_inv_head in E. apply app_inv_head in E. exact (app_inv_tail _ _ _ E).
Qed.

(** X17. Long-term memory is per user: storing a summary for one user never
    changes what [get_last_summary] returns for another, whatever the two
    sessions hold.  The user ids hold no path separator, so that their logs
    are two entries of the data directory and different paths are different
    files. *)
Theorem summaries_are_per_user
    (a b : pystr) (ha hb : list value) (summary : value) (st : State) :
  forallb (fun c => negb (c =? 47)%N) a = true ->
  forallb (fun c => negb (c =? 47)%N) b = true ->
  a <> b ->
  fst (MemoryStore.get_last_summary lib
         (MemoryStore.with_history hb (MemoryStore.new_memory b))
         (snd (MemoryStore.store_summary lib w
                 (MemoryStore.with_history ha (MemoryStore.new_memory a)) summary st)))
  = fst (MemoryStore.get_last_summary lib
           (MemoryStore.with_history hb (MemoryStore.new_memory b)) st).
Proof.
  intros _ _ Hab. rewrite store_summary_run. cbn [snd].
  unfold MemoryStore.get_last_summary, bind, get_state.
  cbn [files set_files tick_clock].
  change (summary_file (MemoryStore.with_history ha (MemoryStore.new_memory a)))
    with (summary_file (MemoryStore.new_memory a)).
  change (summary_file (MemoryStore.with_history hb (MemoryStore.new_memory b)))
    with (summary_file (MemoryStore.new_memory b)).
  rewrite lookup_insert_ne
    by (intros E; apply Hab; exact (summary_file_injective _ _ E)).
  destruct (files st !! summary_file (MemoryStore.new_memory b)) as [content|];
    [|reflexivity].
  destruct (last (MemoryStore.readlines content)) as [line|]; [|reflexivity].
  destruct (json_loads lib line) as [obj|]; [|reflexivity].
  destruct (value_get obj (u "summary") VNone); reflexivity.
Qed.

End LongTermFacts.

Lemma store_summary_appends_one_record_witness :
  MemoryStore.readlines
    (default []
       (files (snd (MemoryStore.store_summary Demo.lib (Demo.scripted [])
                      (MemoryStore.new_memory Demo.USER) (VStr Demo.SUMMARY)
                      initial_state))
        !! summary_file (MemoryStore.new_memory Demo.USER)))
  = MemoryStore.readlines
      (default [] (files initial_state !! summary_file (MemoryStore.new_memory Demo.USER)))
    ++ [json_dumps Demo.lib
          (Expected.summary_record
             (utcnow_isoformat (Demo.scripted []) (clock_reads initial_state))
             (VStr Demo.SUMMARY) (history (MemoryStore.new_memory Demo.USER)))
        ++ MemoryStore.NEWLINE].
Proof.
  apply (store_summary_appends_one_record Demo.lib (Demo.scripted [])
           (MemoryStore.new_memory Demo.USER) (VStr Demo.SUMMARY) initial_state).
  - left. vm_compute. reflexivity.
  - vm_compute. reflexivity.
Defined.

Lemma summaries_are_per_user_witness :
  fst (MemoryStore.get_last_summary Demo.lib
         (MemoryStore.with_history [] (MemoryStore.new_memory (u "user-2")))
         (snd (MemoryStore.store_summary Demo.lib (Demo.scripted [])
                 (MemoryStore.with_history [] (MemoryStore.new_memory (u "user-1")))
                 (VStr Demo.SUMMARY) initial_state)))
  = fst (MemoryStore.get_last_summary Demo.lib
           (MemoryStore.with_history [] (MemoryStore.new_memory (u "user-2")))
           initial_state).
Proof.
  apply (summaries_are_per_user Demo.lib (Demo.scripted []) (u "user-1") (u "user-2")
           [] [] (VStr Demo.SUMMARY) initial_state).
  - vm_compute. reflexivity.
  - vm_compute. reflexivity.
  - intros H. vm_compute in H. discriminate H.
Defined.

Lemma get_last_summary_reads_the_last_line_witness :
  exists content line d,
    files (snd (MemoryStore.store_summary Demo.lib (Demo.scripted [])
                  (MemoryStore.new_memory Demo.USER) (VStr Demo.SUMMARY) initial_state))
    !! summary_file (MemoryStore.new_memory Demo.USER) = Some content
    /\ last (MemoryStore.readlines content) = Some line
    /\ json_loads Demo.lib line = Some (VDict d)
    /\ dict_get (u "summary") d = Some (VStr Demo.SUMMARY).
Proof.
  destruct (get_last_summary_reads_the_last_line Demo.lib
              (MemoryStore.new_memory Demo.USER)
              (snd (MemoryStore.store_summary Demo.lib (Demo.scripted [])
                      (MemoryStore.new_memory Demo.USER) (VStr Demo.SUMMARY)
                      initial_state)))
    as (v & Hrun & Hv).
  assert (E : v = VStr Demo.SUMMARY).
  { apply (f_equal fst) in Hrun. vm_compute in Hrun. injection Hrun as <-.
    vm_compute. reflexivity. }
  subst v. apply Hv. discriminate.
Defined.

(** ** Sessions: greeting, summary, next greeting *)

Section Sessions.
Variable lib : PyLib.
Variable w : World.

Lemma summarize_run (history : list value) (st : State) :
  exists summary,
    Llm.summarize w history st = (Ok summary, log_llm (SummaryPrompt history) st)
    /\ summary <> []
    /\ (forall text, llm w (length (llm_calls st)) (SummaryPrompt history) = Some text ->
                     text <> [] -> summary = text).
Proof.
  unfold Llm.summarize, bind, Llm._call_openrouter, ret.
  destruct (llm w (length (llm_calls st)) (SummaryPrompt history)) as [[|c r]|];
    eexists; (split; [reflexivity|]); split.
  - intros H. vm_compute in H. discriminate H.
  - intros text [= <-] H. destruct (H eq_refl).
  - discriminate.
  - intros text [= <-] _. reflexivity.
  - intros H. vm_compute in H. discriminate H.
  - intros text H. discriminate H.
Qed.

Lemma end_session_run (user_id : pystr) (st : State) :
  let m := default (MemoryStore.new_memory user_id) (user_memories st !! user_id) in
  let summary := match fst (Llm.summarize w (history m) st) with
                 | Ok s => s
                 | Raise _ => []
                 end in
  exists st1,
    Agent.end_session lib w user_id st
    = (Ok (u "📝 Thanks for chatting! I've saved this summary: " ++ [10%N; 10%N]
           ++ Agent.QUOTE ++ summary ++ Agent.QUOTE), st1)
    /\ summary <> []
    /\ llm_calls st1 = llm_calls st ++ [SummaryPrompt (history m)]
    /\ http_calls st1 = http_calls st
    /\ user_memories st1 !! user_id = Some (MemoryStore.clear m)
    /\ (forall other, other <> user_id ->
                      user_memories st1 !! other = user_memories st !! other)
    /\ files st1
       = <[summary_file m :=
             default [] (files st !! summary_file m)
             ++ json_dumps lib (Expected.summary_record
                                  (utcnow_isoformat w (clock_reads st)) (VStr summary)
                                  (history m))
             ++ MemoryStore.NEWLINE]> (files st).
Proof.
  intros m summary.
  destruct (get_memory_the user_id st)
    as (st0 & Hget & Hm & Hoth & Hfiles & Hllm & Hhttp & Hclock).
  fold m in Hget, Hm.
  destruct (summarize_run (history m) st0) as (s & Hsum & Hne & _).
  assert (Hs : summary = s).
  { subst summary. revert Hsum. unfold Llm.summarize, bind, Llm._call_openrouter, ret.
    rewrite Hllm. cbn [fst]. intros [= <-]. reflexivity. }
  rewrite Hs. clear Hs summary.
  unfold Agent.end_session.
  rewrite (bind_ok _ _ _ _ _ Hget), (bind_ok _ _ _ _ _ Hsum).
  rewrite (bind_ok _ _ _ _ _ (store_summary_run lib w m (VStr s) _)).
  unfold MemoryStore.on_memory, bind, modify_state, ret.
  eexists. split; [reflexivity|]. split; [exact Hne|].
  cbn [llm_calls http_calls user_memories files clock_reads set_user_memories set_files
       tick_clock log_llm].
  rewrite Hllm, Hhttp, Hfiles, Hclock.
  repeat split.
  - rewrite lookup_alter_eq, Hm. reflexivity.
  - intros other Hne'. rewrite lookup_alter_ne by congruence. apply Hoth, Hne'.
Qed.


Lemma get_last_summary_pure (self : Memory) (st : State) :
  snd (MemoryStore.get_last_summary lib self st) = st.
Proof.
  unfold MemoryStore.get_last_summary, bind, get_state, ret.
  destruct (files st !! summary_file self) as [content|]; [|reflexivity].
  destruct (last (MemoryStore.readlines content)) as [line|]; [|reflexivity].
  destruct (json_loads lib line) as [obj|]; [|reflexivity].
  destruct (value_get obj (u "summary") VNone); reflexivity.
Qed.

Lemma get_last_summary_files (self : Memory) (st st' : State) :
  files st' = files st ->
  fst (MemoryStore.get_last_summary lib self st')
  = fst (MemoryStore.get_last_summary lib self st).
Proof.
  intros H. unfold MemoryStore.get_last_summary, bind, get_state, ret.
  cbv beta iota. rewrite H.
  destruct (files st !! summary_file self) as [content|]; [|reflexivity].
  destruct (last (MemoryStore.readlines content)) as [line|]; [|reflexivity].
  destruct (json_loads lib line) as [obj|]; [|reflexivity].
  destruct (value_get obj (u "summary") VNone); reflexivity.
Qed.

Lemma get_last_summary_ok (self : Memory) (st : State) :
  exists v, fst (MemoryStore.get_last_summary lib self st) = Ok v.
Proof.
  unfold MemoryStore.get_last_summary, bind, get_state, ret. cbv beta iota. cbn [fst].
  destruct (files st !! summary_file self) as [content|]; [|eexists; reflexivity].
  destruct (last (MemoryStore.readlines content)) as [line|]; [|eexists; reflexivity].
  destruct (json_loads lib line) as [obj|]; [|eexists; reflexivity].
  destruct (value_get obj (u "summary") VNone); eexists; reflexivity.
Qed.

(** The summary read from a log whose last write was a record. *)
Lemma last_summary_of_appended
    (self : Memory) (st : State) (content line timestamp : pystr) (summary : value)
    (messages : list value) :
  (files st !! summary_file self : option pystr)
  = Some (content ++ line ++ [10%N]) ->
  Expected.log_wf content ->
  forallb (fun c => negb (Expected.is_newline c)) line = true ->
  json_loads lib (line ++ [10%N])
  = Some (Expected.summary_record timestamp summary messages) ->
  fst (MemoryStore.get_last_summary lib self st) = Ok summary.
Proof.
  intros Hfile Hwf Hline Hload.
  unfold MemoryStore.get_last_summary, bind, get_state. cbv beta iota.
  rewrite Hfile.
  rewrite (readlines_last_appended _ _ Hwf Hline), Hload.
  unfold Expected.summary_record, value_get, dict_get_default.
  cbn [dict_get]. eval_str_eqb. cbn [dict_get]. reflexivity.
Qed.

Lemma start_conversation_run (user_id : pystr) (st : State) :
  let m := default (MemoryStore.new_memory user_id) (user_memories st !! user_id) in
  let user_summary := match fst (MemoryStore.get_last_summary lib m st) with
                      | Ok v => v
                      | Raise _ => VNone
                      end in
  let greeting :=
    if truthy user_summary then
      u "👋 Welcome back! Last time, you said: " ++ Agent.QUOTE
        ++ str_of lib user_summary ++ Agent.QUOTE ++ u ". How can I assist you today?"
    else
      u "👋 Hello! I’m your restaurant assistant. How can I help you make or manage a reservation?" in
  exists st1,
    Agent.start_conversation lib user_id st = (Ok greeting, st1)
    /\ user_memories st1 !! user_id
       = Some (MemoryStore.add_bot_message (VStr greeting) m)
    /\ (forall other, other <> user_id ->
                      user_memories st1 !! other = user_memories st !! other)
    /\ files st1 = files st /\ llm_calls st1 = llm_calls st
    /\ http_calls st1 = http_calls st /\ clock_reads st1 = clock_reads st.
Proof.
  intros m user_summary greeting.
  destruct (get_memory_the user_id st)
    as (st0 & Hget & Hm & Hoth & Hfiles & Hllm & Hhttp & Hclock).
  fold m in Hget, Hm.
  assert (Hsum : MemoryStore.get_last_summary lib m st0 = (Ok user_summary, st0)).
  { pose proof (get_last_summary_pure m st0) as Hp.
    pose proof (get_last_summary_files m st st0 Hfiles) as Hf.
    destruct (get_last_summary_ok m st0) as [v Hv].
    destruct (MemoryStore.get_last_summary lib m st0) as [out st'].
    cbn [fst snd] in Hp, Hf, Hv. subst st'. unfold user_summary.
    rewrite <- Hf, Hv. reflexivity. }
  unfold Agent.start_conversation.
  rewrite (bind_ok _ _ _ _ _ Hget), (bind_ok _ _ _ _ _ Hsum).
  cbv zeta. fold greeting.
  unfold MemoryStore.on_memory, bind, modify_state, ret.
  eexists. split; [reflexivity|].
  cbn [llm_calls http_calls user_memories files clock_reads set_user_memories].
  repeat split; try assumption.
  - rewrite lookup_alter_eq, Hm. reflexivity.
  - intros other Hne'. rewrite lookup_alter_ne by congruence. apply Hoth, Hne'.
Qed.

(** X19. Starting a conversation never raises and calls neither the LLM nor
    the booking API: it returns a greeting and appends it, as an assistant
    turn, to whatever the history of that user already holds; files and the
    memories of other users stay as they are.  A user without a log gets the
    plain greeting. *)
Theorem start_conversation_records_greeting (user_id : pystr) (st : State) :
  let m := default (MemoryStore.new_memory user_id) (user_memories st !! user_id) in
  exists greeting st1,
    Agent.start_conversation lib user_id st = (Ok greeting, st1)
    /\ history <$> user_memories st1 !! user_id
       = Some (history m ++ [MemoryStore.turn (u "assistant") (VStr greeting)])
    /\ (forall other, other <> user_id ->
                      user_memories st1 !! other = user_memories st !! other)
    /\ files st1 = files st /\ llm_calls st1 = llm_calls st
    /\ http_calls st1 = http_calls st
    /\ (files st !! summary_file m = None ->
        greeting
        = u "👋 Hello! I’m your restaurant assistant. How can I help you make or manage a reservation?").
Proof.
  intros m.
  destruct (start_conversation_run user_id st)
    as (st1 & Hrun & Hm & Hoth & Hfiles & Hllm & Hhttp & _).
  fold m in Hrun, Hm.
  eexists. exists st1. split; [exact Hrun|].
  split; [rewrite Hm; reflexivity|].
  repeat (split; [assumption|]).
  intros Hnone. unfold MemoryStore.get_last_summary, bind, get_state.
  rewrite Hnone. reflexivity.
Qed.

(** X20. A summary carries over to the next session: after [end_session],
    [start_conversation] for the same user returns the welcome-back greeting
    that quotes exactly the summary that was saved, and the new history holds
    that greeting only.  The log is what earlier sessions left, and the JSON
    library writes the record on one line and reads that line back. *)
Theorem session_summary_greets_next_session (user_id : pystr) (st : State) :
  let m := default (MemoryStore.new_memory user_id) (user_memories st !! user_id) in
  let summary := match fst (Llm.summarize w (history m) st) with
                 | Ok s => s
                 | Raise _ => []
                 end in
  let record := Expected.summary_record (utcnow_isoformat w (clock_reads st))
                  (VStr summary) (history m) in
  let greeting := u "👋 Welcome back! Last time, you said: " ++ Agent.QUOTE
                  ++ summary ++ Agent.QUOTE ++ u ". How can I assist you today?" in
  Expected.log_wf (default [] (files st !! summary_file m)) ->
  forallb (fun c => negb (Expected.is_newline c)) (json_dumps lib record) = true ->
  json_loads lib (json_dumps lib record ++ [10%N]) = Some record ->
  exists bye st1 st2,
    Agent.end_session lib w user_id st = (Ok bye, st1)
    /\ Agent.start_conversation lib user_id st1 = (Ok greeting, st2)
    /\ history <$> user_memories st2 !! user_id
       = Some [MemoryStore.turn (u "assistant") (VStr greeting)].
Proof.
  intros m summary record greeting Hwf Hline Hload.
  destruct (end_session_run user_id st)
    as (st1 & Hend & Hne & _ & _ & Hm1 & _ & Hfiles1).
  fold m in Hend, Hne, Hm1, Hfiles1. fold summary in Hend, Hne, Hfiles1.
  fold record in Hfiles1.
  destruct (start_conversation_run user_id st1) as (st2 & Hstart & Hm2 & _).
  rewrite Hm1 in Hstart, Hm2. cbn [default from_option id] in Hstart, Hm2.
  change (id (MemoryStore.clear m)) with (MemoryStore.clear m) in Hstart, Hm2.
  assert (Hlast : fst (MemoryStore.get_last_summary lib (MemoryStore.clear m) st1)
                  = Ok (VStr summary)).
  { apply (last_summary_of_appended _ _ (default [] (files st !! summary_file m))
             (json_dumps lib record) (utcnow_isoformat w (clock_reads st))
             (VStr summary) (history m)); try assumption.
    rewrite Hfiles1. change (summary_file (MemoryStore.clear m)) with (summary_file m).
    rewrite lookup_insert_eq. reflexivity. }
  rewrite Hlast in Hstart, Hm2.
  assert (Htruthy : truthy (VStr summary) = true)
    by (destruct summary; [destruct (Hne eq_refl) | reflexivity]).
  rewrite Htruthy in Hstart, Hm2. cbn [str_of] in Hstart, Hm2.
  fold greeting in Hstart, Hm2.
  eexists. exists st1, st2. split; [exact Hend|]. split; [exact Hstart|].
  rewrite Hm2. reflexivity.
Qed.

End Sessions.

Lemma session_summary_greets_next_session_witness :
  let m := default (MemoryStore.new_memory Demo.USER)
             (user_memories initial_state !! Demo.USER) in
  let summary := match fst (Llm.summarize (Demo.scripted [Some Demo.SUMMARY])
                              (history m) initial_state) with
                 | Ok s => s
                 | Raise _ => []
                 end in
  let greeting := u "👋 Welcome back! Last time, you said: " ++ Agent.QUOTE
                  ++ summary ++ Agent.QUOTE ++ u ". How can I assist you today?" in
  exists bye st1 st2,
    Agent.end_session Demo.lib (Demo.scripted [Some Demo.SUMMARY]) Demo.USER
      initial_state = (Ok bye, st1)
    /\ Agent.start_conversation Demo.lib Demo.USER st1 = (Ok greeting, st2)
    /\ history <$> user_memories st2 !! Demo.USER
       = Some [MemoryStore.turn (u "assistant") (VStr greeting)].
Proof.
  apply (session_summary_greets_next_session Demo.lib
           (Demo.scripted [Some Demo.SUMMARY]) Demo.USER initial_state).
  - left. vm_compute. reflexivity.
  - vm_compute. reflexivity.
  - vm_compute. reflexivity.
Defined.

Lemma start_conversation_records_greeting_witness :
  exists st1,
    Agent.start_conversation Demo.lib Demo.USER initial_state
    = (Ok (u "👋 Hello! I’m your restaurant assistant. How can I help you make or manage a reservation?"),
       st1).
Proof.
  destruct (start_conversation_records_greeting Demo.lib Demo.USER initial_state)
    as (greeting & st1 & Hrun & _ & _ & _ & _ & _ & Hgreeting).
  exists st1. rewrite (Hgreeting ltac:(vm_compute; reflexivity)) in Hrun. exact Hrun.
Defined.

(** ** Reading what the LLM wrote *)

Section Reading.
Variable lib : PyLib.
Variable w : World.




(** X22. A valid decision in the first completion that is for the user, or
    whose message is blank, ends the turn there: the pipeline returns the
    stripped message (the "share a bit more detail" text when it is blank),
    and the one completion request it sent is the receptionist's: the data
    entry worker is not consulted. *)
Theorem decision_for_the_user_is_passed_on
    (history : list value) (st : State) (d : dict) (message : pystr) :
  Llm._safe_json_load lib (llm w (length (llm_calls st)) (ReceptionistPrompt history))
  = VDict d ->
  Llm._validate_receptionist_json (VDict d) = true ->
  dict_get (u "message") d = Some (VStr message) ->
  dict_get (u "channel") d = Some (VStr (u "to_user")) \/ strip message = [] ->
  Llm.process lib w history st
  = (Ok (VStr (str_or (strip message) Llm.SHARE_MORE_DETAIL)),
     log_llm (ReceptionistPrompt history) st).
Proof.
  intros Hobj Hv Hm Hcase.
  assert (Hrec : Llm._receptionist lib w history st
                 = (Ok (VDict d), log_llm (ReceptionistPrompt history) st)).
  { unfold Llm._receptionist. cbn [Llm._receptionist_loop]. unfold bind.
    rewrite call_openrouter_run. cbv zeta. rewrite Hobj, Hv. reflexivity. }
  destruct Hcase as [Hch|Hblank];
    [exact (process_to_user lib w _ _ _ _ _ Hrec Hch Hm)|].
  unfold Llm.process. rewrite (bind_ok _ _ _ _ _ Hrec).
  destruct (dict_get_nonempty _ _ _ Hm) as (kv & rest & ->).
  cbn [truthy negb]. unfold bind, lift, value_get, dict_get_default.
  rewrite Hm. cbn [method_strip]. rewrite Hblank.
  cbn [truthy negb]. rewrite orb_true_r. reflexivity.
Qed.

(** ** Fences and surrounding prose *)

Lemma lstrip_by_all (p : N -> bool) (pre s : pystr) :
  forallb p pre = true -> lstrip_by p (pre ++ s) = lstrip_by p s.
Proof.
  induction pre as [|c r IH]; cbn [forallb app lstrip_by]; [reflexivity|].
  intros H. apply andb_true_iff in H as [Hc Hr]. rewrite Hc. exact (IH Hr).
Qed.

(** Stripping a text that is wrapped in characters to strip, and that itself
    starts and ends with a character to keep, gives the text. *)
Lemma strip_by_wrapped (p : N -> bool) (pre post mid : pystr) (c c' : N) :
  forallb p pre = true -> forallb p post = true -> p c = false -> p c' = false ->
  strip_by p (pre ++ (c :: mid ++ [c']) ++ post) = c :: mid ++ [c'].
Proof.
  intros Hpre Hpost Hc Hc'. unfold strip_by, rstrip_by.
  rewrite (lstrip_by_all _ _ _ Hpre). cbn [app lstrip_by]. rewrite Hc.
  change (c :: (mid ++ [c']) ++ post) with ((c :: mid ++ [c']) ++ post).
  rewrite rev_app_distr.
  rewrite (lstrip_by_all p (rev post) _)
    by (rewrite forallb_forall in *; intros x Hx; apply Hpost, in_rev, Hx).
  change (c :: mid ++ [c']) with ((c :: mid) ++ [c']) at 1.
  rewrite rev_app_distr. cbn [rev app lstrip_by]. rewrite Hc'.
  change (c' :: rev mid ++ [c]) with (rev [c'] ++ rev (c :: mid)).
  rewrite <- rev_app_distr, rev_involutive. reflexivity.
Qed.

Lemma strip_by_kept (p : N -> bool) (mid : pystr) (c c' : N) :
  p c = false -> p c' = false ->
  strip_by p (c :: mid ++ [c']) = c :: mid ++ [c'].
Proof.
  intros Hc Hc'.
  pose proof (strip_by_wrapped p [] [] mid c c' eq_refl eq_refl Hc Hc') as H.
  cbn [app] in H. rewrite app_nil_r in H. exact H.
Qed.

(** X23. Accidental code fences are tolerated: a JSON object that the LLM
    wrapped in a ```json fence is decoded exactly as the object alone. *)
Theorem fenced_object_is_read (inner : pystr) :
  Llm._safe_json_load lib
    (Some (u "```json" ++ [10%N] ++ (123%N :: inner ++ [125%N]) ++ [10%N] ++ u "```"))
  = Llm._safe_json_load lib (Some (123%N :: inner ++ [125%N])).
Proof.
  set (body := 123%N :: inner ++ [125%N]).
  assert (Hbody : strip body = body)
    by (apply strip_by_kept; vm_compute; reflexivity).
  assert (Hright : Llm._safe_json_load lib (Some body)
                   = match json_loads lib body with Some obj => obj | None => VNone end).
  { unfold Llm._safe_json_load. unfold body at 1. cbv zeta. fold body.
    rewrite Hbody. unfold body at 1. cbn [startswith]. reflexivity. }
  rewrite Hright. clear Hright.
  set (tagged := u "json" ++ [10%N] ++ body ++ [10%N]).
  assert (Htext : u "```json" ++ [10%N] ++ body ++ [10%N] ++ u "```"
                  = u "```" ++ tagged ++ u "```").
  { unfold tagged. change (u "```json") with (u "```" ++ u "json").
    rewrite <- !app_assoc. reflexivity. }
  rewrite Htext.
  assert (Hshape : tagged = 106%N :: (u "son" ++ [10%N] ++ body) ++ [10%N]).
  { unfold tagged. change (u "json") with (106%N :: u "son").
    cbn [app]. rewrite <- !app_assoc. reflexivity. }
  assert (Hstrip : strip (u "```" ++ tagged ++ u "```") = u "```" ++ tagged ++ u "```").
  { assert (Hwrap : u "```" ++ tagged ++ u "```"
                    = 96%N :: ([96%N; 96%N] ++ tagged ++ [96%N; 96%N]) ++ [96%N]).
    { change (u "```") with [96%N; 96%N; 96%N]. cbn [app].
      rewrite <- app_assoc. reflexivity. }
    rewrite Hwrap. apply strip_by_kept; vm_compute; reflexivity. }
  assert (Hticks : strip_chars (u "`") (u "```" ++ tagged ++ u "```") = tagged).
  { unfold strip_chars. rewrite Hshape.
    apply strip_by_wrapped; vm_compute; reflexivity. }
  assert (Hrest : strip (skipn 4 tagged) = body).
  { unfold tagged. change (skipn 4 (u "json" ++ [10%N] ++ body ++ [10%N]))
      with ([10%N] ++ body ++ [10%N]).
    unfold body. apply strip_by_wrapped; vm_compute; reflexivity. }
  unfold Llm._safe_json_load.
  change (u "```" ++ tagged ++ u "```") with (96%N :: 96%N :: 96%N :: tagged ++ u "```").
  cbv zeta.
  change (96%N :: 96%N :: 96%N :: tagged ++ u "```") with (u "```" ++ tagged ++ u "```").
  rewrite Hstrip.
  change (startswith (u "```") (u "```" ++ tagged ++ u "```")) with true.
  cbv iota. rewrite Hticks.
  change (startswith (u "json") (lower tagged)) with true.
  cbv iota. rewrite Hrest. reflexivity.
Qed.





End Reading.

Lemma decision_for_the_user_is_passed_on_witness :
  Llm.process Demo.lib (Demo.scripted [Some Demo.SAY_SLOTS])
    (Demo.first_turn "Any table on 10 August?") initial_state
  = (Ok (VStr (str_or (strip (u "We have a table at 19:00 on 2025-08-10."))
                 Llm.SHARE_MORE_DETAIL)),
     log_llm (ReceptionistPrompt (Demo.first_turn "Any table on 10 August?"))
       initial_state).
Proof.
  apply (decision_for_the_user_is_passed_on Demo.lib
           (Demo.scripted [Some Demo.SAY_SLOTS])
           (Demo.first_turn "Any table on 10 August?") initial_state
           [(u "channel", VStr (u "to_user"));
            (u "message", VStr (u "We have a table at 19:00 on 2025-08-10."))]
           (u "We have a table at 19:00 on 2025-08-10.")).
  - vm_compute. reflexivity.
  - vm_compute. reflexivity.
  - vm_compute. reflexivity.
  - left. vm_compute. reflexivity.
Defined.


(** ** Times, keywords and plain answers *)

Section More.
Variable lib : PyLib.
Variable w : World.

Lemma split_char_nonempty (sep : N) (s : pystr) : split_char sep s <> [].
Proof.
  induction s as [|c r IH]; cbn [split_char]; [discriminate|].
  destruct (c =? sep)%N; [discriminate|].
  destruct (split_char sep r); discriminate.
Qed.

(** One more separator, one more part. *)
Lemma length_split_char_app (sep : N) (s t : pystr) :
  length (split_char sep (s ++ sep :: t))
  = (length (split_char sep s) + length (split_char sep t))%nat.
Proof.
  induction s as [|c r IH]; cbn [app split_char].
  - rewrite N.eqb_refl. reflexivity.
  - destruct (c =? sep)%N; cbn [length]; [rewrite IH; reflexivity|].
    pose proof (split_char_nonempty sep (r ++ sep :: t)) as H1.
    pose proof (split_char_nonempty sep r) as H2.
    destruct (split_char sep (r ++ sep :: t)) as [|p ps]; [destruct (H1 eq_refl)|].
    destruct (split_char sep r) as [|q qs]; [destruct (H2 eq_refl)|].
    cbn [length] in *. exact IH.
Qed.

(** X25. A normalized time is a str with exactly three colon-separated
    parts, and normalizing it again changes nothing. *)
Theorem normalize_time_idempotent (time_str normalized : value) :
  Tools._normalize_time time_str = Ok normalized ->
  Tools._normalize_time normalized = Ok normalized
  /\ exists s, normalized = VStr s /\ length (split_char 58%N s) = 3%nat.
Proof.
  destruct time_str as [| | | |s| |]; try discriminate.
  unfold Tools._normalize_time at 1.
  destruct (length (split_char 58%N s) =? 2)%nat eqn:H2.
  - intros [= <-]. apply Nat.eqb_eq in H2.
    assert (H3 : length (split_char 58%N (s ++ u ":00")) = 3%nat).
    { change (u ":00") with (58%N :: [48%N; 48%N]).
      rewrite length_split_char_app, H2. reflexivity. }
    split; [|eauto]. unfold Tools._normalize_time. rewrite H3. reflexivity.
  - destruct (length (split_char 58%N s) =? 3)%nat eqn:H3; [|discriminate].
    intros [= <-]. split; [|apply Nat.eqb_eq in H3; eauto].
    unfold Tools._normalize_time. rewrite H2, H3. reflexivity.
Qed.




End More.

Lemma normalize_time_idempotent_witness :
  Tools._normalize_time (VStr (u "19:00:00")) = Ok (VStr (u "19:00:00"))
  /\ exists s, VStr (u "19:00:00") = VStr s /\ length (split_char 58%N s) = 3%nat.
Proof.
  apply (normalize_time_idempotent (VStr (u "19:00")) (VStr (u "19:00:00"))).
  vm_compute. reflexivity.
Defined.



(** ** The two copies of tools.py *)

Section Copies.
Variable lib : PyLib.
Variable w : World.

(** X28. The two copies of [make_reservation] do the same on every call
    that gives no leave-time flag and no customer data, and whose special
    request and room number are each None or truthy: same checks, same
    request, same result.  (They part on an empty special request or room
    number, which only the copy next to memory.py sends, and on the
    leave-time flag, which that copy sends as it is.) *)
Theorem copies_of_make_reservation_agree
    (date time people channel_code special_requests room_number : value) (st : State) :
  special_requests = VNone \/ truthy special_requests = true ->
  room_number = VNone \/ truthy room_number = true ->
  ToolsCopy.make_reservation lib w date time people channel_code special_requests
    VNone room_number VNone VNone VNone VNone VNone VNone VNone VNone VNone VNone st
  = Tools.make_reservation lib w date time people channel_code special_requests
      VNone room_number VNone st.
Proof.
  intros Hsr Hrn.
  unfold ToolsCopy.make_reservation, Tools.make_reservation. cbv zeta.
  assert (Hs : special_requests = VNone
               \/ (truthy special_requests = true /\ special_requests <> VNone))
    by (destruct Hsr as [->|H]; [left; reflexivity | right; split; [exact H|]];
        intros ->; discriminate H).
  assert (Hr : room_number = VNone
               \/ (truthy room_number = true /\ room_number <> VNone))
    by (destruct Hrn as [->|H]; [left; reflexivity | right; split; [exact H|]];
        intros ->; discriminate H).
  clear Hsr Hrn.
  destruct Hs as [->|[Hs Hs']], Hr as [->|[Hr Hr']];
    rewrite ?Hs, ?Hr; cbn [truthy ToolsCopy.set_given];
    try (destruct special_requests; [destruct (Hs' eq_refl)|..]);
    try (destruct room_number; [destruct (Hr' eq_refl)|..]);
    cbn [ToolsCopy.set_given]; reflexivity.
Qed.

End Copies.

Lemma copies_of_make_reservation_agree_witness :
  ToolsCopy.make_reservation Demo.lib (Demo.scripted []) (VStr (u "2025-08-10"))
    (VStr (u "19:00")) (VInt 4) (VStr (u "ONLINE")) (VStr (u "Window table"))
    VNone VNone VNone VNone VNone VNone VNone VNone VNone VNone VNone VNone
    initial_state
  = Tools.make_reservation Demo.lib (Demo.scripted []) (VStr (u "2025-08-10"))
      (VStr (u "19:00")) (VInt 4) (VStr (u "ONLINE")) (VStr (u "Window table"))
      VNone VNone VNone initial_state.
Proof.
  apply (copies_of_make_reservation_agree Demo.lib (Demo.scripted [])
           (VStr (u "2025-08-10")) (VStr (u "19:00")) (VInt 4) (VStr (u "ONLINE"))
           (VStr (u "Window table")) VNone initial_state).
  - right. reflexivity.
  - left. reflexivity.
Defined.
